(** * Dashboard-K3: column heuristics, form submission and map building

    A shallow embedding of the rule-based logic of the dashboard
    (utils.py, forms.py, map_builder.py, sheet_io.py, app.py) and the
    properties of its specification.

    Layout: the embedding of the source, module by module; the wording of
    the specification as definitions; sample inputs; then the lemmas and
    the theorems, one per claim, followed by further properties of the
    code.

    Conventions of the embedding.
    - Python [str] values are [string]s of ASCII characters; [str.lower],
      [str.strip] and the regular-expression classes [[0-9]], [\d] and
      [[A-Fa-f0-9]] are modelled on that alphabet.
    - A [dict] is a [gmap]; a [pd.Series] row is a [gmap] from column label
      to cell, read with [row.get]; the column list [df.columns] is kept
      next to it, as in the source. Column labels are taken distinct, as
      the headers of a sheet read with [get_all_records] are.
    - Python numbers are an abstract type with the three operations the
      code applies to them ([float(s)], [str(x)], truth value), gathered in
      the class [PyNum]; a concrete decimal instance is given for running
      the definitions. Where the code compares values ([in], [unique]),
      two numbers are equal when they are the same element of that type.
    - A cell of the data frame is a string, a number, or missing
      ([None]/[NaN]: the code treats both alike wherever it reads a cell
      of the sheet). The
      nullable scalar [pd.NA] is not modelled.
    - The remote worksheet, the uploads, the session copy of the data and
      the messages shown to the user are the fields of an explicit world
      that the submit handler transforms; the outcome of an upload is an
      input of the handler.
    - [strftime] and [strptime] are modelled for the directives the code
      uses; today's date, the [str] of an uploaded-file object, the MD5
      digest and the [str] of shapes and lists are inputs.
    - Page layout, the HTML around the lines of a popup, the legend, the
      conversion of column types after the load and the calls to the
      Sheets and Drive services are left out. *)

From Stdlib Require Import ZArith Lia Ascii String.
From stdpp Require Import gmap strings list fin_maps pretty.

Local Open Scope string_scope.
Local Open Scope list_scope.

(** ** Python string primitives *)

Module PyStr.

(** [c.lower()] on one ASCII character. *)
Definition lower_ascii (c : ascii) : ascii :=
  let n := nat_of_ascii c in
  if (65 <=? n)%nat && (n <=? 90)%nat then ascii_of_nat (n + 32) else c.

(** [s.lower()]. *)
Fixpoint lower (s : string) : string :=
  match s with
  | EmptyString => EmptyString
  | String c r => String (lower_ascii c) (lower r)
  end.

(** Characters removed by [str.strip()]: tab, LF, VT, FF, CR, the
    separators 28..31 and the space. *)
Definition is_space (c : ascii) : bool :=
  let n := nat_of_ascii c in
  ((9 <=? n)%nat && (n <=? 13)%nat) || ((28 <=? n)%nat && (n <=? 32)%nat).

Fixpoint lstrip (s : string) : string :=
  match s with
  | EmptyString => EmptyString
  | String c r => if is_space c then lstrip r else s
  end.

(** [rstrip] keeps a character when it is not a space or when something
    survives to its right. *)
Fixpoint rstrip (s : string) : string :=
  match s with
  | EmptyString => EmptyString
  | String c r =>
      match rstrip r with
      | EmptyString => if is_space c then EmptyString else String c EmptyString
      | r' => String c r'
      end
  end.

(** [s.strip()]. *)
Definition strip (s : string) : string := rstrip (lstrip s).

(** [s.startswith(p)]. *)
Fixpoint startswith (p s : string) : bool :=
  match p, s with
  | EmptyString, _ => true
  | String _ _, EmptyString => false
  | String a p', String b s' => if Ascii.eqb a b then startswith p' s' else false
  end.

(** [needle in hay] for strings. *)
Fixpoint contains (needle hay : string) : bool :=
  startswith needle hay ||
  match hay with
  | EmptyString => false
  | String _ r => contains needle r
  end.

Definition is_digit (c : ascii) : bool :=
  let n := nat_of_ascii c in (48 <=? n)%nat && (n <=? 57)%nat.

Definition is_hex_digit (c : ascii) : bool :=
  let n := nat_of_ascii c in
  is_digit c || ((65 <=? n)%nat && (n <=? 70)%nat)
             || ((97 <=? n)%nat && (n <=? 102)%nat).

Fixpoint forallb_str (p : ascii -> bool) (s : string) : bool :=
  match s with
  | EmptyString => true
  | String c r => p c && forallb_str p r
  end.

(** The longest prefix of digits, and what follows it. *)
Fixpoint span_digits (s : string) : string * string :=
  match s with
  | EmptyString => (EmptyString, EmptyString)
  | String c r =>
      if is_digit c
      then let '(d, rest) := span_digits r in (String c d, rest)
      else (EmptyString, s)
  end.

(** [any(k in s for k in ks)]. *)
Definition any_in (ks : list string) (s : string) : bool :=
  existsb (fun k => contains k s) ks.

(** [s in ks] for a list or tuple of strings. *)
Definition mem (s : string) (ks : list string) : bool :=
  existsb (String.eqb s) ks.

End PyStr.

(** ** Python numbers and data-frame cells *)

(** What the code does with a number: [float(s)] on a string ([None] is
    the [ValueError]), [str(x)] and the truth value of [x]. *)
Class PyNum (F : Type) := {
  py_float : string -> option F;
  py_str : F -> string;
  py_bool : F -> bool
}.

Inductive cell (F : Type) : Type :=
| CStr (s : string)
| CNum (x : F)
| CMissing.
Arguments CStr {F} s.
Arguments CNum {F} x.
Arguments CMissing {F}.

(** ** utils.py *)

Definition RISK_TO_HEX : gmap string string :=
  <["lower" := "#3d3d3d"]> (
  <["low" := "#7db86a"]> (
  <["medium" := "#f2e804"]> (
  <["high" := "#ffaa00"]> (
  <["emergency" := "#b10202"]> ∅)))).

Definition LEVEL_OPTIONS : list string :=
  ["Lower"; "Low"; "Medium"; "High"; "Emergency"].

Definition DEFAULT_HEX : string := "#3388ff".

Section Utils.
Context {F : Type} `{PyNum F}.

(** [str(v)] of a cell. *)
Definition cell_str (v : cell F) : string :=
  match v with
  | CStr s => s
  | CNum x => py_str x
  | CMissing => "nan"
  end.

(** A cell that holds something: [v] is true and [pd.isna(v)] is false.
    A string is true when it is not empty; [None] is false and [NaN] is
    missing. *)
Definition cell_present (v : cell F) : bool :=
  match v with
  | CStr s => negb (String.eqb s "")
  | CNum x => py_bool x
  | CMissing => false
  end.

(** [RISK_TO_HEX.get(key, default)]. *)
Definition risk_lookup (key default : string) : string :=
  match RISK_TO_HEX !! key with
  | Some h => h
  | None => default
  end.

(** [risk_to_color_hex(risk_value, default)] on a string. *)
Definition risk_to_color_hex (risk_value : string) (default : string) : string :=
  if String.eqb risk_value "" then default
  else risk_lookup (PyStr.lower (PyStr.strip risk_value)) default.

(** The same call on any cell: a missing value takes the first branch
    when it is [None]; when it is [NaN] it is looked up as ["nan"], which
    is no key of the table. *)
Definition risk_to_color_hex_cell (v : cell F) (default : string) : string :=
  match v with
  | CStr s => risk_to_color_hex s default
  | CNum x =>
      if py_bool x then risk_lookup (PyStr.lower (PyStr.strip (py_str x))) default
      else default
  | CMissing => default
  end.

End Utils.


(** ** Data frames *)

(** A row ([pd.Series]) maps column labels to cells. *)
Abbreviation Row F := (gmap string (cell F)).

Record DataFrame (F : Type) := {
  columns : list string;
  rows : list (Row F)
}.
Arguments columns {F} d.
Arguments rows {F} d.

(** [df.empty]: one of the two axes has length zero. *)
Definition df_empty {F} (df : DataFrame F) : bool :=
  (length (rows df) =? 0)%nat || (length (columns df) =? 0)%nat.

(** [row.get(c)]: a label that is absent gives [None]. *)
Definition row_get {F} (r : Row F) (c : string) : cell F :=
  default CMissing (r !! c).

(** [row.get(c, d)]. *)
Definition row_get_or {F} (r : Row F) (c : string) (d : cell F) : cell F :=
  default d (r !! c).

(** What the user sees from [st.info], [st.warning], [st.error] and
    [st.success]. *)
Inductive notice : Type :=
| Info (msg : string)
| Warning (msg : string)
| Error (msg : string)
| Success (msg : string).

(** ** map_builder.py *)

Module MapBuilder.

Definition _find_level_col (columns : list string) : option string :=
  List.find (fun c =>
    let lc := PyStr.lower c in
    PyStr.contains "level" lc &&
    (PyStr.contains "risiko" lc || PyStr.contains "resiko" lc)) columns.

Definition _find_indikator_surat_col (columns : list string) : option string :=
  List.find (fun c =>
    let lc := PyStr.lower c in
    PyStr.contains "indikator" lc && PyStr.contains "surat" lc) columns.

Definition _find_indikator_bungkus_col (columns : list string) : option string :=
  List.find (fun c =>
    let lc := PyStr.lower c in
    PyStr.contains "indikator" lc && PyStr.contains "bungkus" lc) columns.

(** [re.fullmatch(r"^#([A-Fa-f0-9]{6}|[A-Fa-f0-9]{3})$", s)]. *)
Definition hex_fullmatch (s : string) : bool :=
  match s with
  | String "#" r =>
      PyStr.forallb_str PyStr.is_hex_digit r &&
      ((String.length r =? 6)%nat || (String.length r =? 3)%nat)
  | _ => false
  end.

(** One match of [FLOAT_RE] = [([+-]?[0-9]+(?:\.[0-9]+)?)] anchored at
    the start of [s]: an optional sign, the digits that follow, and a
    dot with its digits when at least one digit follows the dot. *)
Definition match_float_at (s : string) : option string :=
  let '(sign, r) :=
    match s with
    | String "+" r' => ("+", r')
    | String "-" r' => ("-", r')
    | _ => ("", s)
    end in
  let '(ds, r2) := PyStr.span_digits r in
  match ds with
  | EmptyString => None
  | _ =>
      let frac :=
        match r2 with
        | String "." r3 =>
            match fst (PyStr.span_digits r3) with
            | EmptyString => ""
            | fs => String "." fs
            end
        | _ => ""
        end in
      Some (sign +:+ ds +:+ frac)
  end.

(** [re.findall(FLOAT_RE, s)]: the matches from left to right, each
    search resuming where the previous match ended. [skip] counts the
    characters still covered by the last match. *)
Fixpoint findall_from (skip : nat) (s : string) : list string :=
  match s with
  | EmptyString => []
  | String _ r =>
      match skip with
      | S k => findall_from k r
      | O =>
          match match_float_at s with
          | Some m => m :: findall_from (String.length m - 1) r
          | None => findall_from 0 r
          end
      end
  end.

Definition findall_float (s : string) : list string := findall_from 0 s.

Inductive marker_shape : Type := circle | square.

Section WithNum.
Context {F : Type} `{PyNum F}.

(** [pd.notna(val) and str(val).strip() != ""] and the value returned. *)
Definition _get_color_from_row (row : Row F) (df_cols : list string)
  : option string :=
  match List.find (fun c => PyStr.mem (PyStr.lower c) ["color"; "warna"]) df_cols with
  | Some color_col =>
      match row_get row color_col with
      | CMissing => None
      | val =>
          let s := PyStr.strip (cell_str val) in
          if String.eqb s "" then None else Some s
      end
  | None => None
  end.

(** [_valid_hex(h)] on whatever [fill_color] holds: [None], a number
    and a [NaN] are refused before the pattern is tried. *)
Definition _valid_hex (h : cell F) : bool :=
  match h with
  | CStr s => if String.eqb s "" then false else hex_fullmatch (PyStr.strip s)
  | CNum _ => false
  | CMissing => false
  end.

Definition _parse_coord_from_field (val : cell F) : option F * option F :=
  match val with
  | CMissing => (None, None)
  | _ =>
      match findall_float (cell_str val) with
      | f0 :: f1 :: _ =>
          match py_float f0, py_float f1 with
          | Some lat, Some lon => (Some lat, Some lon)
          | _, _ => (None, None)
          end
      | _ => (None, None)
      end
  end.

Definition _is_blank (val : cell F) : bool :=
  match val with
  | CMissing => true
  | CStr s => String.eqb (PyStr.strip s) ""
  | CNum _ => false
  end.

(** [float(str(v).strip())] guarded by [not _is_blank(v)]; an
    exception leaves [None]. *)
Definition safe_float (v : cell F) : option F :=
  if _is_blank v then None else py_float (PyStr.strip (cell_str v)).

Definition lat_keys (df_cols : list string) : list string :=
  List.filter (fun c => PyStr.mem (PyStr.lower c) ["latitude"; "lat"; "lintang"]) df_cols.

Definition lon_keys (df_cols : list string) : list string :=
  List.filter (fun c => PyStr.mem (PyStr.lower c) ["longitude"; "lon"; "lng"; "bujur"]) df_cols.

(** The value read from the first key, [None] when there is no key. *)
Definition first_key_value (row : Row F) (keys : list string) : cell F :=
  match keys with
  | k :: _ => row_get row k
  | [] => CMissing
  end.

Definition find_coord_col (df_cols : list string) : option string :=
  List.find (fun c =>
    PyStr.contains "koordinat" (PyStr.lower c) ||
    PyStr.contains "coord" (PyStr.lower c)) df_cols.

Definition _get_lat_lon_from_row (row : Row F) (df_cols : list string)
  : option F * option F :=
  let lat := first_key_value row (lat_keys df_cols) in
  let lon := first_key_value row (lon_keys df_cols) in
  let parsed :=
    if _is_blank lat || _is_blank lon then
      match find_coord_col df_cols with
      | Some coord_col => _parse_coord_from_field (row_get_or row coord_col (CStr ""))
      | None => (None, None)
      end
    else (None, None) in
  match parsed with
  | (Some plat, Some plon) => (Some plat, Some plon)
  | _ =>
      match safe_float lat, safe_float lon with
      | Some lat_f, Some lon_f => (Some lat_f, Some lon_f)
      | Some lat_f, None => (Some lat_f, None)
      | _, _ => (None, None)
      end
  end.


(** The guard [not v or pd.isna(v)] is the negation of [cell_present]. *)
Definition _get_marker_type_from_indikator_surat (indikator_value : cell F)
  : marker_shape :=
  if negb (cell_present indikator_value) then circle
  else
    let value_str := PyStr.lower (PyStr.strip (cell_str indikator_value)) in
    if PyStr.contains "surat himbauan" value_str then square
    else if PyStr.contains "selesai surat ke muspika" value_str then circle
    else circle.

Definition _get_border_color_from_indikator_bungkus (indikator_value : cell F)
  : string :=
  if negb (cell_present indikator_value) then "#000000"
  else
    let value_str := PyStr.lower (PyStr.strip (cell_str indikator_value)) in
    if PyStr.contains "pengiriman usulan" value_str then "#ff6b35"
    else if PyStr.contains "realisasi pembungkusan" value_str then "#28a745"
    else if PyStr.contains "belum ada tindak lanjut" value_str then "#dc3545"
    else "#000000".

(** One [CircleMarker] or [RegularPolygonMarker] added to the map. The
    popup, which decides nothing, is left out. *)
Record Marker := {
  location : F * F;
  fill_color : cell F;
  color : string;
  marker_type : marker_shape
}.

(** The initial view: the mean of the valid latitudes and longitudes
    (kept as the two lists the mean is taken of), or (0, 0). *)
Inductive map_center : Type :=
| Origin
| MeanOf (lats lons : list F).

Record FoliumMap := {
  center : map_center;
  markers : list Marker
}.

(** The four assignments to [fill_color] in the marker loop. *)
Definition fill_color_of_row (row : Row F) (df_cols : list string)
    (color_col : string) (level_col : option string) : cell F :=
  let fc0 :=
    match _get_color_from_row row df_cols with
    | Some s => CStr s
    | None => CMissing
    end in
  let fc1 :=
    if _valid_hex fc0 then fc0
    else if PyStr.mem color_col df_cols then row_get row color_col
    else CMissing in
  let fc2 :=
    match level_col with
    | Some lc =>
        if negb (_valid_hex fc1)
        then CStr (risk_to_color_hex_cell (row_get_or row lc (CStr "")) DEFAULT_HEX)
        else fc1
    | None => fc1
    end in
  if _valid_hex fc2 then fc2 else CStr "#3388ff".

(** The body of the marker loop for one row: [None] is the [continue]
    taken when a coordinate is missing. *)
Definition row_marker (df_cols : list string) (color_col : string)
    (row : Row F) : option Marker :=
  match _get_lat_lon_from_row row df_cols with
  | (Some lat, Some lon) =>
      Some {|
        location := (lat, lon);
        fill_color :=
          fill_color_of_row row df_cols color_col (_find_level_col df_cols);
        color :=
          match _find_indikator_bungkus_col df_cols with
          | Some c => _get_border_color_from_indikator_bungkus (row_get row c)
          | None => "#000000"
          end;
        marker_type :=
          match _find_indikator_surat_col df_cols with
          | Some c => _get_marker_type_from_indikator_surat (row_get row c)
          | None => circle
          end
      |}
  | _ => None
  end.

(** The valid points collected by the first loop over the rows. *)
Definition valid_points (df : DataFrame F) : list (F * F) :=
  omap (fun row =>
    match _get_lat_lon_from_row row (columns df) with
    | (Some lat, Some lon) => Some (lat, lon)
    | _ => None
    end) (rows df).

(** [make_map(df, color_col)]: the map, or [None] with the notice shown
    for an empty frame. *)
Definition make_map (df : DataFrame F) (color_col : string)
  : option FoliumMap * list notice :=
  if df_empty df then (None, [Info "Tidak ada data untuk dipetakan."])
  else
    let pts := valid_points df in
    (Some {|
       center :=
         match pts with
         | [] => Origin
         | _ => MeanOf (pts.*1) (pts.*2)
         end;
       markers := omap (row_marker (columns df) color_col) (rows df)
     |}, []).

(** *** The popup of a marker *)








End WithNum.

Arguments Marker F : clear implicits.
Arguments FoliumMap F : clear implicits.
Arguments map_center F : clear implicits.

End MapBuilder.

(** ** sheet_io.py *)

Module SheetIO.

(** [append_row(gc, row_values)]: one more row at the end of the remote
    worksheet. *)
Definition append_row {A} (worksheet : list (list A)) (row_values : list A)
  : list (list A) :=
  worksheet ++ [row_values].

End SheetIO.

(** ** Dates: [datetime.date], [strftime] and [strptime] *)

(** The library calls of the date helpers of forms.py, for the
    directives they use: [%d], [%m], [%Y] and literal characters. *)
Module PyDate.

Record date := { year : N; month : N; day : N }.

Definition is_leap (y : N) : bool :=
  ((y mod 4 =? 0)%N && negb (y mod 100 =? 0)%N) || (y mod 400 =? 0)%N.

Definition days_in_month (y m : N) : N :=
  if (m =? 2)%N then (if is_leap y then 29%N else 28%N)
  else if (m =? 4)%N || (m =? 6)%N || (m =? 9)%N || (m =? 11)%N then 30%N
  else 31%N.

(** The dates the type holds: years [MINYEAR] = 1 to [MAXYEAR] = 9999
    of the proleptic Gregorian calendar. *)
Definition valid (d : date) : bool :=
  (1 <=? year d)%N && (year d <=? 9999)%N &&
  (1 <=? month d)%N && (month d <=? 12)%N &&
  (1 <=? day d)%N && (day d <=? days_in_month (year d) (month d))%N.

Inductive directive : Type :=
| Dd            (* %d *)
| Dm            (* %m *)
| DY            (* %Y *)
| Lit (c : ascii).

Definition digit_char (n : N) : ascii := ascii_of_N (48 + n).

(** The value of a digit; the space that may stand for a leading zero
    counts as 0. *)
Definition digit_val (c : ascii) : N := (N_of_ascii c - 48)%N.

Definition two_digits (n : N) : string :=
  String (digit_char (n / 10)) (String (digit_char (n mod 10)) EmptyString).

Definition four_digits (n : N) : string :=
  String (digit_char (n / 1000))
    (String (digit_char ((n / 100) mod 10))
       (String (digit_char ((n / 10) mod 10))
          (String (digit_char (n mod 10)) EmptyString))).

(** [d.strftime(fmt)]. Days and months are written with two digits.
    For a year below 1000 the C library of the platform decides whether
    [%Y] is filled with zeros to four digits: [pads_year] is that
    choice. *)
Definition strftime_item (pads_year : bool) (d : date) (it : directive) : string :=
  match it with
  | Dd => two_digits (day d)
  | Dm => two_digits (month d)
  | DY => if pads_year || (1000 <=? year d)%N then four_digits (year d)
          else pretty (year d)
  | Lit c => String c EmptyString
  end.

Definition strftime (pads_year : bool) (fmt : list directive) (d : date) : string :=
  foldr (fun it out => strftime_item pads_year d it +:+ out) EmptyString fmt.

Definition between (lo hi c : ascii) : bool :=
  (N_of_ascii lo <=? N_of_ascii c)%N && (N_of_ascii c <=? N_of_ascii hi)%N.

(** One character of a class at the head of the text: its value and
    the rest of the text. *)
Definition one (p : ascii -> bool) (s : string) : list (N * string) :=
  match s with
  | String a r => if p a then [(digit_val a, r)] else []
  | EmptyString => []
  end.

(** Two characters, each of its class. *)
Definition two (p q : ascii -> bool) (s : string) : list (N * string) :=
  match s with
  | String a (String b r) =>
      if p a && q b then [((10 * digit_val a + digit_val b)%N, r)] else []
  | _ => []
  end.

(** The ways [%d] matches at the head of the text, in the order of the
    alternatives of its pattern, [3[0-1]|[1-2]\d|0[1-9]|[1-9]| [1-9]]. *)
Definition day_alts (s : string) : list (N * string) :=
  two (Ascii.eqb "3") (between "0" "1") s ++
  two (between "1" "2") PyStr.is_digit s ++
  two (Ascii.eqb "0") (between "1" "9") s ++
  one (between "1" "9") s ++
  two (Ascii.eqb " ") (between "1" "9") s.

(** [%m]: [1[0-2]|0[1-9]|[1-9]]. *)
Definition month_alts (s : string) : list (N * string) :=
  two (Ascii.eqb "1") (between "0" "2") s ++
  two (Ascii.eqb "0") (between "1" "9") s ++
  one (between "1" "9") s.

(** [%Y]: [\d\d\d\d]. *)
Definition year_alts (s : string) : list (N * string) :=
  match s with
  | String a (String b (String c (String d r))) =>
      if PyStr.is_digit a && PyStr.is_digit b && PyStr.is_digit c && PyStr.is_digit d
      then [((1000 * digit_val a + 100 * digit_val b + 10 * digit_val c + digit_val d)%N, r)]
      else []
  | _ => []
  end.

(** The matches of the pattern of a format at the start of the text,
    in the order in which a backtracking search meets them, each with
    the fields read and the text left over. *)
Fixpoint match_format (fmt : list directive) (s : string) (acc : date)
  : list (date * string) :=
  match fmt with
  | [] => [(acc, s)]
  | Dd :: rest =>
      flat_map (fun vr =>
                  match_format rest vr.2
                    {| year := year acc; month := month acc; day := vr.1 |})
               (day_alts s)
  | Dm :: rest =>
      flat_map (fun vr =>
                  match_format rest vr.2
                    {| year := year acc; month := vr.1; day := day acc |})
               (month_alts s)
  | DY :: rest =>
      flat_map (fun vr =>
                  match_format rest vr.2
                    {| year := vr.1; month := month acc; day := day acc |})
               (year_alts s)
  | Lit c :: rest =>
      match s with
      | String c' r => if Ascii.eqb c c' then match_format rest r acc else []
      | EmptyString => []
      end
  end.

(** [datetime.strptime(s, fmt).date()]; [None] is the [ValueError]
    raised when the pattern does not match, when the first match leaves
    text unconverted, or when the fields are no date. *)
Definition strptime (s : string) (fmt : list directive) : option date :=
  match match_format fmt s {| year := 1900; month := 1; day := 1 |} with
  | (d, EmptyString) :: _ => if valid d then Some d else None
  | _ => None
  end.

End PyDate.

(** ** forms.py *)

Module Forms.

Definition _find_level_col (df_columns : list string) : option string :=
  List.find (fun c =>
    let lc := PyStr.lower c in
    PyStr.contains "level" lc &&
    (PyStr.contains "risiko" lc || PyStr.contains "resiko" lc)) df_columns.

Definition _is_number_column (column_name : string) : bool :=
  let number_keywords := ["no"; "nomor"; "nomer"; "number"; "num"; "urut"] in
  let col_lower := PyStr.lower column_name in
  let excluded_keywords :=
    ["nomer surat pemohonan pembungkusan"; "nomer surat pfk"; "idpel"; "no meter"] in
  if PyStr.any_in excluded_keywords col_lower then false
  else PyStr.any_in number_keywords col_lower.

Definition _is_date_column (column_name : string) : bool :=
  let date_keywords :=
    ["tanggal"; "tgl"; "date"; "waktu"; "time"; "bulan"; "tahun"] in
  let col_lower := PyStr.lower column_name in
  if PyStr.any_in ["petugas"; "nama"; "penemu"] col_lower then false
  else PyStr.any_in date_keywords col_lower.

Definition _is_indicator_column (column_name : string) : bool :=
  let col_lower := PyStr.lower column_name in
  PyStr.any_in
    ["indikator surat"; "indikator bungkus"; "indikator pfk";
     "perubahan konstruksi mandiri"] col_lower.

Definition _get_indicator_options (column_name : string) : list string :=
  let col_lower := PyStr.lower column_name in
  if PyStr.contains "indikator surat" col_lower then
    ["Surat Himbauan"; "Selesai Surat Ke Muspika"]
  else if PyStr.contains "indikator bungkus" col_lower then
    ["Pengiriman Usulan Pembungkusan Kabel"; "Realisasi pembungkusan";
     "Belum ada Tindak lanjut Bungkus"]
  else if PyStr.contains "indikator pfk" col_lower then
    ["Realisasi PFK"; "Terima Permohonan PFK"; "Kirim AMS PFK Up3";
     "Terbit Register PFK"; "Tidak mau bayar PFK"; "Belum ada Tindak Lanjut PFK"]
  else if PyStr.contains "perubahan konstruksi mandiri" col_lower then
    ["Usulan Rubah Konstruksi"; "Belum Rubah Konstruksi"; "Realisasi Rubah Kons"]
  else [].

(** The argument of [_format_date_for_sheets]: [None], a date, or
    another object, given by its [str]. *)
Inductive date_arg : Type :=
| NoDate
| ADate (d : PyDate.date)
| NotADate (text : string).

Definition _format_date_for_sheets (pads_year : bool) (date_obj : date_arg) : string :=
  match date_obj with
  | NoDate => ""
  | ADate d =>
      PyDate.strftime pads_year
        [PyDate.Dd; PyDate.Lit "/"; PyDate.Dm; PyDate.Lit "/"; PyDate.DY] d
  | NotADate text => text
  end.

Definition date_formats : list (list PyDate.directive) :=
  [ [PyDate.Dd; PyDate.Lit "/"; PyDate.Dm; PyDate.Lit "/"; PyDate.DY];     (* %d/%m/%Y *)
    [PyDate.DY; PyDate.Lit "-"; PyDate.Dm; PyDate.Lit "-"; PyDate.Dd];     (* %Y-%m-%d *)
    [PyDate.Dd; PyDate.Lit "-"; PyDate.Dm; PyDate.Lit "-"; PyDate.DY];     (* %d-%m-%Y *)
    [PyDate.Dm; PyDate.Lit "/"; PyDate.Dd; PyDate.Lit "/"; PyDate.DY];     (* %m/%d/%Y *)
    [PyDate.DY; PyDate.Lit "/"; PyDate.Dm; PyDate.Lit "/"; PyDate.Dd] ].   (* %Y/%m/%d *)

(** The loop over the formats: the date of the first format that
    parses the text. *)
Fixpoint first_parsed (s : string) (fmts : list (list PyDate.directive))
  : option PyDate.date :=
  match fmts with
  | [] => None
  | fmt :: rest =>
      match PyDate.strptime s fmt with
      | Some d => Some d
      | None => first_parsed s rest
      end
  end.

(** [_parse_date_from_string(date_str)], with [date.today()] given. *)
Definition _parse_date_from_string (today : PyDate.date) (date_str : string)
  : PyDate.date :=
  if String.eqb date_str "" || String.eqb (PyStr.strip date_str) "" then today
  else default today (first_parsed (PyStr.strip date_str) date_formats).





(** [re.findall(r'\d+', v)]: the maximal runs of digits, left to right.
    [cur] is the run being read. *)
Fixpoint digit_runs_go (cur : option string) (s : string) : list string :=
  match s with
  | EmptyString => option_list cur
  | String c r =>
      if PyStr.is_digit c
      then digit_runs_go (Some (from_option (fun run => run +:+ String c "") (String c "") cur)) r
      else option_list cur ++ digit_runs_go None r
  end.

Definition digit_runs (s : string) : list string := digit_runs_go None s.

Definition NO_DATA : string := "Belum ada data".

Definition bads : list string := [""; "nan"; "none"].

(** The loop over [s_filtered[::-1]]: [None] when every value was
    skipped. *)
Fixpoint scan_from_bottom (vals : list string) : option string :=
  match vals with
  | [] => None
  | val :: rest =>
      let v := PyStr.strip val in
      if String.eqb v "" || PyStr.mem (PyStr.lower v) bads || String.eqb v "0"
      then scan_from_bottom rest
      else
        match digit_runs v with
        | [] => Some v
        | nums => Some (v +:+ " (angka: " +:+ List.last nums "" +:+ ")")
        end
  end.

(** The widget chosen for a column by the per-column loop of the form. *)
Inductive role : Type :=
| RSkip | RDocumentation | RFeeder | RIndicator | RDate | RNumber | RPlain.

Definition SKIP_KEYS : list string := ["latitude"; "longitude"; "color"].

(** The first test of the loop body: the level column and the
    coordinate and colour columns get no input of their own. *)
Definition is_skipped (level_col : option string) (c : string) : bool :=
  let cl := PyStr.lower c in
  bool_decide (level_col = Some c) || PyStr.any_in SKIP_KEYS cl ||
  PyStr.contains "koordinat" cl || PyStr.contains "coord" cl.

(** The chain of [if ...: ...; continue] of the loop body. *)
Definition classify_column (level_col : option string) (c : string) : role :=
  let cl := PyStr.lower c in
  if is_skipped level_col c then RSkip
  else if PyStr.contains "dokumentasi" cl then RDocumentation
  else if PyStr.contains "penyulang" cl then RFeeder
  else if _is_indicator_column c then RIndicator
  else if _is_date_column c then RDate
  else if _is_number_column c then RNumber
  else RPlain.

(** [s.split(",")]. *)
Fixpoint split_comma (s : string) : list string :=
  match s with
  | EmptyString => [EmptyString]
  | String c r =>
      if Ascii.eqb c "," then EmptyString :: split_comma r
      else
        match split_comma r with
        | h :: t => String c h :: t
        | [] => [String c EmptyString]
        end
  end.

(** What the user did with the form in one run of the script. *)
Record FormInput := {
  level_state : string;                       (* st.session_state[LEVEL_STATE_KEY] *)
  coordinates : string;                       (* the "Koordinat" text input *)
  widget_value : string -> string;            (* value of the widget of a column *)
  uploaded_file : string -> option string;    (* file given to the uploader of a column *)
  submitted : bool                            (* the form button *)
}.

(** How the upload of one file ends: the temporary copy cannot be
    written, no credentials, an exception while talking to Drive, no
    URL returned, or a URL. *)
Inductive upload_outcome : Type :=
| SaveFailed
| NoCredentials
| DriveError
| UploadRefused
| Uploaded (url : string).

Definition UPLOADED_FILE_PREFIX : string := "_uploaded_file_".
Definition COLUMN_NAME_PREFIX : string := "_column_name_".

(** The keys removed from [input_vals] before the row is built. *)
Definition is_temp_key (k : string) : bool :=
  PyStr.startswith UPLOADED_FILE_PREFIX k || PyStr.startswith COLUMN_NAME_PREFIX k.

Section WithNum.
Context {F : Type} `{PyNum F}.

Definition _get_last_number_from_column (df : DataFrame F) (column_name : string)
  : string :=
  if df_empty df || negb (PyStr.mem column_name (columns df)) then NO_DATA
  else
    let s := map (fun r => PyStr.strip (cell_str (row_get r column_name))) (rows df) in
    let s_filtered := List.filter (fun x => negb (PyStr.mem (PyStr.lower x) bads)) s in
    match s_filtered with
    | [] => NO_DATA
    | _ =>
        match scan_from_bottom (rev s_filtered) with
        | Some found => found
        | None => List.last s_filtered ""
        end
    end.

(** The coordinate input: [(lat, lon)] and the error shown when the
    text is not two floats around one comma. *)
Definition parse_coordinates (coordinates : string)
  : (option F * option F) * list notice :=
  let failed :=
    ((None, None),
     [Error "Format koordinat salah. Pastikan formatnya adalah Latitude, Longitude (misal: -7.93813533, 112.6332461)."]) in
  if String.eqb coordinates "" then ((None, None), [])
  else
    match split_comma coordinates with
    | [lat_str; lon_str] =>
        match py_float (PyStr.strip lat_str), py_float (PyStr.strip lon_str) with
        | Some lat, Some lon => ((Some lat, Some lon), [])
        | _, _ => failed
        end
    | _ => failed
    end.

(** A value of the dict [input_vals]: an entered value, or an uploaded
    file waiting to be sent. *)
Inductive ival : Type :=
| IVal (v : cell F)
| IFile (name : string).

Definition opt_num (x : option F) : cell F :=
  match x with
  | Some v => CNum v
  | None => CMissing
  end.

(** One turn of the per-column loop on [input_vals]. *)
Definition render_column (inp : FormInput) (level_col : option string)
    (input_vals : gmap string ival) (c : string) : gmap string ival :=
  match classify_column level_col c with
  | RSkip => input_vals
  | RDocumentation =>
      let with_file :=
        match uploaded_file inp c with
        | Some f =>
            <[COLUMN_NAME_PREFIX +:+ c := IVal (CStr c)]>
              (<[UPLOADED_FILE_PREFIX +:+ c := IFile f]> input_vals)
        | None => input_vals
        end in
      <[c := IVal (CStr "")]> with_file
  | _ => <[c := IVal (CStr (widget_value inp c))]> input_vals
  end.

(** [input_vals] when the form has been drawn. *)
Definition render_inputs (inp : FormInput) (level_col : option string)
    (lat lon : option F) (df_columns : list string) : gmap string ival :=
  foldl (render_column inp level_col)
    (<["Longitude" := IVal (opt_num lon)]> (<["Latitude" := IVal (opt_num lat)]> ∅))
    df_columns.

(** The state threaded through the upload loop: the dict, the columns
    whose file was handed to the upload path, and the notices. *)
Definition upload_state : Type := gmap string ival * list string * list notice.

(** One turn of the upload loop. A value stored under the temporary
    key that is no file cannot be saved ([save_uploaded_file] catches
    the exception and returns [None]). *)
Definition upload_column (drive : string -> upload_outcome)
    (st : upload_state) (col : string) : upload_state :=
  let '(input_vals, attempted, out) := st in
  let blank := <[col := IVal (CStr "")]> input_vals in
  match input_vals !! (UPLOADED_FILE_PREFIX +:+ col) with
  | None => st
  | Some (IVal CMissing) => st
  | Some (IVal _) =>
      (blank, attempted ++ [col], out ++ [Error "Gagal menyimpan gambar"])
  | Some (IFile _) =>
      match drive col with
      | SaveFailed =>
          (blank, attempted ++ [col], out ++ [Error "Gagal menyimpan gambar"])
      | NoCredentials =>
          (input_vals, attempted ++ [col],
           out ++ [Error "Gagal mendapatkan kredensial OAuth untuk upload"])
      | DriveError =>
          (blank, attempted ++ [col], out ++ [Error ("Error upload file " +:+ col)])
      | UploadRefused =>
          (blank, attempted ++ [col],
           out ++ [Warning ("File " +:+ col +:+ " gagal diupload. Data akan disimpan tanpa lampiran.")])
      | Uploaded file_url =>
          (<[col := IVal (CStr file_url)]> input_vals, attempted ++ [col],
           out ++ [Success ("File " +:+ col +:+ " berhasil diupload menggunakan OAuth")])
      end
  end.

Definition process_uploads (drive : string -> upload_outcome)
    (input_vals : gmap string ival) (df_columns : list string) : upload_state :=
  foldl (upload_column drive) (input_vals, [], []) df_columns.

Definition ival_cell (v : ival) : option (cell F) :=
  match v with
  | IVal c => Some c
  | IFile _ => None
  end.

(** The dict once the temporary keys are popped. Files are stored
    under temporary keys only, so what remains are entered values. *)
Definition drop_temp_keys (input_vals : gmap string ival) : gmap string (cell F) :=
  omap ival_cell (filter (fun kv => is_temp_key kv.1 = false) input_vals).

(** [input_vals.get(col, "")]. *)
Definition get_or_empty (input_vals : gmap string (cell F)) (col : string) : cell F :=
  default (CStr "") (input_vals !! col).

(** The value appended to [row] for one column. *)
Definition row_value (level_col : option string) (level_value auto_hex : string)
    (lat lon : option F) (input_vals : gmap string (cell F)) (col : string)
  : cell F :=
  let cl := PyStr.lower col in
  if bool_decide (level_col = Some col) then CStr level_value
  else if PyStr.contains "koordinat" cl || String.eqb cl "coord" || String.eqb cl "coordinates" then
    match lat, lon with
    | Some la, Some lo => CStr (py_str la +:+ ", " +:+ py_str lo)
    | _, _ => CStr ""
    end
  else if String.eqb cl "color" then CStr auto_hex
  else if PyStr.mem cl ["latitude"; "lat"; "longitude"; "lon"; "lng"] then CStr ""
  else if PyStr.contains "dokumentasi" cl then get_or_empty input_vals col
  else if _is_date_column col then get_or_empty input_vals col
  else get_or_empty input_vals col.

(** The loop [for col in df.columns: ... row.append(...)]. *)
Definition build_row (level_col : option string) (level_value auto_hex : string)
    (lat lon : option F) (input_vals : gmap string (cell F))
    (df_columns : list string) : list (cell F) :=
  foldl (fun row col =>
           row ++ [row_value level_col level_value auto_hex lat lon input_vals col])
        [] df_columns.

(** The value stored in [new_row] for one column of the local copy. *)
Definition mirror_value (level_col : option string) (level_value auto_hex : string)
    (coordinates : string) (lat lon : option F)
    (input_vals : gmap string (cell F)) (col : string) : cell F :=
  let cl := PyStr.lower col in
  if bool_decide (level_col = Some col) then CStr level_value
  else if PyStr.contains "koordinat" cl || String.eqb cl "coord" || String.eqb cl "coordinates" then
    CStr coordinates
  else if String.eqb cl "color" then CStr auto_hex
  else if PyStr.mem cl ["latitude"; "lat"] then
    match lat with Some la => CNum la | None => CStr "" end
  else if PyStr.mem cl ["longitude"; "lon"; "lng"] then
    match lon with Some lo => CNum lo | None => CStr "" end
  else if _is_date_column col then get_or_empty input_vals col
  else get_or_empty input_vals col.

Definition build_new_row (level_col : option string) (level_value auto_hex : string)
    (coordinates : string) (lat lon : option F)
    (input_vals : gmap string (cell F)) (df_columns : list string) : Row F :=
  foldl (fun new_row col =>
           <[col := mirror_value level_col level_value auto_hex coordinates
                      lat lon input_vals col]> new_row)
        ∅ df_columns.

(** [pd.concat([local_df, pd.DataFrame([new_row])], ignore_index=True)]:
    the row goes last; labels the frame does not have yet are added
    after its own. *)
Definition concat_row (local_df : DataFrame F) (new_row : Row F)
    (df_columns : list string) : DataFrame F :=
  {| columns :=
       columns local_df ++
       list_difference (remove_dups df_columns) (columns local_df);
     rows := rows local_df ++ [new_row] |}.

(** What a submission can touch. *)
Record World := {
  sheet : list (list (cell F));            (* rows of the remote worksheet *)
  uploads : list string;                   (* columns whose file went to the upload path *)
  session_df : DataFrame F;                (* st.session_state.df *)
  session_map : option (MapBuilder.FoliumMap F);   (* st.session_state.map *)
  notices : list notice                    (* messages shown, oldest first *)
}.

Definition notify (w : World) (ns : list notice) : World :=
  {| sheet := sheet w; uploads := uploads w; session_df := session_df w;
     session_map := session_map w; notices := notices w ++ ns |}.

(** The lines of the closing summary of the dates entered. *)
Definition date_summary (input_vals : gmap string (cell F))
    (df_columns : list string) : list string :=
  omap (fun col =>
    if _is_date_column col then
      match input_vals !! col with
      | Some v =>
          if cell_present v
          then Some ("**" +:+ col +:+ "**: " +:+ cell_str v)
          else None
      | None => None
      end
    else None) df_columns.

(** The row built by a submission that passes validation (the
    variable [row] of the source). *)
Definition assembled_row (df : DataFrame F) (inp : FormInput)
    (drive : string -> upload_outcome) : list (cell F) :=
  let level_col := _find_level_col (columns df) in
  let '(lat, lon) := fst (parse_coordinates (coordinates inp)) in
  let input_vals := render_inputs inp level_col lat lon (columns df) in
  let '(uploaded_vals, _, _) := process_uploads drive input_vals (columns df) in
  build_row level_col (level_state inp)
    (risk_to_color_hex (level_state inp) DEFAULT_HEX)
    lat lon (drop_temp_keys uploaded_vals) (columns df).

(** The part of the submit handler that follows the validation of the
    level: uploads, clean-up, the row, the local copy and its map, and
    the closing messages. *)
Definition commit_submission (df : DataFrame F) (inp : FormInput)
    (drive : string -> upload_outcome) (w : World)
    (level_col : option string) (lat lon : option F)
    (input_vals : gmap string ival) : World :=
  let level_value := level_state inp in
  let auto_hex := risk_to_color_hex level_value DEFAULT_HEX in
  let '(uploaded_vals, attempted, upload_notices) :=
    process_uploads drive input_vals (columns df) in
  let input_vals' := drop_temp_keys uploaded_vals in
  let row := build_row level_col level_value auto_hex lat lon input_vals' (columns df) in
  let local_df :=
    if df_empty (session_df w)
    then {| columns := columns df; rows := [] |}
    else session_df w in
  let new_row :=
    build_new_row level_col level_value auto_hex (coordinates inp) lat lon
      input_vals' (columns df) in
  let df' := concat_row local_df new_row (columns df) in
  {| sheet := sheet w;
     uploads := uploads w ++ attempted;
     session_df := df';
     session_map := fst (MapBuilder.make_map df' "Color");
     notices :=
       notices w ++ upload_notices ++
       [Success "Baris berhasil ditambahkan ke Google Sheets (peta diperbarui secara lokal)."] ++
       match date_summary input_vals' (columns df) with
       | [] => []
       | lines =>
           [Info (foldl (fun acc l => acc +:+ String "010" l)
                        "**Tanggal yang diinput:**" lines)]
       end |}.

(** [render_input_form(df, gc)]: one run of the form. Neither the
    remote client [gc] nor [append_row] occurs in the body. *)
Definition render_input_form (df : DataFrame F) (inp : FormInput)
    (drive : string -> upload_outcome) (w : World) : World :=
  match columns df with
  | [] => notify w [Warning "Sheet tampak tidak memiliki header kolom."]
  | _ =>
      let level_col := _find_level_col (columns df) in
      let '((lat, lon), coord_notices) := parse_coordinates (coordinates inp) in
      let w1 := notify w coord_notices in
      let input_vals := render_inputs inp level_col lat lon (columns df) in
      if negb (submitted inp) then w1
      else
        match level_col with
        | Some lc =>
            if String.eqb (level_state inp) "" then
              notify w1 [Error ("Silakan pilih " +:+ lc +:+ " terlebih dahulu (di atas).")]
            else commit_submission df inp drive w1 level_col lat lon input_vals
        | None => commit_submission df inp drive w1 level_col lat lon input_vals
        end
  end.

End WithNum.

Arguments World F : clear implicits.
Arguments ival F : clear implicits.
Arguments upload_state F : clear implicits.

(** *** The name of an uploaded file *)

Section FileName.
Context {F : Type} `{PyNum F}.

(** [str(f)] of an uploaded-file object: a library function, taken as
    it comes. *)
Variable str_file : string -> string.




End FileName.

(** *** The options of the dropdowns and the default of a date input *)

Section Options.
Context {F : Type} `{PyNum F} `{EqDecision F}.

#[global] Instance cell_eq_dec : EqDecision (cell F).
Proof. solve_decision. Defined.

(** [df[c]]: the cells of a column, row by row. *)
Definition column_values (df : DataFrame F) (c : string) : list (cell F) :=
  map (fun r => row_get r c) (rows df).

(** [series.dropna()]. *)
Definition dropna (l : list (cell F)) : list (cell F) :=
  List.filter (fun v => match v with CMissing => false | _ => true end) l.

(** [series.unique()]: the distinct values, in the order in which they
    first appear. *)
Definition unique (l : list (cell F)) : list (cell F) :=
  foldl (fun found x => if bool_decide (x ∈ found) then found else found ++ [x]) [] l.

(** [[x for x in df[c].dropna().unique().tolist() if str(x).strip() != ""]]. *)
Definition existing_values (df : DataFrame F) (c : string) : list (cell F) :=
  List.filter (fun x => negb (String.eqb (PyStr.strip (cell_str x)) ""))
    (unique (dropna (column_values df c))).

(** The loop that fills [merged] while recording what was [seen]. *)
Definition merge_seen (xs : list (cell F)) : list (cell F) :=
  snd (foldl (fun sm x =>
                if bool_decide (x ∈ sm.1) then sm
                else (x :: sm.1, sm.2 ++ [x]))
             ([], []) xs).

(** The options of the level dropdown. *)
Definition level_options (df : DataFrame F) (level_col : string) : list (cell F) :=
  CStr "" :: merge_seen (map CStr LEVEL_OPTIONS ++ existing_values df level_col).

(** The loop that appends to a list of options the values it does not
    hold yet. *)
Definition extend_options (options existing : list (cell F)) : list (cell F) :=
  foldl (fun opts val => if bool_decide (val ∈ opts) then opts else opts ++ [val])
        options existing.

(** The values of the sheet offered beside the fixed options of a
    column: none for an empty frame. *)
Definition sheet_values (df : DataFrame F) (c : string) : list (cell F) :=
  if negb (df_empty df) && PyStr.mem c (columns df) then existing_values df c else [].

(** The options of the dropdown of a feeder column. *)
Definition penyulang_options (df : DataFrame F) (c : string) : list (cell F) :=
  extend_options [CStr "Dinoyo"; CStr "Matos"] (sheet_values df c).

(** The options of the dropdown of an indicator column. *)
Definition indicator_options (df : DataFrame F) (c : string) : list (cell F) :=
  CStr "" :: extend_options (map CStr (_get_indicator_options c)) (sheet_values df c).

(** The date a date input starts from: the last value of the column
    that is not missing, parsed, and today when there is none. *)
Definition default_date (today : PyDate.date) (df : DataFrame F) (c : string)
  : PyDate.date :=
  if negb (df_empty df) && PyStr.mem c (columns df) then
    match List.last (map Some (dropna (column_values df c))) None with
    | Some v =>
        let last_date_str := cell_str v in
        if String.eqb last_date_str "" then today
        else _parse_date_from_string today last_date_str
    | None => today
    end
  else today.

End Options.

End Forms.

(** ** app.py *)

Module App.

Section WithHash.
Context {F : Type} `{PyNum F}.

(** [hashlib.md5(s.encode()).hexdigest()] and the [str] of the shape
    pair, of the list of labels and of a list of cells: library
    functions, taken as they come. *)
Variable md5_hexdigest : string -> string.
Variable str_shape : nat * nat -> string.
Variable str_labels : list string -> string.
Variable str_cells : list (cell F) -> string.

(** [df.iloc[i].tolist()]. *)
Definition row_tolist (df : DataFrame F) (r : Row F) : list (cell F) :=
  map (row_get r) (columns df).

Definition _get_data_hash (df : DataFrame F) : string :=
  if df_empty df then "empty"
  else
    let data_str := str_shape (length (rows df), length (columns df))
                    +:+ str_labels (columns df) in
    let data_str :=
      data_str
      +:+ match rows df with
          | first :: _ => str_cells (row_tolist df first)
          | [] => ""
          end
      +:+ match List.last (map Some (rows df)) None with
          | Some last => str_cells (row_tolist df last)
          | None => ""
          end in
    md5_hexdigest data_str.

(** The entries of [st.session_state] read and written by [main]. *)
Record SessionState := {
  last_data_hash : string;
  force_refresh : bool;
  df : DataFrame F;
  map_hash : string;
  cached_map : option (MapBuilder.FoliumMap F)
}.

(** [data_changed = current_hash != st.session_state.last_data_hash]. *)
Definition data_changed (st : SessionState) (df_from_sheets : DataFrame F) : bool :=
  negb (String.eqb (_get_data_hash df_from_sheets) (last_data_hash st)).

(** The update of the session copy after the load. *)
Definition load_step (st : SessionState) (df_from_sheets : DataFrame F)
  : SessionState :=
  if data_changed st df_from_sheets || force_refresh st || df_empty (df st)
  then {| last_data_hash := _get_data_hash df_from_sheets;
          force_refresh := false;
          df := df_from_sheets;
          map_hash := map_hash st;
          cached_map := cached_map st |}
  else st.

(** [current_map_hash != st.session_state.map_hash]. *)
Definition map_hash_changed (st : SessionState) : bool :=
  negb (String.eqb (_get_data_hash (df st)) (map_hash st)).

(** The condition under which [make_map] is called again. *)
Definition rebuild_needed (st : SessionState) : bool :=
  map_hash_changed st ||
  match cached_map st with
  | None => true
  | Some _ => false
  end.

Definition map_step (st : SessionState) : SessionState :=
  if rebuild_needed st
  then {| last_data_hash := last_data_hash st;
          force_refresh := force_refresh st;
          df := df st;
          map_hash := _get_data_hash (df st);
          cached_map := fst (MapBuilder.make_map (df st) "Color") |}
  else st.

(** One run of [main] in which no button is pressed and the form is
    not submitted. *)
Definition main (st : SessionState) (df_from_sheets : DataFrame F) : SessionState :=
  map_step (load_step st df_from_sheets).

(** The map block of [main] as it is written: the fingerprint is taken
    of, and the map built from, the local variable [df_session], which
    was read from the session before the form ran. *)
Definition map_block (df_session : DataFrame F) (st : SessionState) : SessionState :=
  let current_map_hash := _get_data_hash df_session in
  if negb (String.eqb current_map_hash (map_hash st)) ||
     match cached_map st with
     | None => true
     | Some _ => false
     end
  then {| last_data_hash := last_data_hash st;
          force_refresh := force_refresh st;
          df := df st;
          map_hash := current_map_hash;
          cached_map := fst (MapBuilder.make_map df_session "Color") |}
  else st.

(** One run of [main] in which the form may be submitted and no other
    button is pressed: the load, the form on the session copy, then
    the map block. The form reads and writes the entry [df] of the
    session; its entry [map] is one [main] never reads. *)
Definition main_with_form (st : SessionState) (df_from_sheets : DataFrame F)
    (inp : Forms.FormInput) (drive : string -> Forms.upload_outcome)
    (w : Forms.World F) : SessionState * Forms.World F :=
  let st1 := load_step st df_from_sheets in
  let df_session := df st1 in
  let w' :=
    Forms.render_input_form df_session inp drive
      {| Forms.sheet := Forms.sheet w;
         Forms.uploads := Forms.uploads w;
         Forms.session_df := df st1;
         Forms.session_map := Forms.session_map w;
         Forms.notices := Forms.notices w |} in
  let st2 :=
    {| last_data_hash := last_data_hash st1;
       force_refresh := force_refresh st1;
       df := Forms.session_df w';
       map_hash := map_hash st1;
       cached_map := cached_map st1 |} in
  (map_block df_session st2, w').

End WithHash.

(** The column [_normalize_df] and [_pretty_df] keep as text. *)
Definition FORCE_STRING_COLS : list string := ["Nomer Surat Permohonan Pembungkusan"].

Arguments SessionState F : clear implicits.

End App.

(** ** A decimal instance of the number interface *)

(** Numbers written as plain decimal literals, kept exactly: enough to run
    the definitions on the coordinates of the specification. [float] also
    reads exponents, infinities, NaN and digit-group underscores; this
    instance refuses them. *)
Module Decimal.

(** [mantissa * 10 ^ -places], without trailing zero in the fraction. *)
Record dec := { mantissa : Z; places : nat }.

Fixpoint digits_value (acc : Z) (s : string) : Z :=
  match s with
  | EmptyString => acc
  | String c r => digits_value (10 * acc + (Z.of_nat (nat_of_ascii c) - 48)) r
  end.

Fixpoint normalize (m : Z) (e : nat) : dec :=
  match e with
  | O => {| mantissa := m; places := 0 |}
  | S e' =>
      if (m mod 10 =? 0)%Z then normalize (m / 10) e'
      else {| mantissa := m; places := e |}
  end.

Definition parse_unsigned (s : string) : option dec :=
  let '(ip, r) := PyStr.span_digits s in
  match r with
  | EmptyString =>
      match ip with
      | EmptyString => None
      | _ => Some (normalize (digits_value 0 ip) 0)
      end
  | String "." r' =>
      let '(fp, r'') := PyStr.span_digits r' in
      match r'', (ip +:+ fp) with
      | EmptyString, String _ _ =>
          Some (normalize (digits_value 0 (ip +:+ fp)) (String.length fp))
      | _, _ => None
      end
  | _ => None
  end.

Definition negate (d : dec) : dec :=
  {| mantissa := - mantissa d; places := places d |}.

Definition parse (s : string) : option dec :=
  match PyStr.strip s with
  | String "-" r => negate <$> parse_unsigned r
  | String "+" r => parse_unsigned r
  | t => parse_unsigned t
  end.

Fixpoint zeros (n : nat) : string :=
  match n with
  | O => EmptyString
  | S k => String "0" (zeros k)
  end.

Fixpoint take_str (n : nat) (s : string) : string :=
  match n, s with
  | S k, String c r => String c (take_str k r)
  | _, _ => EmptyString
  end.

Fixpoint drop_str (n : nat) (s : string) : string :=
  match n, s with
  | S k, String _ r => drop_str k r
  | _, _ => s
  end.

Definition print (d : dec) : string :=
  let ds := pretty (Z.abs (mantissa d)) in
  let ds := zeros (S (places d) - String.length ds) +:+ ds in
  let cut := String.length ds - places d in
  (if (mantissa d <? 0)%Z then "-" else "")
  +:+ take_str cut ds +:+ "."
  +:+ match places d with
      | O => "0"
      | _ => drop_str cut ds
      end.

#[global] Instance dec_eq_dec : EqDecision dec.
Proof. solve_decision. Defined.

#[global] Instance dec_num : PyNum dec := {|
  py_float := parse;
  py_str := print;
  py_bool := fun d => negb (mantissa d =? 0)%Z
|}.

End Decimal.

(** * The specification's wording, as definitions *)

(** The table and the lookup as the specification words them: the label
    is trimmed and lower-cased, then looked up among five entries; anything
    else gives the caller's default. *)
Definition risk_table_spec : list (string * string) :=
  [("lower", "#3d3d3d"); ("low", "#7db86a"); ("medium", "#f2e804");
   ("high", "#ffaa00"); ("emergency", "#b10202")].

Fixpoint assoc_spec (key : string) (table : list (string * string)) : option string :=
  match table with
  | [] => None
  | (k, v) :: rest => if String.eqb key k then Some v else assoc_spec key rest
  end.

Definition risk_color_spec (label default : string) : string :=
  match assoc_spec (PyStr.lower (PyStr.strip label)) risk_table_spec with
  | Some h => h
  | None => default
  end.

(** The classification as the specification words it: an ordered list of
    (predicate, role) pairs, the first predicate that holds decides, and
    plain text is the fallback. *)
Definition priority_rules (level_col : option string)
  : list ((string -> bool) * Forms.role) :=
  [ (Forms.is_skipped level_col, Forms.RSkip);
    (fun c => PyStr.contains "dokumentasi" (PyStr.lower c), Forms.RDocumentation);
    (fun c => PyStr.contains "penyulang" (PyStr.lower c), Forms.RFeeder);
    (Forms._is_indicator_column, Forms.RIndicator);
    (Forms._is_date_column, Forms.RDate);
    (Forms._is_number_column, Forms.RNumber) ].

Fixpoint first_match (rules : list ((string -> bool) * Forms.role)) (c : string)
  : Forms.role :=
  match rules with
  | [] => Forms.RPlain
  | (p, r) :: rest => if p c then r else first_match rest c
  end.

Section LastNumberSpec.
Context {F : Type} `{PyNum F}.

(** The values of a column as the helper reads them: [str], trimmed. *)
Definition column_texts (df : DataFrame F) (c : string) : list string :=
  map (fun r => PyStr.strip (cell_str (row_get r c))) (rows df).

(** A value qualifies when it is not blank, not "nan"/"none" and not "0". *)
Definition qualifies (v : string) : bool :=
  negb (String.eqb v "" || PyStr.mem (PyStr.lower v) Forms.bads || String.eqb v "0").

(** What is reported for a qualifying value: the value, followed by its
    last run of digits when it has one. *)
Definition report (v : string) : string :=
  match Forms.digit_runs v with
  | [] => v
  | nums => v +:+ " (angka: " +:+ List.last nums "" +:+ ")"
  end.

(** The helper as the specification words it: the most recent qualifying
    value, and the sentinel when there is none. *)
Definition last_number_claimed (df : DataFrame F) (c : string) : string :=
  if df_empty df || negb (PyStr.mem c (columns df)) then Forms.NO_DATA
  else
    match List.find qualifies (rev (column_texts df c)) with
    | Some v => report v
    | None => Forms.NO_DATA
    end.

(** The same with the fallback of the code: when no value qualifies but
    some value is "0", that "0" is returned. *)
Definition last_number_spec (df : DataFrame F) (c : string) : string :=
  if df_empty df || negb (PyStr.mem c (columns df)) then Forms.NO_DATA
  else
    match List.find qualifies (rev (column_texts df c)) with
    | Some v => report v
    | None =>
        if existsb (String.eqb "0") (column_texts df c) then "0" else Forms.NO_DATA
    end.

Definition not_bad (x : string) : bool :=
  negb (PyStr.mem (PyStr.lower x) Forms.bads).

End LastNumberSpec.


(** The hexadecimal digits. *)
Definition HEX_DIGITS : string := "0123456789abcdefABCDEF".

Fixpoint char_in (c : ascii) (alphabet : string) : bool :=
  match alphabet with
  | EmptyString => false
  | String a rest => Ascii.eqb c a || char_in c rest
  end.

(** A valid hex colour: the character "#" followed by 3 or 6
    hexadecimal digits, the white space around the text apart. *)
Definition valid_hex_text (s : string) : bool :=
  match PyStr.strip s with
  | String "#" digits =>
      PyStr.forallb_str (fun c => char_in c HEX_DIGITS) digits &&
      ((String.length digits =? 3)%nat || (String.length digits =? 6)%nat)
  | _ => false
  end.

(** The level column: the first whose header, case apart, contains
    "level" and one of "risiko" and "resiko". *)
Definition level_column (df_cols : list string) : option string :=
  List.find (fun c =>
    PyStr.contains "level" (PyStr.lower c) &&
    (PyStr.contains "risiko" (PyStr.lower c) || PyStr.contains "resiko" (PyStr.lower c)))
    df_cols.

(** The Color/Warna column: the first whose header, case apart, is
    "color" or "warna". *)
Definition color_column (df_cols : list string) : option string :=
  List.find (fun c => PyStr.mem (PyStr.lower c) ["color"; "warna"]) df_cols.

Section FillSpec.
Context {F : Type} `{PyNum F}.

(** A cell that holds a valid hex colour: a text that is one. *)
Definition is_valid_hex (v : cell F) : bool :=
  match v with
  | CStr s => valid_hex_text s
  | _ => false
  end.

(** The text of the Color/Warna cell of a row, empty when the sheet
    has no such column. *)
Definition own_color_text (row : Row F) (df_cols : list string) : string :=
  match color_column df_cols with
  | Some c => cell_str (row_get row c)
  | None => ""
  end.

(** The colour of the risk level held by a cell: the entry of the
    table for a value that is present, the fallback otherwise. *)
Definition level_color (v : cell F) : string :=
  if cell_present v then risk_color_spec (cell_str v) "#3388ff" else "#3388ff".

(** The fill colour as the specification words it: the Color/Warna
    value when it is valid hex, else the value of the caller's colour
    column when that is valid hex, else the colour of the risk level when
    there is a level column, else the fixed fallback. *)
Definition fill_color_spec (row : Row F) (df_cols : list string)
    (color_col : string) : cell F :=
  if valid_hex_text (own_color_text row df_cols)
  then CStr (PyStr.strip (own_color_text row df_cols))
  else if PyStr.mem color_col df_cols && is_valid_hex (row_get row color_col)
  then row_get row color_col
  else
    match level_column df_cols with
    | Some lc => CStr (level_color (row_get_or row lc (CStr "")))
    | None => CStr "#3388ff"
    end.

End FillSpec.

(** The fraction the pattern takes at the head of a text: a dot and the
    digits after it, when there is one at least. *)
Definition fraction_at (r2 : string) : string :=
  match r2 with
  | String "." r3 =>
      match fst (PyStr.span_digits r3) with
      | EmptyString => ""
      | fs => String "." fs
      end
  | _ => ""
  end.

(** The part of the pattern that follows the sign. *)
Definition unsigned_float_at (r : string) : option string :=
  let '(ds, r2) := PyStr.span_digits r in
  match ds with
  | EmptyString => None
  | _ => Some (ds +:+ fraction_at r2)
  end.

(** One decimal numeral at the head of a text: an optional sign, digits,
    and a dot with the digits after it. *)
Definition numeral_at (s : string) : option string :=
  match s with
  | String "+" r => String "+" <$> unsigned_float_at r
  | String "-" r => String "-" <$> unsigned_float_at r
  | _ => unsigned_float_at s
  end.

Fixpoint drop_chars (n : nat) (s : string) : string :=
  match n, s with
  | S n', String _ r => drop_chars n' r
  | _, _ => s
  end.

(** The numerals of a text from left to right: where a numeral starts
    it is taken and the reading goes on after it, elsewhere one character
    is passed. [fuel] bounds the number of steps. *)
Fixpoint numerals_in (fuel : nat) (s : string) : list string :=
  match fuel with
  | O => []
  | S fuel' =>
      match s with
      | EmptyString => []
      | String _ r =>
          match numeral_at s with
          | Some m => m :: numerals_in fuel' (drop_chars (String.length m) s)
          | None => numerals_in fuel' r
          end
      end
  end.

Definition numerals (s : string) : list string := numerals_in (String.length s) s.

(** The names of the dedicated columns, case apart. *)
Definition LATITUDE_NAMES : list string := ["latitude"; "lat"; "lintang"].
Definition LONGITUDE_NAMES : list string := ["longitude"; "lon"; "lng"; "bujur"].

(** The combined coordinate column: the first whose header, case
    apart, contains "koordinat" or "coord". *)
Definition combined_column (df_cols : list string) : option string :=
  List.find (fun c =>
    PyStr.contains "koordinat" (PyStr.lower c) || PyStr.contains "coord" (PyStr.lower c))
    df_cols.

Section EligibleSpec.
Context {F : Type} `{PyNum F}.

(** The cell of the first column that bears one of the names, missing
    when the sheet has no such column. *)
Definition dedicated_cell (row : Row F) (df_cols : list string)
    (names : list string) : cell F :=
  match List.find (fun c => PyStr.mem (PyStr.lower c) names) df_cols with
  | Some c => row_get row c
  | None => CMissing
  end.

(** A value that is blank or absent: missing, or a text of white space
    only. *)
Definition blank_or_absent (v : cell F) : bool :=
  match v with
  | CMissing => true
  | CStr s => String.eqb (PyStr.strip s) ""
  | CNum _ => false
  end.

(** The number a cell converts to: that of its trimmed text, nothing
    for a blank cell and for a text that is no number. *)
Definition cell_number (v : cell F) : option F :=
  match v with
  | CMissing => None
  | CStr s => if String.eqb (PyStr.strip s) "" then None else py_float (PyStr.strip s)
  | CNum x => py_float (PyStr.strip (py_str x))
  end.

(** The pair read from the dedicated latitude and longitude columns. *)
Definition direct_pair (row : Row F) (df_cols : list string) : option (F * F) :=
  match cell_number (dedicated_cell row df_cols LATITUDE_NAMES),
        cell_number (dedicated_cell row df_cols LONGITUDE_NAMES) with
  | Some lat, Some lon => Some (lat, lon)
  | _, _ => None
  end.

(** The pair parsed out of a text: its first two numerals, when both
    convert. *)
Definition two_numbers (text : string) : option (F * F) :=
  match numerals text with
  | a :: b :: _ =>
      match py_float a, py_float b with
      | Some lat, Some lon => Some (lat, lon)
      | _, _ => None
      end
  | _ => None
  end.

(** The pair parsed out of the combined coordinate column. *)
Definition combined_pair (row : Row F) (df_cols : list string) : option (F * F) :=
  match combined_column df_cols with
  | Some coord_col =>
      match row_get row coord_col with
      | CMissing => None
      | v => two_numbers (cell_str v)
      end
  | None => None
  end.

(** Eligibility as the specification words it: a pair can be resolved
    from the dedicated columns or from the combined column. *)
Definition resolvable_claimed (row : Row F) (df_cols : list string) : Prop :=
  is_Some (direct_pair row df_cols) \/ is_Some (combined_pair row df_cols).

(** One of the two dedicated values is blank or absent. *)
Definition dedicated_blank (row : Row F) (df_cols : list string) : bool :=
  blank_or_absent (dedicated_cell row df_cols LATITUDE_NAMES) ||
  blank_or_absent (dedicated_cell row df_cols LONGITUDE_NAMES).

(** The pair with the fallback of the code: the combined column is read
    only when a dedicated value is blank. *)
Definition resolved_pair (row : Row F) (df_cols : list string) : option (F * F) :=
  if dedicated_blank row df_cols then combined_pair row df_cols
  else direct_pair row df_cols.

End EligibleSpec.

Section RowSpec.
Context {F : Type} `{PyNum F}.









End RowSpec.

Section DictVocabulary.
Context {F : Type} `{PyNum F}.


(** The file waiting under the temporary key of a column. *)
Definition pending_file (inp : Forms.FormInput) (level_col : option string)
    (c : string) : option string :=
  match Forms.classify_column level_col c with
  | Forms.RDocumentation => Forms.uploaded_file inp c
  | _ => None
  end.


End DictVocabulary.

(** * Vocabulary of the further properties *)

(** The border colours a marker can have. *)
Definition BORDER_COLORS : list string := ["#000000"; "#ff6b35"; "#28a745"; "#dc3545"].


(** [re.fullmatch(FLOAT_RE, s)]: the text is one plain decimal numeral,
    an optional sign, digits, and a dot with digits or nothing. The
    pattern is greedy without alternative, so the text matches in full
    exactly when the match at its head is the whole text. *)
Definition fullmatch_float (s : string) : bool :=
  match MapBuilder.match_float_at s with
  | Some m => String.eqb m s
  | None => false
  end.

(** The characters of a plain decimal numeral. *)
Definition is_float_char (c : ascii) : bool :=
  PyStr.is_digit c || Ascii.eqb c "+" || Ascii.eqb c "-" || Ascii.eqb c ".".

(** A text that is empty or starts with a character that is neither a
    digit nor a dot: what may follow a numeral without extending it. *)
Definition ends_numeral (rest : string) : bool :=
  match rest with
  | EmptyString => true
  | String c _ => negb (PyStr.is_digit c) && negb (Ascii.eqb c ".")
  end.

(** A text that begins with a digit. *)
Definition starts_with_digit (s : string) : bool :=
  match s with
  | String c _ => PyStr.is_digit c
  | EmptyString => false
  end.

(** The phrases looked up in a wrapping status and the border colour
    of each, in the order in which they are tried. *)
Definition BORDER_RULES : list (string * string) :=
  [("pengiriman usulan", "#ff6b35");
   ("realisasi pembungkusan", "#28a745");
   ("belum ada tindak lanjut", "#dc3545")].

(** The colour of the first phrase that a text contains. *)
Fixpoint first_phrase (rules : list (string * string)) (text : string) : option string :=
  match rules with
  | [] => None
  | (phrase, colour) :: rest =>
      if PyStr.contains phrase text then Some colour else first_phrase rest text
  end.

Section StatusSpec.
Context {F : Type} `{PyNum F}.

(** The text in which the phrases of a status are looked up: the value
    trimmed and lower-cased, and nothing for an empty or missing value. *)
Definition status_text (v : cell F) : option string :=
  if cell_present v then Some (PyStr.lower (PyStr.strip (cell_str v))) else None.

End StatusSpec.

(** A text without comma. *)
Definition no_comma (s : string) : bool :=
  PyStr.forallb_str (fun c => negb (Ascii.eqb c ",")) s.

(** The two parts of a text around its comma, when it has exactly one. *)
Fixpoint one_comma_split (s : string) : option (string * string) :=
  match s with
  | EmptyString => None
  | String c r =>
      if Ascii.eqb c "," then
        if no_comma r then Some (EmptyString, r) else None
      else
        match one_comma_split r with
        | Some (a, b) => Some (String c a, b)
        | None => None
        end
  end.

(** The message shown for a coordinate text that is refused. *)
Definition COORDINATE_FORMAT_ERROR : notice :=
  Error "Format koordinat salah. Pastikan formatnya adalah Latitude, Longitude (misal: -7.93813533, 112.6332461).".
(** * Sample inputs *)

(** The column "No" of a frame whose two rows hold "0". *)
Definition zeros_df : DataFrame Decimal.dec :=
  {| columns := ["No"];
     rows := [ {["No" := CStr "0"]}; {["No" := CStr "0"]} ] |}.


(** Scenario B: a row of level "Medium" in a sheet without colour column. *)
Definition medium_df : DataFrame Decimal.dec :=
  {| columns := ["Alamat"; "Koordinat"; "Level Resiko"];
     rows := [ {[ "Alamat" := CStr "Jl. Veteran";
                  "Koordinat" := CStr "-7.93813533, 112.6332461";
                  "Level Resiko" := CStr "Medium" ]} ] |}.

(** Scenario A: the coordinates are in the combined field only. *)
Definition combined_only_cols : list string := ["Alamat"; "Koordinat"].

Definition combined_only_row : Row Decimal.dec :=
  {[ "Alamat" := CStr "Jl. Veteran";
     "Koordinat" := CStr "-7.93813533, 112.6332461" ]}.

(** A row whose latitude cell holds text that is no number, beside a
    combined field that holds two. *)
Definition junk_latitude_cols : list string := ["Lat"; "Lon"; "Koordinat"].

Definition junk_latitude_row : Row Decimal.dec :=
  {[ "Lat" := CStr "abc";
     "Lon" := CStr "112.6";
     "Koordinat" := CStr "-7.9, 112.6" ]}.

(** A frame with one row and no column. *)
Definition no_column_df : DataFrame Decimal.dec :=
  {| columns := []; rows := [∅] |}.

(** A frame with rows, none of which has coordinates. *)
Definition no_coordinates_df : DataFrame Decimal.dec :=
  {| columns := ["Alamat"; "Koordinat"];
     rows := [ {[ "Alamat" := CStr "Jl. Veteran"; "Koordinat" := CStr "" ]};
               {[ "Alamat" := CStr "Jl. Ijen"; "Koordinat" := CStr "belum diukur" ]} ] |}.

(** Two frames without rows whose headers differ. *)
Definition empty_df_a : DataFrame Decimal.dec :=
  {| columns := ["Alamat"; "Koordinat"]; rows := [] |}.

Definition empty_df_b : DataFrame Decimal.dec :=
  {| columns := ["No"; "Tanggal"; "Level Resiko"]; rows := [] |}.

(** The session state of a first run. *)
Definition first_run : App.SessionState Decimal.dec :=
  {| App.last_data_hash := "";
     App.force_refresh := false;
     App.df := {| columns := []; rows := [] |};
     App.map_hash := "";
     App.cached_map := None |}.

(** A sheet of the dashboard, still without rows, and a filled form. *)
Definition sheet_df : DataFrame Decimal.dec :=
  {| columns := ["No"; "Tanggal Temuan"; "Penyulang"; "Alamat"; "Koordinat";
                 "Latitude"; "Longitude"; "Level Resiko"; "Color";
                 "Dokumentasi Temuan"];
     rows := [] |}.

Definition filled_widgets (c : string) : string :=
  if String.eqb c "No" then "12"
  else if String.eqb c "Tanggal Temuan" then "18/09/2025"
  else if String.eqb c "Penyulang" then "Dinoyo"
  else if String.eqb c "Alamat" then "Jl. Veteran"
  else "".

Definition filled_form : Forms.FormInput :=
  {| Forms.level_state := "High";
     Forms.coordinates := "-7.93813533, 112.6332461";
     Forms.widget_value := filled_widgets;
     Forms.uploaded_file :=
       fun c => if String.eqb c "Dokumentasi Temuan" then Some "foto.jpg" else None;
     Forms.submitted := true |}.

(** The same form with no level chosen. *)
Definition form_without_level : Forms.FormInput :=
  {| Forms.level_state := "";
     Forms.coordinates := "-7.93813533, 112.6332461";
     Forms.widget_value := filled_widgets;
     Forms.uploaded_file :=
       fun c => if String.eqb c "Dokumentasi Temuan" then Some "foto.jpg" else None;
     Forms.submitted := true |}.

Definition drive_ok (c : string) : Forms.upload_outcome :=
  Forms.Uploaded "https://drive.google.com/uc?id=abc".

(** The world before the submission: an empty worksheet, nothing
    uploaded, the session copy of the sheet. *)
Definition fresh_world : Forms.World Decimal.dec :=
  {| Forms.sheet := [];
     Forms.uploads := [];
     Forms.session_df := sheet_df;
     Forms.session_map := None;
     Forms.notices := [] |}.



(** Two readings of a sheet of three rows that differ in the second
    row only. *)
Definition three_rows_df : DataFrame Decimal.dec :=
  {| columns := ["Alamat"; "Koordinat"];
     rows := [ {[ "Alamat" := CStr "Jl. Veteran"; "Koordinat" := CStr "-7.95, 112.61" ]};
               {[ "Alamat" := CStr "Jl. Ijen"; "Koordinat" := CStr "-7.96, 112.62" ]};
               {[ "Alamat" := CStr "Jl. Bandung"; "Koordinat" := CStr "-7.97, 112.63" ]} ] |}.

Definition three_rows_edited_df : DataFrame Decimal.dec :=
  {| columns := ["Alamat"; "Koordinat"];
     rows := [ {[ "Alamat" := CStr "Jl. Veteran"; "Koordinat" := CStr "-7.95, 112.61" ]};
               {[ "Alamat" := CStr "Jl. Kawi"; "Koordinat" := CStr "-7.99, 112.69" ]};
               {[ "Alamat" := CStr "Jl. Bandung"; "Koordinat" := CStr "-7.97, 112.63" ]} ] |}.

(** The session after a run on the first reading, the fingerprint being
    the text it is taken of. *)
Definition loaded_session : App.SessionState Decimal.dec :=
  {| App.last_data_hash :=
       App._get_data_hash id (fun _ => "") (fun _ => "") (fun _ => "") three_rows_df;
     App.force_refresh := false;
     App.df := three_rows_df;
     App.map_hash := "";
     App.cached_map := None |}.

(** A form that enters an address and coordinates, for a sheet without
    level column. *)
Definition address_form : Forms.FormInput :=
  {| Forms.level_state := "";
     Forms.coordinates := "-7.98, 112.64";
     Forms.widget_value := fun c => if String.eqb c "Alamat" then "Jl. Semeru" else "";
     Forms.uploaded_file := fun _ => None;
     Forms.submitted := true |}.

(** Rows for the four sources of the fill colour. The first has a
    valid colour of its own; the second an invalid colour of its own and a
    valid one in the caller's column; the third no valid colour at all
    beside its level; the fourth no valid colour and no level column. *)
Definition own_color_cols : list string := ["Koordinat"; "Level Resiko"; "Warna"].

Definition own_color_row : Row Decimal.dec :=
  {[ "Koordinat" := CStr "-7.95, 112.61";
     "Level Resiko" := CStr "High";
     "Warna" := CStr "#1E90FF" ]}.

Definition caller_color_cols : list string :=
  ["Koordinat"; "Level Resiko"; "Color"; "Kode Warna"].

Definition caller_color_row : Row Decimal.dec :=
  {[ "Koordinat" := CStr "-7.95, 112.61";
     "Level Resiko" := CStr "High";
     "Color" := CStr "merah";
     "Kode Warna" := CStr "#0a0" ]}.

Definition level_color_row : Row Decimal.dec :=
  {[ "Koordinat" := CStr "-7.95, 112.61";
     "Level Resiko" := CStr "High";
     "Color" := CStr "#12345";
     "Kode Warna" := CStr "#ggg" ]}.

Definition no_level_cols : list string := ["Koordinat"; "Color"].

Definition no_level_row : Row Decimal.dec :=
  {[ "Koordinat" := CStr "-7.95, 112.61"; "Color" := CStr "1E90FF" ]}.

(** A row with dedicated latitude and longitude columns, one held as
    text and one as a number, beside a combined field that holds another
    pair. *)
Definition dedicated_cols : list string := ["Alamat"; "Latitude"; "Bujur"; "Koordinat"].

Definition dedicated_row : Row Decimal.dec :=
  {[ "Alamat" := CStr "Jl. Veteran";
     "Latitude" := CStr " -7.95 ";
     "Bujur" := CNum {| Decimal.mantissa := 11261; Decimal.places := 2 |};
     "Koordinat" := CStr "-1.5, 2.5" ]}.



(** * Lemmas on strings and numerals *)

Section StringAppend.

Lemma append_nil_l (t : string) : "" +:+ t = t.
Proof. reflexivity. Qed.

Lemma append_cons (c : ascii) (s t : string) : String c s +:+ t = String c (s +:+ t).
Proof. reflexivity. Qed.

Lemma append_nil_r (s : string) : s +:+ "" = s.
Proof. induction s as [|c s IH]; [done|]. by rewrite append_cons, IH. Qed.

Lemma append_assoc (s t u : string) : (s +:+ t) +:+ u = s +:+ (t +:+ u).
Proof. induction s as [|c s IH]; [done|]. by rewrite !append_cons, IH. Qed.

Lemma append_inv_head (s t u : string) : s +:+ t = s +:+ u -> t = u.
Proof.
  induction s as [|c s IH]; [done|]. rewrite !append_cons. intros [= Ht]. by apply IH.
Qed.

Lemma forallb_str_app (p : ascii -> bool) (s t : string) :
  PyStr.forallb_str p (s +:+ t) = PyStr.forallb_str p s && PyStr.forallb_str p t.
Proof.
  induction s as [|c s IH]; [done|]. rewrite append_cons. cbn [PyStr.forallb_str].
  by rewrite IH, andb_assoc.
Qed.

Lemma forallb_str_impl (p q : ascii -> bool) (s : string) :
  (forall c, p c = true -> q c = true) ->
  PyStr.forallb_str p s = true -> PyStr.forallb_str q s = true.
Proof.
  intros Hpq. induction s as [|c s IH]; [done|]. cbn [PyStr.forallb_str].
  intros [Hc Hs]%andb_true_iff. by rewrite (Hpq c Hc), IH.
Qed.

End StringAppend.

Section Numerals.

Lemma span_digits_cons (c : ascii) (r : string) :
  PyStr.span_digits (String c r)
  = if PyStr.is_digit c
    then (String c (fst (PyStr.span_digits r)), snd (PyStr.span_digits r))
    else (EmptyString, String c r).
Proof. cbn [PyStr.span_digits]. by destruct (PyStr.span_digits r). Qed.

Lemma span_digits_split (s : string) :
  s = fst (PyStr.span_digits s) +:+ snd (PyStr.span_digits s).
Proof.
  induction s as [|c s IH]; [done|]. rewrite span_digits_cons.
  destruct (PyStr.is_digit c); cbn [fst snd]; [|done].
  by rewrite append_cons, <- IH.
Qed.

Lemma span_digits_digits (s : string) :
  PyStr.forallb_str PyStr.is_digit (fst (PyStr.span_digits s)) = true.
Proof.
  induction s as [|c s IH]; [done|]. rewrite span_digits_cons.
  destruct (PyStr.is_digit c) eqn:Hc; cbn [fst PyStr.forallb_str]; [|done].
  by rewrite Hc, IH.
Qed.

(** The digits taken at the head of a text are not affected by what is
    put after it, when that does not begin with a digit. *)
Lemma span_digits_app (s rest : string) :
  ends_numeral rest = true ->
  PyStr.span_digits (s +:+ rest)
  = (fst (PyStr.span_digits s), snd (PyStr.span_digits s) +:+ rest).
Proof.
  intros Hrest. induction s as [|c s IH].
  - rewrite append_nil_l. destruct rest as [|c r]; [done|].
    rewrite span_digits_cons. cbn in Hrest.
    by destruct (PyStr.is_digit c).
  - rewrite append_cons, !span_digits_cons, IH.
    by destruct (PyStr.is_digit c).
Qed.

Lemma fraction_at_cons (c : ascii) (r3 : string) :
  fraction_at (String c r3)
  = if Ascii.eqb c "."
    then match fst (PyStr.span_digits r3) with
         | EmptyString => ""
         | fs => String "." fs
         end
    else "".
Proof. destruct c as [[] [] [] [] [] [] [] []]; reflexivity. Qed.

Lemma match_float_at_plus (r : string) :
  MapBuilder.match_float_at (String "+" r) = String "+" <$> unsigned_float_at r.
Proof.
  unfold MapBuilder.match_float_at, unsigned_float_at.
  destruct (PyStr.span_digits r) as [ds r2]. by destruct ds.
Qed.

Lemma match_float_at_minus (r : string) :
  MapBuilder.match_float_at (String "-" r) = String "-" <$> unsigned_float_at r.
Proof.
  unfold MapBuilder.match_float_at, unsigned_float_at.
  destruct (PyStr.span_digits r) as [ds r2]. by destruct ds.
Qed.

Lemma match_float_at_unsigned (c : ascii) (r : string) :
  c <> "+"%char -> c <> "-"%char ->
  MapBuilder.match_float_at (String c r) = unsigned_float_at (String c r).
Proof.
  intros Hp Hm.
  assert (Hsign :
    match String c r with
    | String "+" r' => ("+", r')
    | String "-" r' => ("-", r')
    | _ => ("", String c r)
    end = ("", String c r)).
  { destruct c as [[] [] [] [] [] [] [] []]; try reflexivity; congruence. }
  unfold MapBuilder.match_float_at, unsigned_float_at, fraction_at. rewrite Hsign.
  destruct (PyStr.span_digits (String c r)) as [ds r2]. by destruct ds.
Qed.

Lemma match_float_at_nil : MapBuilder.match_float_at "" = None.
Proof. reflexivity. Qed.

Lemma unsigned_float_chars (r m : string) :
  unsigned_float_at r = Some m -> PyStr.forallb_str is_float_char m = true.
Proof.
  assert (Hdig : forall s, PyStr.forallb_str is_float_char (fst (PyStr.span_digits s)) = true).
  { intros s. apply (forallb_str_impl PyStr.is_digit); [|apply span_digits_digits].
    intros c Hc. unfold is_float_char. by rewrite Hc. }
  unfold unsigned_float_at.
  pose proof (Hdig r) as Hds.
  destruct (PyStr.span_digits r) as [ds r2]. cbn [fst] in Hds.
  destruct ds as [|d ds]; [done|]. intros [= <-].
  rewrite forallb_str_app, Hds. cbn [andb].
  destruct r2 as [|c r3]; [done|]. rewrite fraction_at_cons.
  destruct (Ascii.eqb c "."); [|done].
  pose proof (Hdig r3) as Hfs.
  destruct (fst (PyStr.span_digits r3)); [done|].
  cbn [PyStr.forallb_str] in *. by rewrite Hfs.
Qed.

(** A text that is a numeral in full is also the match at the head of
    any text that continues it with something that ends a numeral. *)
Lemma unsigned_float_app (u rest : string) :
  unsigned_float_at u = Some u -> ends_numeral rest = true ->
  unsigned_float_at (u +:+ rest) = Some u.
Proof.
  intros Hu Hrest. unfold unsigned_float_at in *.
  rewrite (span_digits_app u rest Hrest).
  pose proof (span_digits_split u) as Hsplit.
  destruct (PyStr.span_digits u) as [ds r2]. cbn [fst snd] in *.
  destruct ds as [|d ds]; [done|].
  injection Hu as Hu. rewrite Hsplit in Hu.
  apply append_inv_head in Hu.
  f_equal. rewrite Hsplit. f_equal.
  destruct r2 as [|c r3].
  - rewrite append_nil_l. destruct rest as [|c r]; [done|].
    rewrite fraction_at_cons. cbn in Hrest.
    apply andb_true_iff in Hrest as [_ Hdot]. apply negb_true_iff in Hdot.
    by rewrite Hdot.
  - rewrite append_cons, fraction_at_cons. rewrite fraction_at_cons in Hu.
    destruct (Ascii.eqb_spec c "."); [subst c|done].
    destruct (fst (PyStr.span_digits r3)) as [|f fs] eqn:Hfs; [done|].
    injection Hu as Hu. rewrite (span_digits_app r3 rest Hrest). cbn [fst].
    rewrite Hfs. by rewrite Hu.
Qed.

Lemma fullmatch_float_match (a : string) :
  fullmatch_float a = true -> MapBuilder.match_float_at a = Some a.
Proof.
  unfold fullmatch_float. destruct (MapBuilder.match_float_at a) as [m|]; [|done].
  by intros ->%String.eqb_eq.
Qed.

Lemma match_float_at_app (a rest : string) :
  fullmatch_float a = true -> ends_numeral rest = true ->
  MapBuilder.match_float_at (a +:+ rest) = Some a.
Proof.
  intros Ha%fullmatch_float_match Hrest.
  destruct a as [|c a]; [done|]. rewrite append_cons.
  destruct (Ascii.eqb_spec c "+") as [->|Hp].
  { rewrite match_float_at_plus in *.
    destruct (unsigned_float_at a) as [m|] eqn:Hm; [|done].
    injection Ha as ->. by rewrite (unsigned_float_app a rest Hm Hrest). }
  destruct (Ascii.eqb_spec c "-") as [->|Hm].
  { rewrite match_float_at_minus in *.
    destruct (unsigned_float_at a) as [m|] eqn:Hm; [|done].
    injection Ha as ->. by rewrite (unsigned_float_app a rest Hm Hrest). }
  rewrite match_float_at_unsigned in * by done.
  rewrite <- append_cons. by apply unsigned_float_app.
Qed.

Lemma fullmatch_float_chars (a : string) :
  fullmatch_float a = true -> PyStr.forallb_str is_float_char a = true.
Proof.
  intros Ha%fullmatch_float_match.
  destruct a as [|c a]; [done|].
  destruct (Ascii.eqb_spec c "+") as [->|Hp].
  { rewrite match_float_at_plus in Ha.
    destruct (unsigned_float_at a) as [m|] eqn:Hm; [|done]. injection Ha as ->.
    cbn [PyStr.forallb_str]. by rewrite (unsigned_float_chars a a Hm). }
  destruct (Ascii.eqb_spec c "-") as [->|Hm].
  { rewrite match_float_at_minus in Ha.
    destruct (unsigned_float_at a) as [m|] eqn:Hm; [|done]. injection Ha as ->.
    cbn [PyStr.forallb_str]. by rewrite (unsigned_float_chars a a Hm). }
  rewrite match_float_at_unsigned in Ha by done.
  by apply (unsigned_float_chars (String c a)).
Qed.

Lemma findall_from_skip (x rest : string) :
  MapBuilder.findall_from (String.length x) (x +:+ rest)
  = MapBuilder.findall_from 0 rest.
Proof.
  induction x as [|c x IH]; [done|]. rewrite append_cons.
  cbn [String.length MapBuilder.findall_from]. exact IH.
Qed.

Lemma findall_from_match (a rest : string) :
  fullmatch_float a = true -> ends_numeral rest = true ->
  MapBuilder.findall_from 0 (a +:+ rest) = a :: MapBuilder.findall_from 0 rest.
Proof.
  intros Ha Hrest. pose proof (match_float_at_app a rest Ha Hrest) as Hm.
  destruct a as [|c a]; [done|]. rewrite append_cons in *.
  cbn [MapBuilder.findall_from]. rewrite Hm.
  replace (String.length (String c a) - 1) with (String.length a)
    by (cbn [String.length]; lia).
  by rewrite findall_from_skip.
Qed.

(** The numbers found in two numerals separated by a comma and a space
    are the two numerals. *)
Lemma findall_float_pair (a b : string) :
  fullmatch_float a = true -> fullmatch_float b = true ->
  MapBuilder.findall_float (a +:+ ", " +:+ b) = [a; b].
Proof.
  intros Ha Hb. unfold MapBuilder.findall_float.
  rewrite (findall_from_match a _ Ha) by done.
  change (", " +:+ b) with (String "," (String " " b)).
  change (MapBuilder.findall_from 0 (String "," (String " " b)))
    with (MapBuilder.findall_from 0 b).
  rewrite <- (append_nil_r b) at 1.
  by rewrite (findall_from_match b "" Hb).
Qed.

End Numerals.

Section CommaSplit.

Lemma split_comma_no_comma (x : string) :
  PyStr.forallb_str (fun c => negb (Ascii.eqb c ",")) x = true ->
  Forms.split_comma x = [x].
Proof.
  induction x as [|c x IH]; [done|]. cbn [PyStr.forallb_str Forms.split_comma].
  intros [Hc Hx]%andb_true_iff. apply negb_true_iff in Hc. by rewrite Hc, IH.
Qed.

Lemma split_comma_app (x y : string) :
  PyStr.forallb_str (fun c => negb (Ascii.eqb c ",")) x = true ->
  Forms.split_comma (x +:+ String "," y) = x :: Forms.split_comma y.
Proof.
  induction x as [|c x IH]; [done|]. rewrite append_cons.
  cbn [PyStr.forallb_str Forms.split_comma].
  intros [Hc Hx]%andb_true_iff. apply negb_true_iff in Hc. by rewrite Hc, IH.
Qed.

Lemma split_comma_nonempty (s : string) : Forms.split_comma s <> [].
Proof.
  destruct s as [|c r]; [done|]. cbn [Forms.split_comma].
  destruct (Ascii.eqb c ","); [done|]. by destruct (Forms.split_comma r).
Qed.

Lemma split_comma_single (s x : string) :
  Forms.split_comma s = [x] -> no_comma s = true.
Proof.
  revert x. induction s as [|c r IH]; intros x; [done|].
  cbn [Forms.split_comma]. unfold no_comma in *. cbn [PyStr.forallb_str].
  destruct (Ascii.eqb c ",").
  - intros [= _ Hr]. by destruct (split_comma_nonempty r).
  - destruct (Forms.split_comma r) as [|h t] eqn:Hr; [by destruct (split_comma_nonempty r)|].
    intros [= _ ->]. by rewrite (IH h).
Qed.

Lemma one_comma_split_app (a b : string) :
  no_comma a = true -> no_comma b = true ->
  one_comma_split (a +:+ "," +:+ b) = Some (a, b).
Proof.
  intros Ha Hb. induction a as [|c a IH].
  - rewrite append_nil_l. change ("," +:+ b) with (String "," b).
    cbn [one_comma_split]. by rewrite Hb.
  - rewrite append_cons. unfold no_comma in Ha. cbn [PyStr.forallb_str] in Ha.
    apply andb_true_iff in Ha as [Hc Ha]. apply negb_true_iff in Hc.
    cbn [one_comma_split]. by rewrite Hc, (IH Ha).
Qed.

Lemma one_comma_split_inv (s a b : string) :
  one_comma_split s = Some (a, b) ->
  s = a +:+ "," +:+ b /\ no_comma a = true /\ no_comma b = true.
Proof.
  revert a. induction s as [|c r IH]; intros a; [done|]. cbn [one_comma_split].
  destruct (Ascii.eqb_spec c ",") as [->|Hc].
  - destruct (no_comma r) eqn:Hr; [|done]. by intros [= <- <-].
  - destruct (one_comma_split r) as [[a' b']|]; [|done]. intros [= <- <-].
    destruct (IH a' eq_refl) as (-> & Ha & Hb).
    split; [by rewrite append_cons|]. split; [|done].
    unfold no_comma. cbn [PyStr.forallb_str].
    by rewrite (proj2 (Ascii.eqb_neq c ",") Hc).
Qed.

(** The text splits in two at its commas exactly when it has one
    comma: the parts are then those around it. *)
Lemma split_comma_two (s : string) :
  match one_comma_split s with
  | Some (a, b) => Forms.split_comma s = [a; b]
  | None => forall a b : string, Forms.split_comma s <> [a; b]
  end.
Proof.
  induction s as [|c r IH]; [done|]. cbn [one_comma_split Forms.split_comma].
  destruct (Ascii.eqb c ",").
  - destruct (no_comma r) eqn:Hr.
    + by rewrite (split_comma_no_comma r Hr).
    + intros a b [= _ Hsplit]. apply split_comma_single in Hsplit. congruence.
  - destruct (one_comma_split r) as [[a b]|].
    + by rewrite IH.
    + intros a b. destruct (Forms.split_comma r) as [|h t]; [done|].
      intros [= _ ->]. by destruct (IH h b).
Qed.

End CommaSplit.
(** * Properties *)

(** Membership in a list that is written out. *)
Ltac in_literal_list := solve [repeat first [by left | right]].

(** ** Strings *)

Section StringFacts.

Lemma rstrip_cons c r :
  PyStr.rstrip (String c r) =
  match PyStr.rstrip r with
  | EmptyString => if PyStr.is_space c then EmptyString else String c EmptyString
  | r' => String c r'
  end.
Proof. reflexivity. Qed.

Lemma rstrip_idemp s : PyStr.rstrip (PyStr.rstrip s) = PyStr.rstrip s.
Proof.
  induction s as [|c r IH]; [done|].
  rewrite rstrip_cons.
  destruct (PyStr.rstrip r) as [|c' r'] eqn:Hr.
  - destruct (PyStr.is_space c) eqn:Hc; [done|].
    rewrite rstrip_cons. simpl. by rewrite Hc.
  - rewrite rstrip_cons, IH. done.
Qed.

(** A string that starts with a visible character keeps it. *)
Lemma rstrip_head c r :
  PyStr.is_space c = false ->
  exists r', PyStr.rstrip (String c r) = String c r'.
Proof.
  intros Hc. rewrite rstrip_cons. destruct (PyStr.rstrip r); rewrite ?Hc; eauto.
Qed.

Lemma lstrip_head s :
  PyStr.lstrip s = EmptyString \/
  exists c r, PyStr.lstrip s = String c r /\ PyStr.is_space c = false.
Proof.
  induction s as [|c r IH]; simpl; [by left|].
  destruct (PyStr.is_space c) eqn:Hc; [done|]. right. eauto.
Qed.

Lemma strip_idemp s : PyStr.strip (PyStr.strip s) = PyStr.strip s.
Proof.
  unfold PyStr.strip.
  destruct (lstrip_head s) as [->|(c & r & -> & Hc)]; [done|].
  destruct (rstrip_head c r Hc) as [r' Hr]. rewrite Hr.
  cbn [PyStr.lstrip]. rewrite Hc, <- Hr. apply rstrip_idemp.
Qed.

Lemma bool_decide_elem_of_cons (k c : string) (l : list string) :
  bool_decide (k ∈ c :: l) = bool_decide (c = k) || bool_decide (k ∈ l).
Proof.
  destruct (decide (c = k)) as [->|Hne].
  - rewrite (bool_decide_eq_true_2 (k = k)) by done.
    by rewrite (bool_decide_eq_true_2 (k ∈ k :: l)) by (by left).
  - rewrite (bool_decide_eq_false_2 (c = k)) by done. cbn [orb].
    apply bool_decide_ext. rewrite elem_of_cons.
    split; [intros [->|Hin]; [by destruct Hne|done]|by right].
Qed.

Lemma mem_true_iff s ks : PyStr.mem s ks = true <-> s ∈ ks.
Proof.
  unfold PyStr.mem. rewrite existsb_exists, list_elem_of_In. split.
  - intros (x & Hx & Heq). apply String.eqb_eq in Heq. by subst.
  - intros Hin. exists s. split; [done|]. apply String.eqb_refl.
Qed.

Lemma mem_false_iff s ks : PyStr.mem s ks = false <-> s ∉ ks.
Proof.
  rewrite <- mem_true_iff. destruct (PyStr.mem s ks); intuition congruence.
Qed.

End StringFacts.

(** ** utils.py: the risk-colour mapper (C8) *)

Lemma risk_lookup_spec key default :
  risk_lookup key default =
  match assoc_spec key risk_table_spec with Some h => h | None => default end.
Proof.
  unfold risk_lookup, RISK_TO_HEX, risk_table_spec, assoc_spec.
  repeat (rewrite lookup_insert; case_decide;
          [subst key; reflexivity
          |rewrite (proj2 (String.eqb_neq _ _)) by congruence]).
  by rewrite lookup_empty.
Qed.

Lemma risk_lookup_range key default :
  risk_lookup key default = default \/
  risk_lookup key default ∈ ["#3d3d3d"; "#7db86a"; "#f2e804"; "#ffaa00"; "#b10202"].
Proof.
  rewrite risk_lookup_spec. unfold risk_table_spec, assoc_spec.
  repeat (destruct (String.eqb key _); [right; cbn; in_literal_list|]).
  by left.
Qed.

Lemma risk_lookup_hex key default :
  MapBuilder.hex_fullmatch (risk_lookup key default) = true \/
  risk_lookup key default = default.
Proof.
  destruct (risk_lookup_range key default) as [->|Hin]; [by right|left].
  repeat (apply elem_of_cons in Hin as [->|Hin]; [reflexivity|]).
  by apply elem_of_nil in Hin.
Qed.

(** C8. The risk-colour mapper is total and agrees, on every label and
    default, with the trimmed, case-insensitive lookup in the five-entry
    table: two labels with the same trimmed lower-case form get the same
    colour, a label outside the five names gets the caller's default, and so
    do the empty label and a missing value; the result is a well-formed hex
    colour of the table or the default itself. *)
Theorem risk_to_color_hex_total (label default : string) :
  risk_to_color_hex label default = risk_color_spec label default /\
  (forall label' : string,
     PyStr.lower (PyStr.strip label') = PyStr.lower (PyStr.strip label) ->
     risk_to_color_hex label' default = risk_to_color_hex label default) /\
  (PyStr.lower (PyStr.strip label) ∉ ["lower"; "low"; "medium"; "high"; "emergency"] ->
   risk_to_color_hex label default = default) /\
  risk_to_color_hex "" default = default /\
  (forall F (N : PyNum F), risk_to_color_hex_cell (@CMissing F) default = default) /\
  (MapBuilder.hex_fullmatch (risk_to_color_hex label default) = true \/
   risk_to_color_hex label default = default).
Proof.
  assert (Hspec : forall l, risk_to_color_hex l default = risk_color_spec l default).
  { intros l. unfold risk_to_color_hex, risk_color_spec.
    destruct (String.eqb l "") eqn:El.
    - apply String.eqb_eq in El. by subst l.
    - apply risk_lookup_spec. }
  split; [apply Hspec|].
  split; [intros l' Hl'; rewrite !Hspec; unfold risk_color_spec; by rewrite Hl'|].
  split.
  { intros Hout. rewrite Hspec. unfold risk_color_spec, risk_table_spec, assoc_spec.
    repeat (destruct (String.eqb _ _) eqn:E;
            [apply String.eqb_eq in E; rewrite E in Hout; exfalso; apply Hout; in_literal_list|clear E]).
    done. }
  split; [done|]. split; [done|].
  unfold risk_to_color_hex. destruct (String.eqb label ""); [by right|].
  apply risk_lookup_hex.
Qed.

Example risk_medium_any_case :
  risk_to_color_hex "  MeDium " DEFAULT_HEX = "#f2e804" /\
  risk_to_color_hex "EMERGENCY" DEFAULT_HEX = "#b10202" /\
  risk_to_color_hex "sedang" DEFAULT_HEX = "#3388ff".
Proof. by vm_compute. Qed.

(** ** forms.py: the role of a column (C3) *)

Lemma find_level_col_has_level cols c :
  Forms._find_level_col cols = Some c ->
  PyStr.contains "level" (PyStr.lower c) = true.
Proof.
  unfold Forms._find_level_col. intros Hfind.
  apply find_some in Hfind as [_ Hc]. by apply andb_true_iff in Hc as [Hl _].
Qed.

(** C3. Classification is a function of the column name that gives every
    name one role: the role of the first rule that holds in the order
    skip-list, documentation, feeder, indicator, date, number, with plain
    text when none holds. "Tanggal No Urut" matches the date and the number
    keywords and is classified as a date, whatever the columns of the
    sheet. *)
Theorem classify_column_priority (level_col : option string) (c : string) :
  Forms.classify_column level_col c = first_match (priority_rules level_col) c /\
  (exists! r, Forms.classify_column level_col c = r) /\
  Forms._is_date_column "Tanggal No Urut" = true /\
  Forms._is_number_column "Tanggal No Urut" = true /\
  (forall cols : list string,
     Forms.classify_column (Forms._find_level_col cols) "Tanggal No Urut" = Forms.RDate).
Proof.
  split.
  { unfold Forms.classify_column, priority_rules, first_match.
    repeat (destruct (_ : bool); [reflexivity|]). reflexivity. }
  split; [exists (Forms.classify_column level_col c); by split|].
  split; [by vm_compute|]. split; [by vm_compute|].
  intros cols. unfold Forms.classify_column, Forms.is_skipped.
  destruct (Forms._find_level_col cols) as [lc|] eqn:Hlc.
  - rewrite bool_decide_eq_false_2; [by vm_compute|].
    intros [= ->]. apply find_level_col_has_level in Hlc. by vm_compute in Hlc.
  - rewrite bool_decide_eq_false_2; [by vm_compute|]. done.
Qed.

(** ** forms.py: the last number of a column (C7) *)

Section LastNumber.
Context {F : Type} `{PyNum F}.

Lemma qualifies_not_bad v : qualifies v = true -> not_bad v = true.
Proof.
  unfold qualifies, not_bad. destruct (PyStr.mem _ _); [|done].
  by rewrite orb_true_r.
Qed.

Lemma not_bad_unqualified v :
  not_bad v = true -> qualifies v = false -> v = "0".
Proof.
  unfold qualifies, not_bad. intros Hb Hq.
  apply negb_true_iff in Hb. rewrite Hb, orb_false_r in Hq.
  apply negb_false_iff, orb_true_iff in Hq as [Hq|Hq]; apply String.eqb_eq in Hq.
  - subst v. by vm_compute in Hb.
  - done.
Qed.

Lemma scan_from_bottom_find (l : list string) :
  Forall (fun v => PyStr.strip v = v) l ->
  Forms.scan_from_bottom l = report <$> List.find qualifies l.
Proof.
  induction 1 as [|v l Hv _ IH]; [done|].
  cbn [Forms.scan_from_bottom List.find]. rewrite Hv. unfold qualifies at 1.
  destruct (String.eqb v "" || PyStr.mem (PyStr.lower v) Forms.bads || String.eqb v "0");
    [exact IH|].
  cbn. unfold report. by destruct (Forms.digit_runs v).
Qed.

Lemma find_filter_weaken (p q : string -> bool) (l : list string) :
  (forall v, q v = true -> p v = true) ->
  List.find q (List.filter p l) = List.find q l.
Proof.
  intros Hpq. induction l as [|v l IH]; [done|]. cbn [List.filter List.find].
  destruct (q v) eqn:Hq.
  - rewrite (Hpq _ Hq). cbn [List.find]. by rewrite Hq.
  - destruct (p v); [cbn [List.find]; by rewrite Hq|done].
Qed.

Lemma column_texts_stripped df c :
  Forall (fun v => PyStr.strip v = v) (column_texts df c).
Proof.
  unfold column_texts. apply Forall_map, Forall_true. intros r. apply strip_idemp.
Qed.

Lemma find_rev_none (q : string -> bool) (l : list string) :
  List.find q (rev l) = None -> forall v, v ∈ l -> q v = false.
Proof.
  intros Hnone v Hv. apply (find_none _ _ Hnone).
  apply in_rev. rewrite rev_involutive. by apply list_elem_of_In.
Qed.

Lemma last_all_zero (l : list string) :
  l <> [] -> Forall (fun v => v = "0") l -> List.last l "" = "0".
Proof.
  intros Hne Hall. destruct (exists_last Hne) as (l' & x & ->).
  rewrite last_last. apply Forall_app in Hall as [_ Hx]. by inversion Hx.
Qed.

End LastNumber.

(** C7 (amended). On every data frame and column the helper returns what
    the scan from the most recent value to the earliest finds: the first
    value that is not blank, "nan", "none" or "0", reported with its last
    run of digits when it has one; when no value qualifies it returns the
    sentinel if every value is blank, "nan" or "none" (or the frame is
    empty or lacks the column), and "0" when some value is "0". *)
Theorem get_last_number_spec {F : Type} `{PyNum F} (df : DataFrame F) (c : string) :
  Forms._get_last_number_from_column df c = last_number_spec df c.
Proof.
  unfold Forms._get_last_number_from_column, last_number_spec.
  destruct (df_empty df || negb (PyStr.mem c (columns df))); [done|].
  fold (column_texts df c). fold not_bad.
  set (texts := column_texts df c).
  assert (Hstripped : Forall (fun v => PyStr.strip v = v) (List.filter not_bad texts)).
  { apply List.Forall_forall. intros v Hv. apply filter_In in Hv as [Hv _].
    revert v Hv. apply List.Forall_forall, column_texts_stripped. }
  assert (Hfind : Forms.scan_from_bottom (rev (List.filter not_bad texts))
                  = report <$> List.find qualifies (rev texts)).
  { rewrite scan_from_bottom_find.
    - f_equal. rewrite <- filter_rev. apply find_filter_weaken, qualifies_not_bad.
    - apply List.Forall_forall. intros v Hv. apply in_rev in Hv.
      revert v Hv. by apply List.Forall_forall. }
  destruct (List.filter not_bad texts) as [|x xs] eqn:Hf.
  - (* every value is blank, "nan" or "none" *)
    destruct (List.find qualifies (rev texts)) as [v|] eqn:Hq.
    + apply find_some in Hq as [Hin Hq]. apply in_rev in Hin.
      assert (In v (List.filter not_bad texts))
        by (apply filter_In; split; [done|by apply qualifies_not_bad]).
      rewrite Hf in *. done.
    + destruct (existsb (String.eqb "0") texts) eqn:Hz; [|done].
      apply existsb_exists in Hz as (z & Hin & Hz). apply String.eqb_eq in Hz. subst z.
      assert (In "0" (List.filter not_bad texts))
        by (apply filter_In; split; [done|by vm_compute]).
      rewrite Hf in *. done.
  - rewrite Hfind. destruct (List.find qualifies (rev texts)) as [v|] eqn:Hq; [done|].
    cbn [fmap option_fmap option_map].
    assert (Hall : Forall (fun v => v = "0") (x :: xs)).
    { rewrite <- Hf. apply List.Forall_forall. intros v Hv.
      apply filter_In in Hv as [Hin Hb]. apply not_bad_unqualified; [done|].
      apply (find_rev_none _ _ Hq). by apply list_elem_of_In. }
    rewrite (last_all_zero (x :: xs)) by done.
    assert (Hx : x = "0") by (by inversion Hall).
    assert (Hin : In x texts).
    { eapply proj1, filter_In. rewrite Hf. by left. }
    replace (existsb (String.eqb "0") texts) with true; [done|].
    symmetry. apply existsb_exists. exists x. split; [done|]. subst x. done.
Qed.

(** C7, counterexample. In a column whose values are all "0" no value
    qualifies, the claim promises the sentinel, and the helper returns
    "0". *)
Lemma get_last_number_all_zero :
  Forall (fun v => qualifies v = false) (column_texts zeros_df "No") /\
  last_number_claimed zeros_df "No" = Forms.NO_DATA /\
  Forms._get_last_number_from_column zeros_df "No" = "0" /\
  Forms._get_last_number_from_column zeros_df "No" <> last_number_claimed zeros_df "No".
Proof.
  split; [by repeat constructor|]. by vm_compute.
Qed.

Example get_last_number_examples :
  let df : DataFrame Decimal.dec :=
    {| columns := ["No"; "Catatan"];
       rows := [ {["No" := CStr "A-12/7"; "Catatan" := CStr ""]};
                 {["No" := CStr " 0 "; "Catatan" := CStr "nan"]};
                 {["No" := CStr ""; "Catatan" := CMissing]} ] |} in
  Forms._get_last_number_from_column df "No" = "A-12/7 (angka: 7)" /\
  Forms._get_last_number_from_column df "Catatan" = "Belum ada data" /\
  Forms._get_last_number_from_column df "Lain" = "Belum ada data".
Proof. by vm_compute. Qed.

(** ** map_builder.py: the fill colour of a marker (C5) *)

Section FillColor.
Context {F : Type} `{PyNum F}.

Lemma risk_cell_range (v : cell F) :
  risk_to_color_hex_cell v DEFAULT_HEX ∈
    [DEFAULT_HEX; "#3d3d3d"; "#7db86a"; "#f2e804"; "#ffaa00"; "#b10202"].
Proof.
  assert (Hl : forall k, risk_lookup k DEFAULT_HEX ∈
    [DEFAULT_HEX; "#3d3d3d"; "#7db86a"; "#f2e804"; "#ffaa00"; "#b10202"]).
  { intros k. destruct (risk_lookup_range k DEFAULT_HEX) as [->|Hin];
      [by left|by right]. }
  destruct v as [s|x|]; cbn [risk_to_color_hex_cell].
  - unfold risk_to_color_hex. destruct (String.eqb s ""); [by left|apply Hl].
  - destruct (py_bool x); [apply Hl|by left].
  - by left.
Qed.

Lemma risk_cell_valid_hex (v : cell F) :
  MapBuilder._valid_hex (@CStr F (risk_to_color_hex_cell v DEFAULT_HEX)) = true.
Proof.
  pose proof (risk_cell_range v) as Hin.
  repeat (apply elem_of_cons in Hin as [->|Hin]; [reflexivity|]).
  by apply elem_of_nil in Hin.
Qed.

(** The four assignments, as one choice. *)
Lemma fill_color_of_row_cases (row : Row F) (df_cols : list string) (color_col : string) :
  MapBuilder.fill_color_of_row row df_cols color_col (MapBuilder._find_level_col df_cols)
  = let from_caller_or_level :=
      if PyStr.mem color_col df_cols && MapBuilder._valid_hex (row_get row color_col)
      then row_get row color_col
      else
        match MapBuilder._find_level_col df_cols with
        | Some lc =>
            CStr (risk_to_color_hex_cell (row_get_or row lc (CStr "")) DEFAULT_HEX)
        | None => CStr "#3388ff"
        end in
    match MapBuilder._get_color_from_row row df_cols with
    | Some s =>
        if MapBuilder._valid_hex (@CStr F s) then CStr s else from_caller_or_level
    | None => from_caller_or_level
    end.
Proof.
  unfold MapBuilder.fill_color_of_row. cbv zeta.
  assert (Hrest : forall fc0 : cell F,
    MapBuilder._valid_hex fc0 = false ->
    (let fc1 := if MapBuilder._valid_hex fc0 then fc0
                else if PyStr.mem color_col df_cols then row_get row color_col
                else CMissing in
     let fc2 := match MapBuilder._find_level_col df_cols with
                | Some lc =>
                    if negb (MapBuilder._valid_hex fc1)
                    then CStr (risk_to_color_hex_cell (row_get_or row lc (CStr "")) DEFAULT_HEX)
                    else fc1
                | None => fc1
                end in
     if MapBuilder._valid_hex fc2 then fc2 else CStr "#3388ff")
    = if PyStr.mem color_col df_cols && MapBuilder._valid_hex (row_get row color_col)
      then row_get row color_col
      else match MapBuilder._find_level_col df_cols with
           | Some lc =>
               CStr (risk_to_color_hex_cell (row_get_or row lc (CStr "")) DEFAULT_HEX)
           | None => CStr "#3388ff"
           end).
  { intros fc0 Hfc0. cbv zeta. rewrite Hfc0.
    destruct (PyStr.mem color_col df_cols); cbn [andb].
    - destruct (MapBuilder._valid_hex (row_get row color_col)) eqn:Hv.
      + destruct (MapBuilder._find_level_col df_cols); cbn [negb]; by rewrite Hv.
      + destruct (MapBuilder._find_level_col df_cols); cbn [negb].
        * by rewrite risk_cell_valid_hex.
        * by rewrite Hv.
    - change (MapBuilder._valid_hex (@CMissing F)) with false.
      destruct (MapBuilder._find_level_col df_cols); cbn [negb].
      + by rewrite risk_cell_valid_hex.
      + done. }
  destruct (MapBuilder._get_color_from_row row df_cols) as [s|].
  - destruct (MapBuilder._valid_hex (CStr s)) eqn:Hs.
    + cbv zeta. rewrite Hs.
      destruct (MapBuilder._find_level_col df_cols); cbn [negb]; by rewrite Hs.
    + specialize (Hrest (CStr s) Hs). cbv zeta in Hrest. rewrite Hs in Hrest.
      exact Hrest.
  - by apply (Hrest CMissing).
Qed.

Lemma hex_char_spec (c : ascii) : char_in c HEX_DIGITS = PyStr.is_hex_digit c.
Proof. by destruct c as [[] [] [] [] [] [] [] []]. Qed.

Lemma forallb_str_ext (p q : ascii -> bool) (s : string) :
  (forall c, p c = q c) -> PyStr.forallb_str p s = PyStr.forallb_str q s.
Proof.
  intros Hpq. induction s as [|c s IH]; [done|]. cbn [PyStr.forallb_str].
  by rewrite Hpq, IH.
Qed.

(** The pattern of the code accepts the texts that are "#" and 3 or 6
    hexadecimal digits. *)
Lemma valid_hex_text_spec (s : string) :
  valid_hex_text s = MapBuilder.hex_fullmatch (PyStr.strip s).
Proof.
  unfold valid_hex_text, MapBuilder.hex_fullmatch.
  destruct (PyStr.strip s) as [|c r]; [done|].
  destruct c as [[] [] [] [] [] [] [] []]; try reflexivity.
  rewrite (forallb_str_ext _ PyStr.is_hex_digit) by apply hex_char_spec.
  by rewrite (orb_comm (String.length r =? 3)%nat).
Qed.

Lemma valid_hex_spec (v : cell F) : MapBuilder._valid_hex v = is_valid_hex v.
Proof.
  destruct v as [s|x|]; [|done|done]. cbn [MapBuilder._valid_hex is_valid_hex].
  rewrite valid_hex_text_spec. destruct (String.eqb_spec s ""); by subst.
Qed.

Lemma find_level_col_spec (df_cols : list string) :
  MapBuilder._find_level_col df_cols = level_column df_cols.
Proof. reflexivity. Qed.

Lemma level_color_spec (v : cell F) :
  risk_to_color_hex_cell v DEFAULT_HEX = level_color v.
Proof.
  unfold level_color, risk_color_spec.
  destruct v as [s|x|]; cbn [risk_to_color_hex_cell cell_present cell_str].
  - unfold risk_to_color_hex. destruct (String.eqb s ""); [done|].
    cbn [negb]. apply risk_lookup_spec.
  - destruct (py_bool x); [apply risk_lookup_spec|done].
  - done.
Qed.

(** The value read from the Color/Warna column is the trimmed text of
    the cell, and it passes the test of the code exactly when the text of
    the cell is a valid hex colour. *)
Lemma get_color_from_row_spec (row : Row F) (df_cols : list string) :
  match MapBuilder._get_color_from_row row df_cols with
  | Some s =>
      s = PyStr.strip (own_color_text row df_cols) /\
      MapBuilder._valid_hex (@CStr F s) = valid_hex_text (own_color_text row df_cols)
  | None => valid_hex_text (own_color_text row df_cols) = false
  end.
Proof.
  assert (Htext : forall t : string,
    if String.eqb (PyStr.strip t) "" then valid_hex_text t = false
    else MapBuilder._valid_hex (@CStr F (PyStr.strip t)) = valid_hex_text t).
  { intros t. destruct (String.eqb_spec (PyStr.strip t) "") as [He|Hne].
    - unfold valid_hex_text. by rewrite He.
    - cbn [MapBuilder._valid_hex]. rewrite (proj2 (String.eqb_neq _ _) Hne).
      by rewrite strip_idemp, valid_hex_text_spec. }
  unfold MapBuilder._get_color_from_row, own_color_text, color_column.
  destruct (List.find _ df_cols) as [c|]; [|done].
  destruct (row_get row c) as [t|x|]; [| |done].
  - cbn [cell_str]. specialize (Htext t).
    by destruct (String.eqb (PyStr.strip t) "").
  - cbn [cell_str]. specialize (Htext (py_str x)).
    by destruct (String.eqb (PyStr.strip (py_str x)) "").
Qed.

Lemma fill_color_of_row_spec (row : Row F) (df_cols : list string) (color_col : string) :
  MapBuilder.fill_color_of_row row df_cols color_col (MapBuilder._find_level_col df_cols)
  = fill_color_spec row df_cols color_col.
Proof.
  rewrite fill_color_of_row_cases. cbv zeta. unfold fill_color_spec.
  rewrite find_level_col_spec, valid_hex_spec.
  assert (Hlevel :
    (match level_column df_cols with
     | Some lc =>
         @CStr F (risk_to_color_hex_cell (row_get_or row lc (CStr "")) DEFAULT_HEX)
     | None => CStr "#3388ff"
     end)
    = (match level_column df_cols with
       | Some lc => CStr (level_color (row_get_or row lc (CStr "")))
       | None => CStr "#3388ff"
       end)).
  { destruct (level_column df_cols); [|done]. by rewrite level_color_spec. }
  rewrite Hlevel.
  pose proof (get_color_from_row_spec row df_cols) as Hown.
  destruct (MapBuilder._get_color_from_row row df_cols) as [s|].
  - destruct Hown as [-> ->].
    by destruct (valid_hex_text (own_color_text row df_cols)).
  - by rewrite Hown.
Qed.

Lemma row_marker_fill_color (df_cols : list string) (color_col : string)
    (row : Row F) (m : MapBuilder.Marker F) :
  MapBuilder.row_marker df_cols color_col row = Some m ->
  MapBuilder.fill_color m = fill_color_spec row df_cols color_col.
Proof.
  unfold MapBuilder.row_marker.
  destruct (MapBuilder._get_lat_lon_from_row row df_cols) as [[lat|] [lon|]];
    try done.
  intros [= <-]. cbn [MapBuilder.fill_color]. apply fill_color_of_row_spec.
Qed.

Lemma make_map_markers (df : DataFrame F) (color_col : string) fmap notes :
  MapBuilder.make_map df color_col = (Some fmap, notes) ->
  MapBuilder.markers fmap
  = omap (MapBuilder.row_marker (columns df) color_col) (rows df).
Proof.
  unfold MapBuilder.make_map. destruct (df_empty df); [done|]. by intros [= <- _].
Qed.

End FillColor.

(** C5. Every marker of the map comes from a row of the frame, and its fill
    colour is the one the priority order gives for that row: the Color/Warna
    value, trimmed, when it is valid hex, that is "#" followed by 3 or 6
    hexadecimal digits; else the value of the caller's colour column when
    that is valid hex; else the colour of the risk level when a level
    column exists; else #3388ff. A row whose level is "Medium", in a frame
    with no Color/Warna column and no valid colour in the caller's column,
    is filled with #f2e804. *)
Theorem marker_fill_color_priority {F : Type} `{PyNum F} :
  (forall (df : DataFrame F) (color_col : string) fmap notes m,
     MapBuilder.make_map df color_col = (Some fmap, notes) ->
     m ∈ MapBuilder.markers fmap ->
     exists row, row ∈ rows df /\
       MapBuilder.row_marker (columns df) color_col row = Some m /\
       MapBuilder.fill_color m = fill_color_spec row (columns df) color_col) /\
  (forall (df_cols : list string) (color_col : string) (row : Row F) m,
     MapBuilder.row_marker df_cols color_col row = Some m ->
     MapBuilder.fill_color m = fill_color_spec row df_cols color_col) /\
  (forall (row : Row F) (df_cols : list string) (color_col lc : string) m,
     color_column df_cols = None ->
     PyStr.mem color_col df_cols && is_valid_hex (row_get row color_col) = false ->
     level_column df_cols = Some lc ->
     row !! lc = Some (CStr "Medium") ->
     MapBuilder.row_marker df_cols color_col row = Some m ->
     MapBuilder.fill_color m = CStr "#f2e804").
Proof.
  split; [|split].
  - intros df color_col fmap notes m Hmap Hm.
    rewrite (make_map_markers _ _ _ _ Hmap) in Hm.
    apply list_elem_of_omap in Hm as (row & Hrow & Hmk).
    exists row. split; [done|]. split; [done|].
    by apply row_marker_fill_color.
  - intros df_cols color_col row m. apply row_marker_fill_color.
  - intros row df_cols color_col lc m Hnocolor Hnocaller Hlevel Hmedium Hm.
    rewrite (row_marker_fill_color _ _ _ _ Hm).
    unfold fill_color_spec, own_color_text.
    rewrite Hnocolor, Hnocaller, Hlevel. cbn [andb].
    unfold row_get_or. rewrite Hmedium. reflexivity.
Qed.

(** C5, on the samples: the one marker of the sample frame is filled
    with #f2e804, the colour of its level "Medium"; a row whose Warna cell
    holds "#1E90FF" is filled with #1E90FF, whatever its level; a row whose
    Color cell holds "merah" is filled with the "#0a0" of the caller's
    column; a row whose two colours, "#12345" and "#ggg", are no valid hex
    is filled with the colour of its level "High"; and a row whose colour
    "1E90FF" lacks the "#", in a sheet without level column, is filled with
    #3388ff. *)
Lemma marker_fill_color_medium :
  (exists fmap m,
     MapBuilder.make_map medium_df "Color" = (Some fmap, []) /\
     MapBuilder.markers fmap = [m] /\
     MapBuilder.fill_color m = CStr "#f2e804") /\
  (exists m,
     MapBuilder.row_marker own_color_cols "Color" own_color_row = Some m /\
     MapBuilder.fill_color m = CStr "#1E90FF") /\
  (exists m,
     MapBuilder.row_marker caller_color_cols "Kode Warna" caller_color_row = Some m /\
     MapBuilder.fill_color m = CStr "#0a0") /\
  (exists m,
     MapBuilder.row_marker caller_color_cols "Kode Warna" level_color_row = Some m /\
     MapBuilder.fill_color m = CStr "#ffaa00") /\
  (exists m,
     MapBuilder.row_marker no_level_cols "Color" no_level_row = Some m /\
     MapBuilder.fill_color m = CStr "#3388ff").
Proof.
  split; [|repeat split].
  - destruct (MapBuilder.make_map medium_df "Color") as [[fmap|] notes] eqn:Hmap;
      [|by vm_compute in Hmap].
    assert (Hnotes : notes = []) by (by vm_compute in Hmap; injection Hmap as _ <-).
    subst notes.
    destruct (MapBuilder.markers fmap) as [|m [|m' ms]] eqn:Hms;
      [ exfalso; vm_compute in Hmap; injection Hmap as <-; vm_compute in Hms; discriminate
      | | exfalso; vm_compute in Hmap; injection Hmap as <-; vm_compute in Hms; discriminate ].
    exists fmap, m. split; [done|]. split; [done|].
    destruct (proj1 marker_fill_color_priority medium_df "Color" fmap [] m Hmap)
      as (row & Hrow & Hmk & _); [rewrite Hms; by left|].
    apply list_elem_of_singleton in Hrow.
    apply (proj2 (proj2 marker_fill_color_priority) row (columns medium_df) "Color"
             "Level Resiko" m);
      [by vm_compute|by vm_compute|by vm_compute|subst row; by vm_compute|exact Hmk].
  - destruct (MapBuilder.row_marker own_color_cols "Color" own_color_row)
      as [m|] eqn:Hm; [|by vm_compute in Hm].
    exists m. split; [done|].
    rewrite (proj1 (proj2 marker_fill_color_priority) _ _ _ _ Hm). by vm_compute.
  - destruct (MapBuilder.row_marker caller_color_cols "Kode Warna" caller_color_row)
      as [m|] eqn:Hm; [|by vm_compute in Hm].
    exists m. split; [done|].
    rewrite (proj1 (proj2 marker_fill_color_priority) _ _ _ _ Hm). by vm_compute.
  - destruct (MapBuilder.row_marker caller_color_cols "Kode Warna" level_color_row)
      as [m|] eqn:Hm; [|by vm_compute in Hm].
    exists m. split; [done|].
    rewrite (proj1 (proj2 marker_fill_color_priority) _ _ _ _ Hm). by vm_compute.
  - destruct (MapBuilder.row_marker no_level_cols "Color" no_level_row)
      as [m|] eqn:Hm; [|by vm_compute in Hm].
    exists m. split; [done|].
    rewrite (proj1 (proj2 marker_fill_color_priority) _ _ _ _ Hm). by vm_compute.
Defined.

(** ** map_builder.py: which rows get a marker (C4) *)

Section NumeralsOfText.

Lemma numeral_at_spec (s : string) : MapBuilder.match_float_at s = numeral_at s.
Proof.
  destruct s as [|c r]; [done|].
  destruct (Ascii.eqb_spec c "+") as [->|Hp]; [apply match_float_at_plus|].
  destruct (Ascii.eqb_spec c "-") as [->|Hm]; [apply match_float_at_minus|].
  rewrite match_float_at_unsigned by done.
  destruct c as [[] [] [] [] [] [] [] []]; try reflexivity; congruence.
Qed.

Lemma length_append (s t : string) :
  String.length (s +:+ t) = String.length s + String.length t.
Proof.
  induction s as [|c s IH]; [done|]. rewrite append_cons. cbn [String.length].
  by rewrite IH.
Qed.

Lemma drop_chars_append (x rest : string) :
  drop_chars (String.length x) (x +:+ rest) = rest.
Proof.
  induction x as [|c x IH]; [by destruct rest|]. rewrite append_cons.
  cbn [String.length drop_chars]. exact IH.
Qed.

Lemma fraction_at_prefix (r2 : string) : exists rest, r2 = fraction_at r2 +:+ rest.
Proof.
  destruct r2 as [|c r3]; [by exists ""|]. rewrite fraction_at_cons.
  destruct (Ascii.eqb_spec c ".") as [->|Hc]; [|by exists (String c r3)].
  pose proof (span_digits_split r3) as Hsplit.
  destruct (fst (PyStr.span_digits r3)) as [|f fs]; [by exists (String "." r3)|].
  exists (snd (PyStr.span_digits r3)). by rewrite append_cons, <- Hsplit.
Qed.

Lemma unsigned_float_prefix (r u : string) :
  unsigned_float_at r = Some u ->
  exists c u' rest, u = String c u' /\ r = u +:+ rest.
Proof.
  unfold unsigned_float_at. pose proof (span_digits_split r) as Hsplit.
  destruct (PyStr.span_digits r) as [ds r2]. cbn [fst snd] in Hsplit.
  destruct ds as [|d ds]; [done|]. intros [= <-].
  destruct (fraction_at_prefix r2) as [rest Hrest].
  exists d, (ds +:+ fraction_at r2), rest. split; [by rewrite append_cons|].
  by rewrite append_assoc, <- Hrest.
Qed.

(** A numeral found at the head of a text is not empty and the text
    begins with it. *)
Lemma numeral_at_prefix (s m : string) :
  numeral_at s = Some m ->
  exists c m' rest, m = String c m' /\ s = m +:+ rest.
Proof.
  assert (Hsigned : forall (sign : ascii) (r : string),
    String sign <$> unsigned_float_at r = Some m ->
    exists c m' rest, m = String c m' /\ String sign r = m +:+ rest).
  { intros sign r Hm. destruct (unsigned_float_at r) as [u|] eqn:Hu; [|done].
    injection Hm as <-. destruct (unsigned_float_prefix r u Hu) as (c & u' & rest & _ & ->).
    exists sign, u, rest. by rewrite append_cons. }
  destruct s as [|c r]; [done|].
  destruct (Ascii.eqb_spec c "+") as [->|Hp]; [apply Hsigned|].
  destruct (Ascii.eqb_spec c "-") as [->|Hm]; [apply Hsigned|].
  intros Hu. apply unsigned_float_prefix.
  destruct c as [[] [] [] [] [] [] [] []]; try exact Hu; congruence.
Qed.

Lemma findall_from_numerals (fuel : nat) (s : string) :
  String.length s <= fuel -> MapBuilder.findall_from 0 s = numerals_in fuel s.
Proof.
  revert s. induction fuel as [|fuel IH]; intros s Hlen.
  - destruct s; [done|]. cbn [String.length] in Hlen. lia.
  - destruct s as [|c r]; [done|]. cbn [String.length] in Hlen.
    cbn [MapBuilder.findall_from numerals_in]. rewrite numeral_at_spec.
    destruct (numeral_at (String c r)) as [m|] eqn:Hm; [|apply IH; lia].
    destruct (numeral_at_prefix _ _ Hm) as (c' & m' & rest & -> & Hs).
    rewrite Hs, drop_chars_append. rewrite append_cons in Hs.
    injection Hs as _ ->. rewrite length_append in Hlen.
    replace (String.length (String c' m') - 1) with (String.length m')
      by (cbn [String.length]; lia).
    rewrite findall_from_skip. f_equal. apply IH. lia.
Qed.

(** The matches of the pattern in a text are its numerals. *)
Lemma findall_float_numerals (s : string) : MapBuilder.findall_float s = numerals s.
Proof. by apply findall_from_numerals. Qed.

End NumeralsOfText.

Section Eligible.
Context {F : Type} `{PyNum F}.

Lemma safe_float_blank (v : cell F) :
  MapBuilder._is_blank v = true -> MapBuilder.safe_float v = None.
Proof. unfold MapBuilder.safe_float. by intros ->. Qed.

Lemma parse_coord_both (v : cell F) :
  match MapBuilder._parse_coord_from_field v with
  | (Some _, Some _) | (None, None) => True
  | _ => False
  end.
Proof.
  unfold MapBuilder._parse_coord_from_field.
  destruct v; try done;
    (destruct (MapBuilder.findall_float _) as [|f0 [|f1 ?]]; try done;
     by destruct (py_float f0), (py_float f1)).
Qed.

Lemma hd_filter_find {A} (p : A -> bool) (l : list A) :
  match List.filter p l with
  | k :: _ => List.find p l = Some k
  | [] => List.find p l = None
  end.
Proof.
  induction l as [|x l IH]; [done|]. cbn [List.filter List.find].
  by destruct (p x).
Qed.

(** The value of the first latitude key is the cell of the latitude
    column, and likewise for the longitude. *)
Lemma first_lat_value (row : Row F) (df_cols : list string) :
  MapBuilder.first_key_value row (MapBuilder.lat_keys df_cols)
  = dedicated_cell row df_cols LATITUDE_NAMES.
Proof.
  unfold MapBuilder.lat_keys, dedicated_cell, LATITUDE_NAMES.
  pose proof (hd_filter_find
    (fun c => PyStr.mem (PyStr.lower c) ["latitude"; "lat"; "lintang"]) df_cols) as Hf.
  destruct (List.filter _ df_cols); by rewrite Hf.
Qed.

Lemma first_lon_value (row : Row F) (df_cols : list string) :
  MapBuilder.first_key_value row (MapBuilder.lon_keys df_cols)
  = dedicated_cell row df_cols LONGITUDE_NAMES.
Proof.
  unfold MapBuilder.lon_keys, dedicated_cell, LONGITUDE_NAMES.
  pose proof (hd_filter_find
    (fun c => PyStr.mem (PyStr.lower c) ["longitude"; "lon"; "lng"; "bujur"]) df_cols)
    as Hf.
  destruct (List.filter _ df_cols); by rewrite Hf.
Qed.

Lemma is_blank_spec (v : cell F) : MapBuilder._is_blank v = blank_or_absent v.
Proof. by destruct v. Qed.

(** The conversion of the code gives the number of the cell. *)
Lemma safe_float_spec (v : cell F) : MapBuilder.safe_float v = cell_number v.
Proof.
  unfold MapBuilder.safe_float.
  destruct v as [s|x|]; cbn [MapBuilder._is_blank cell_number cell_str]; [|done|done].
  by destruct (String.eqb (PyStr.strip s) "").
Qed.

Lemma cell_number_blank (v : cell F) : blank_or_absent v = true -> cell_number v = None.
Proof. rewrite <- is_blank_spec, <- safe_float_spec. apply safe_float_blank. Qed.

(** What the code parses out of the cell of the combined column is the
    pair of the first two numerals of its text. *)
Lemma parse_coord_field_spec (row : Row F) (coord_col : string) :
  match MapBuilder._parse_coord_from_field (row_get_or row coord_col (CStr "")) with
  | (Some lat, Some lon) =>
      match row_get row coord_col with
      | CMissing => None
      | v => two_numbers (cell_str v)
      end = Some (lat, lon)
  | _ =>
      match row_get row coord_col with
      | CMissing => None
      | v => two_numbers (cell_str v)
      end = None
  end.
Proof.
  assert (Htext : forall v : cell F,
    v <> CMissing ->
    match MapBuilder._parse_coord_from_field v with
    | (Some lat, Some lon) => two_numbers (cell_str v) = Some (lat, lon)
    | _ => two_numbers (cell_str v) = None
    end).
  { intros v Hv. unfold MapBuilder._parse_coord_from_field, two_numbers.
    rewrite findall_float_numerals.
    destruct v as [s|x|]; [| |done];
      (destruct (numerals _) as [|f0 [|f1 ?]]; try done;
       by destruct (py_float f0), (py_float f1)). }
  unfold row_get_or, row_get.
  destruct (row !! coord_col) as [[s|x|]|]; cbn [default from_option id].
  - by apply (Htext (CStr s)).
  - by apply (Htext (CNum x)).
  - done.
  - done.
Qed.

(** The coordinates of a row are the resolved pair, and nothing when
    there is none. *)
Lemma get_lat_lon_resolved (row : Row F) (df_cols : list string) :
  match MapBuilder._get_lat_lon_from_row row df_cols with
  | (Some lat, Some lon) => resolved_pair row df_cols = Some (lat, lon)
  | _ => resolved_pair row df_cols = None
  end.
Proof.
  unfold MapBuilder._get_lat_lon_from_row, resolved_pair, dedicated_blank,
    combined_pair, direct_pair.
  cbv zeta. rewrite first_lat_value, first_lon_value.
  change (MapBuilder.find_coord_col df_cols) with (combined_column df_cols).
  set (lat := dedicated_cell row df_cols LATITUDE_NAMES).
  set (lon := dedicated_cell row df_cols LONGITUDE_NAMES).
  rewrite (is_blank_spec lat), (is_blank_spec lon), (safe_float_spec lat),
    (safe_float_spec lon).
  destruct (blank_or_absent lat || blank_or_absent lon) eqn:Hblank.
  - assert (Hnone : match cell_number lat, cell_number lon with
                    | Some _, Some _ => False
                    | _, _ => True
                    end).
    { apply orb_true_iff in Hblank as [Hb|Hb]; rewrite (cell_number_blank _ Hb);
        [done|by destruct (cell_number lat)]. }
    destruct (combined_column df_cols) as [coord_col|].
    + pose proof (parse_coord_both (row_get_or row coord_col (CStr ""))) as Hboth.
      pose proof (parse_coord_field_spec row coord_col) as Hfield.
      destruct (MapBuilder._parse_coord_from_field _) as [[plat|] [plon|]]; try done.
      by destruct (cell_number lat), (cell_number lon).
    + by destruct (cell_number lat), (cell_number lon).
  - by destruct (cell_number lat), (cell_number lon).
Qed.

Lemma row_marker_location (df_cols : list string) (color_col : string) (row : Row F) :
  MapBuilder.location <$> MapBuilder.row_marker df_cols color_col row
  = resolved_pair row df_cols.
Proof.
  pose proof (get_lat_lon_resolved row df_cols) as Hres.
  unfold MapBuilder.row_marker.
  by destruct (MapBuilder._get_lat_lon_from_row row df_cols) as [[lat|] [lon|]].
Qed.

Lemma row_marker_coordinates (df_cols : list string) (color_col : string)
    (row : Row F) (lat lon : F) :
  MapBuilder.location <$> MapBuilder.row_marker df_cols color_col row = Some (lat, lon) ->
  MapBuilder._get_lat_lon_from_row row df_cols = (Some lat, Some lon).
Proof.
  unfold MapBuilder.row_marker.
  destruct (MapBuilder._get_lat_lon_from_row row df_cols) as [[la|] [lo|]]; try done.
  by intros [= -> ->].
Qed.

End Eligible.

(** C4 (amended). A marker is rendered for a row exactly when a pair of
    coordinates is resolved for it, and it stands at that pair: the pair
    parsed out of the combined coordinate column when the dedicated latitude
    or longitude value is blank or absent, the pair of the dedicated
    columns otherwise. The markers of the map are those of the rows, in
    order. A row whose only coordinate data is the combined field
    "-7.93813533, 112.6332461" resolves to that latitude and longitude, and
    a row whose dedicated latitude and longitude cells both convert to a
    number gets its marker at these two numbers. *)
Theorem marker_iff_coordinates_resolved {F : Type} `{PyNum F} :
  (forall (df_cols : list string) (color_col : string) (row : Row F),
     MapBuilder.location <$> MapBuilder.row_marker df_cols color_col row
       = resolved_pair row df_cols /\
     (is_Some (MapBuilder.row_marker df_cols color_col row) <->
      is_Some (direct_pair row df_cols) \/
      (dedicated_blank row df_cols = true /\ is_Some (combined_pair row df_cols)))) /\
  (forall (df : DataFrame F) (color_col : string) fmap notes,
     MapBuilder.make_map df color_col = (Some fmap, notes) ->
     MapBuilder.markers fmap
       = omap (MapBuilder.row_marker (columns df) color_col) (rows df)) /\
  (forall (df_cols : list string) (color_col : string) (row : Row F)
          (coord_col : string) (lat lon : F),
     dedicated_blank row df_cols = true ->
     combined_column df_cols = Some coord_col ->
     row !! coord_col = Some (CStr "-7.93813533, 112.6332461") ->
     py_float "-7.93813533" = Some lat ->
     py_float "112.6332461" = Some lon ->
     MapBuilder._get_lat_lon_from_row row df_cols = (Some lat, Some lon) /\
     MapBuilder.location <$> MapBuilder.row_marker df_cols color_col row
       = Some (lat, lon)) /\
  (forall (df_cols : list string) (color_col : string) (row : Row F) (lat lon : F),
     cell_number (dedicated_cell row df_cols LATITUDE_NAMES) = Some lat ->
     cell_number (dedicated_cell row df_cols LONGITUDE_NAMES) = Some lon ->
     MapBuilder._get_lat_lon_from_row row df_cols = (Some lat, Some lon) /\
     MapBuilder.location <$> MapBuilder.row_marker df_cols color_col row
       = Some (lat, lon)).
Proof.
  split; [|split; [|split]].
  - intros df_cols color_col row.
    pose proof (row_marker_location df_cols color_col row) as Hloc.
    split; [done|].
    rewrite <- (fmap_is_Some MapBuilder.location), Hloc.
    unfold resolved_pair.
    destruct (dedicated_blank row df_cols) eqn:Hblank.
    + split; [by right|]. intros [Hdirect|[_ Hc]]; [|done].
      exfalso. unfold dedicated_blank in Hblank. unfold direct_pair in Hdirect.
      apply orb_true_iff in Hblank as [Hb|Hb];
        rewrite (cell_number_blank _ Hb) in Hdirect;
        [|destruct (cell_number (dedicated_cell row df_cols LATITUDE_NAMES))];
        by destruct Hdirect.
    + split; [by left|]. by intros [Hdirect|[? _]].
  - intros df color_col fmap notes. apply make_map_markers.
  - intros df_cols color_col row coord_col lat lon Hblank Hcoord Hcell Hflat Hflon.
    assert (Hloc : MapBuilder.location <$> MapBuilder.row_marker df_cols color_col row
                   = Some (lat, lon)).
    { rewrite row_marker_location. unfold resolved_pair, combined_pair, row_get.
      rewrite Hblank, Hcoord, Hcell. cbn [default from_option id cell_str].
      unfold two_numbers.
      replace (numerals "-7.93813533, 112.6332461")
        with ["-7.93813533"; "112.6332461"] by (by vm_compute).
      by rewrite Hflat, Hflon. }
    split; [|done]. by apply (row_marker_coordinates df_cols color_col).
  - intros df_cols color_col row lat lon Hlat Hlon.
    assert (Hloc : MapBuilder.location <$> MapBuilder.row_marker df_cols color_col row
                   = Some (lat, lon)).
    { rewrite row_marker_location. unfold resolved_pair, dedicated_blank, direct_pair.
      rewrite Hlat, Hlon.
      destruct (blank_or_absent (dedicated_cell row df_cols LATITUDE_NAMES)) eqn:Hb1;
        [by rewrite (cell_number_blank _ Hb1) in Hlat|].
      destruct (blank_or_absent (dedicated_cell row df_cols LONGITUDE_NAMES)) eqn:Hb2;
        [by rewrite (cell_number_blank _ Hb2) in Hlon|].
      done. }
    split; [|done]. by apply (row_marker_coordinates df_cols color_col).
Qed.

(** C4, on the samples. On the row of scenario A the latitude and
    longitude are the decimals -7.93813533 and 112.6332461, and the row gets
    a marker. On the row whose Latitude cell holds the text " -7.95 " and
    whose Bujur cell holds the number 112.61, the marker stands at -7.95 and
    112.61, and the pair "-1.5, 2.5" of its combined field is not used. *)
Lemma combined_only_row_resolves :
  MapBuilder._get_lat_lon_from_row combined_only_row combined_only_cols
    = (Some {| Decimal.mantissa := -793813533; Decimal.places := 8 |},
       Some {| Decimal.mantissa := 1126332461; Decimal.places := 7 |}) /\
  is_Some (MapBuilder.row_marker combined_only_cols "Color" combined_only_row) /\
  MapBuilder.location <$> MapBuilder.row_marker dedicated_cols "Color" dedicated_row
    = Some ({| Decimal.mantissa := -795; Decimal.places := 2 |},
            {| Decimal.mantissa := 11261; Decimal.places := 2 |}) /\
  combined_pair dedicated_row dedicated_cols
    = Some ({| Decimal.mantissa := -15; Decimal.places := 1 |},
            {| Decimal.mantissa := 25; Decimal.places := 1 |}).
Proof.
  split; [|split; [|split]].
  - apply (proj1 (proj2 (proj2 marker_iff_coordinates_resolved)) combined_only_cols
             "Color" combined_only_row "Koordinat"); by vm_compute.
  - apply (proj1 marker_iff_coordinates_resolved combined_only_cols "Color"
             combined_only_row).
    right. split; [by vm_compute|]. by vm_compute; eexists.
  - apply (proj2 (proj2 (proj2 marker_iff_coordinates_resolved)) dedicated_cols
             "Color" dedicated_row); by vm_compute.
  - by vm_compute.
Defined.

(** C4, counterexample. The claim makes a row eligible as soon as two
    floats can be parsed out of its combined column; this row has such a
    column, but its latitude cell holds the text "abc", which is not blank,
    so the combined column is never read and the row gets no marker. *)
Lemma junk_latitude_not_rendered :
  combined_pair junk_latitude_row junk_latitude_cols
    = Some ({| Decimal.mantissa := -79; Decimal.places := 1 |},
            {| Decimal.mantissa := 1126; Decimal.places := 1 |}) /\
  resolvable_claimed junk_latitude_row junk_latitude_cols /\
  MapBuilder.row_marker junk_latitude_cols "Color" junk_latitude_row = None /\
  MapBuilder.make_map
    {| columns := junk_latitude_cols; rows := [junk_latitude_row] |} "Color"
    = (Some {| MapBuilder.center := MapBuilder.Origin; MapBuilder.markers := [] |}, []).
Proof.
  split; [by vm_compute|]. split; [right; by vm_compute; eexists|]. by vm_compute.
Qed.

(** ** map_builder.py: the empty frame (C9) *)

(** C9 (amended). The map builder is total. It returns no map, together
    with the notice "Tidak ada data untuk dipetakan.", exactly for the
    frames that pandas calls empty: those with zero rows or zero columns. Every
    other frame produces a map and no notice, and when none of its rows has
    valid coordinates the map is centred on the origin and has no marker. *)
Theorem make_map_none_iff_empty {F : Type} `{PyNum F}
    (df : DataFrame F) (color_col : string) :
  (rows df = [] ->
   MapBuilder.make_map df color_col = (None, [Info "Tidak ada data untuk dipetakan."])) /\
  (fst (MapBuilder.make_map df color_col) = None <-> rows df = [] \/ columns df = []) /\
  (fst (MapBuilder.make_map df color_col) = None ->
   snd (MapBuilder.make_map df color_col) = [Info "Tidak ada data untuk dipetakan."]) /\
  (rows df <> [] -> columns df <> [] ->
   exists fmap, MapBuilder.make_map df color_col = (Some fmap, []) /\
     (MapBuilder.valid_points df = [] ->
      MapBuilder.center fmap = MapBuilder.Origin /\ MapBuilder.markers fmap = [])).
Proof.
  unfold MapBuilder.make_map, df_empty.
  destruct (rows df) as [|r rs] eqn:Hrows; [|destruct (columns df) as [|c cs] eqn:Hcols];
    cbn [length Nat.eqb orb fst snd].
  - repeat split; try done. by left.
  - repeat split; try done. by right.
  - split; [done|]. split; [split; [done|by intros [|]]|]. split; [done|].
    intros _ _. eexists. split; [reflexivity|]. cbn [MapBuilder.center MapBuilder.markers].
    intros Hpts. rewrite Hpts. split; [done|].
    unfold MapBuilder.valid_points in Hpts. rewrite Hrows, Hcols in Hpts.
    unfold MapBuilder.row_marker.
    revert Hpts. generalize (r :: rs). intros l. induction l as [|x l IH]; [done|].
    cbn [omap list_omap].
    destruct (MapBuilder._get_lat_lon_from_row x (c :: cs)) as [[lat|] [lon|]];
      try done; apply IH.
Qed.

(** C9, on a sample frame with rows but no coordinates: a map without
    markers, centred on the origin. *)
Lemma make_map_no_coordinates :
  exists fmap,
    MapBuilder.make_map no_coordinates_df "Color" = (Some fmap, []) /\
    MapBuilder.center fmap = MapBuilder.Origin /\
    MapBuilder.markers fmap = [].
Proof.
  destruct (proj2 (proj2 (proj2 (make_map_none_iff_empty no_coordinates_df "Color"))))
    as (fmap & Hmap & Hnone);
    [intros Hrows; discriminate Hrows|intros Hcols; discriminate Hcols|].
  exists fmap. split; [done|]. apply Hnone. by vm_compute.
Defined.

(** C9, counterexample. The claim returns no map only for frames with
    zero rows; this frame has one row and no column, and gets no map. *)
Lemma make_map_no_column :
  rows no_column_df <> [] /\
  MapBuilder.make_map no_column_df "Color"
    = (None, [Info "Tidak ada data untuk dipetakan."]).
Proof. split; [done|]. by vm_compute. Qed.

(** ** app.py: the fingerprint of an empty frame (C10) *)

Section Fingerprint.
Context {F : Type} `{PyNum F}.
Variable md5_hexdigest : string -> string.
Variable str_shape : nat * nat -> string.
Variable str_labels : list string -> string.
Variable str_cells : list (cell F) -> string.

Local Abbreviation hash := (App._get_data_hash md5_hexdigest str_shape str_labels str_cells).
Local Abbreviation main := (App.main md5_hexdigest str_shape str_labels str_cells).
Local Abbreviation load_step := (App.load_step md5_hexdigest str_shape str_labels str_cells).
Local Abbreviation map_step := (App.map_step md5_hexdigest str_shape str_labels str_cells).
Local Abbreviation data_changed := (App.data_changed md5_hexdigest str_shape str_labels str_cells).
Local Abbreviation map_hash_changed :=
  (App.map_hash_changed md5_hexdigest str_shape str_labels str_cells).
Local Abbreviation rebuild_needed :=
  (App.rebuild_needed md5_hexdigest str_shape str_labels str_cells).

Lemma hash_of_empty (d : DataFrame F) : df_empty d = true -> hash d = "empty".
Proof. unfold App._get_data_hash. by intros ->. Qed.

Lemma no_rows_empty (d : DataFrame F) : rows d = [] -> df_empty d = true.
Proof. unfold df_empty. by intros ->. Qed.

Lemma load_step_last_hash st d : App.last_data_hash (load_step st d) = hash d.
Proof.
  unfold App.load_step.
  destruct (data_changed st d) eqn:Hc; cbn [orb]; [done|].
  destruct (App.force_refresh st || df_empty (App.df st)); [done|].
  unfold App.data_changed in Hc. apply negb_false_iff, String.eqb_eq in Hc. done.
Qed.

Lemma load_step_force st d : App.force_refresh (load_step st d) = false.
Proof.
  unfold App.load_step.
  destruct (data_changed st d); cbn [orb]; [done|].
  destruct (App.force_refresh st) eqn:Hf; cbn [orb]; [done|].
  by destruct (df_empty (App.df st)).
Qed.

Lemma map_step_frame st :
  App.last_data_hash (map_step st) = App.last_data_hash st /\
  App.force_refresh (map_step st) = App.force_refresh st /\
  App.df (map_step st) = App.df st /\
  App.map_hash (map_step st) = hash (App.df st).
Proof.
  unfold App.map_step. destruct (rebuild_needed st) eqn:Hr; [done|].
  repeat split. unfold App.rebuild_needed in Hr.
  apply orb_false_iff in Hr as [Hr _]. unfold App.map_hash_changed in Hr.
  apply negb_false_iff, String.eqb_eq in Hr. done.
Qed.

(** After a run of [main] on a frame without rows, a second frame
    without rows changes neither fingerprint test. *)
Lemma second_empty_load st d1 d2 :
  rows d1 = [] -> rows d2 = [] ->
  data_changed (main st d1) d2 = false /\
  map_hash_changed (load_step (main st d1) d2) = false /\
  App.cached_map (load_step (main st d1) d2) = App.cached_map (main st d1).
Proof.
  intros H1 H2.
  pose proof (hash_of_empty _ (no_rows_empty _ H1)) as Hh1.
  pose proof (hash_of_empty _ (no_rows_empty _ H2)) as Hh2.
  destruct (map_step_frame (load_step st d1)) as (Hlast & Hforce & Hdf & Hmh).
  change (map_step (load_step st d1)) with (main st d1) in Hlast, Hforce, Hdf, Hmh.
  set (st1 := main st d1) in *.
  rewrite load_step_last_hash in Hlast. rewrite load_step_force in Hforce.
  rewrite <- Hdf in Hmh.
  assert (Hchanged : data_changed st1 d2 = false).
  { unfold App.data_changed. rewrite Hlast, Hh1, Hh2. done. }
  split; [done|].
  unfold App.load_step. rewrite Hchanged, Hforce. cbn [orb].
  destruct (df_empty (App.df st1)) eqn:He.
  - split; [|done]. unfold App.map_hash_changed. cbn [App.df App.map_hash].
    rewrite Hmh, (hash_of_empty _ He), Hh2. done.
  - split; [|done]. unfold App.map_hash_changed. rewrite Hmh.
    by rewrite String.eqb_refl.
Qed.

End Fingerprint.

(** C10. The fingerprint of a frame without rows is the string "empty",
    whatever its columns, so two such frames have equal fingerprints; after
    a run of [main] on one of them, a run on the other finds the data
    unchanged and the fingerprint of the map unchanged: the map is rebuilt
    only if no map is cached, exactly as it would be had the headers not
    changed. *)
Theorem empty_fingerprint_constant {F : Type} `{PyNum F}
    (md5_hexdigest : string -> string) (str_shape : nat * nat -> string)
    (str_labels : list string -> string) (str_cells : list (cell F) -> string)
    (st : App.SessionState F) (d1 d2 : DataFrame F) :
  rows d1 = [] -> rows d2 = [] ->
  let hash := App._get_data_hash md5_hexdigest str_shape str_labels str_cells in
  let st1 := App.main md5_hexdigest str_shape str_labels str_cells st d1 in
  let st2 := App.load_step md5_hexdigest str_shape str_labels str_cells st1 d2 in
  hash d1 = "empty" /\
  hash d1 = hash d2 /\
  App.data_changed md5_hexdigest str_shape str_labels str_cells st1 d2 = false /\
  App.map_hash_changed md5_hexdigest str_shape str_labels str_cells st2 = false /\
  App.rebuild_needed md5_hexdigest str_shape str_labels str_cells st2
    = match App.cached_map st1 with None => true | Some _ => false end /\
  App.rebuild_needed md5_hexdigest str_shape str_labels str_cells st2
    = App.rebuild_needed md5_hexdigest str_shape str_labels str_cells
        (App.load_step md5_hexdigest str_shape str_labels str_cells st1 d1).
Proof.
  intros H1 H2 hash st1 st2. subst hash st1 st2.
  pose proof (hash_of_empty md5_hexdigest str_shape str_labels str_cells _
                (no_rows_empty _ H1)) as Hh1.
  pose proof (hash_of_empty md5_hexdigest str_shape str_labels str_cells _
                (no_rows_empty _ H2)) as Hh2.
  destruct (second_empty_load md5_hexdigest str_shape str_labels str_cells st d1 d2 H1 H2)
    as (Hc & Hm & Hcache).
  destruct (second_empty_load md5_hexdigest str_shape str_labels str_cells st d1 d1 H1 H1)
    as (_ & Hm' & Hcache').
  split; [done|]. split; [by rewrite Hh1, Hh2|]. split; [done|]. split; [done|].
  unfold App.rebuild_needed. by rewrite Hm, Hcache, Hm', Hcache'.
Qed.

(** C10, on two sample frames without rows and with different headers,
    starting from the state of a first run. *)
Lemma empty_fingerprint_headers_differ :
  columns empty_df_a <> columns empty_df_b /\
  App._get_data_hash id (fun _ => "") (fun _ => "") (fun _ => "") empty_df_a = "empty" /\
  App._get_data_hash id (fun _ => "") (fun _ => "") (fun _ => "") empty_df_a
    = App._get_data_hash id (fun _ => "") (fun _ => "") (fun _ => "") empty_df_b /\
  App.data_changed id (fun _ => "") (fun _ => "") (fun _ => "")
    (App.main id (fun _ => "") (fun _ => "") (fun _ => "") first_run empty_df_a)
    empty_df_b = false.
Proof.
  split; [done|].
  destruct (empty_fingerprint_constant id (fun _ => "") (fun _ => "") (fun _ => "")
              first_run empty_df_a empty_df_b eq_refl eq_refl)
    as (Hempty & Hsame & Hchanged & _).
  split; [exact Hempty|]. split; [exact Hsame|exact Hchanged].
Defined.

(** ** forms.py: the submit handler (C1, C2, C6) *)

Section Submit.
Context {F : Type} `{PyNum F}.

Lemma notify_notify (w : Forms.World F) (a b : list notice) :
  Forms.notify (Forms.notify w a) b = Forms.notify w (a ++ b).
Proof. unfold Forms.notify. cbn. by rewrite app_assoc. Qed.

Lemma commit_submission_sheet df inp drive (w : Forms.World F) level_col lat lon iv :
  Forms.sheet (Forms.commit_submission df inp drive w level_col lat lon iv)
  = Forms.sheet w.
Proof.
  unfold Forms.commit_submission.
  by destruct (Forms.process_uploads drive iv (columns df)) as [[? ?] ?].
Qed.

Lemma render_input_form_sheet df inp drive (w : Forms.World F) :
  Forms.sheet (Forms.render_input_form df inp drive w) = Forms.sheet w.
Proof.
  unfold Forms.render_input_form.
  destruct (columns df) as [|c cs]; [done|].
  destruct (Forms.parse_coordinates (Forms.coordinates inp)) as [[lat lon] ns].
  destruct (negb (Forms.submitted inp)); [done|].
  destruct (Forms._find_level_col (c :: cs)) as [lc|];
    [destruct (String.eqb (Forms.level_state inp) ""); [done|]|];
    by rewrite commit_submission_sheet.
Qed.

End Submit.

(** C1 (the code departs from the claim). Whatever the sheet, the form and
    the outcome of the uploads, a run of the submit handler leaves the
    remote worksheet as it was: the assembled row is never appended. *)
Theorem render_input_form_never_appends {F : Type} `{PyNum F}
    (df : DataFrame F) (inp : Forms.FormInput)
    (drive : string -> Forms.upload_outcome) (w : Forms.World F) :
  Forms.sheet (Forms.render_input_form df inp drive w) = Forms.sheet w /\
  Forms.sheet (Forms.render_input_form df inp drive w)
    <> SheetIO.append_row (Forms.sheet w) (Forms.assembled_row df inp drive).
Proof.
  rewrite render_input_form_sheet. split; [done|].
  unfold SheetIO.append_row. intros Heq.
  apply (f_equal length) in Heq. rewrite length_app in Heq. cbn in Heq. lia.
Qed.

(** C1, on a sample submission that passes validation: the success
    message is shown, the local copy gains its row, and the worksheet is
    still empty although the claim puts the assembled row in it. *)
Lemma filled_form_not_appended :
  let w' := Forms.render_input_form sheet_df filled_form drive_ok fresh_world in
  Forms.sheet w' = [] /\
  SheetIO.append_row (Forms.sheet fresh_world)
    (Forms.assembled_row sheet_df filled_form drive_ok)
    = [[CStr "12"; CStr "18/09/2025"; CStr "Dinoyo"; CStr "Jl. Veteran";
        CStr "-7.93813533, 112.6332461"; CStr ""; CStr ""; CStr "High";
        CStr "#ffaa00"; CStr "https://drive.google.com/uc?id=abc"]] /\
  length (rows (Forms.session_df w')) = 1 /\
  Forms.uploads w' = ["Dokumentasi Temuan"] /\
  Success "Baris berhasil ditambahkan ke Google Sheets (peta diperbarui secara lokal)."
    ∈ Forms.notices w'.
Proof.
  cbv zeta. split; [apply render_input_form_never_appends|].
  split; [by vm_compute|]. split; [by vm_compute|]. split; [by vm_compute|].
  vm_compute. in_literal_list.
Defined.

(** C2. When the sheet has a risk-level column and no level is chosen, a
    submission ends with the error that asks for the level (after the
    notice about the coordinates, if their text was malformed) and changes
    nothing else: the worksheet, the uploads, the session copy of the data
    and its map are what they were. *)
Theorem missing_level_aborts {F : Type} `{PyNum F}
    (df : DataFrame F) (inp : Forms.FormInput)
    (drive : string -> Forms.upload_outcome) (w : Forms.World F) (lc : string) :
  Forms._find_level_col (columns df) = Some lc ->
  Forms.submitted inp = true ->
  Forms.level_state inp = "" ->
  let w' := Forms.render_input_form df inp drive w in
  w' = Forms.notify w
         (snd (Forms.parse_coordinates (Forms.coordinates inp)) ++
          [Error ("Silakan pilih " +:+ lc +:+ " terlebih dahulu (di atas).")]) /\
  Forms.sheet w' = Forms.sheet w /\
  Forms.uploads w' = Forms.uploads w /\
  Forms.session_df w' = Forms.session_df w /\
  Forms.session_map w' = Forms.session_map w.
Proof.
  intros Hlevel Hsub Hnone. cbv zeta.
  assert (Hrun : Forms.render_input_form df inp drive w
                 = Forms.notify w
                     (snd (Forms.parse_coordinates (Forms.coordinates inp)) ++
                      [Error ("Silakan pilih " +:+ lc +:+ " terlebih dahulu (di atas).")])).
  { unfold Forms.render_input_form.
    destruct (columns df) as [|c cs] eqn:Hcols; [done|].
    destruct (Forms.parse_coordinates (Forms.coordinates inp)) as [[lat lon] ns].
    rewrite Hsub, Hlevel, Hnone. cbn [negb String.eqb snd]. apply notify_notify. }
  rewrite Hrun. by repeat split.
Qed.

(** C2, on the sample form without level: one error, nothing written. *)
Lemma form_without_level_aborts :
  let w' := Forms.render_input_form sheet_df form_without_level drive_ok fresh_world in
  w' = Forms.notify fresh_world
         [Error "Silakan pilih Level Resiko terlebih dahulu (di atas)."] /\
  Forms.sheet w' = Forms.sheet fresh_world /\
  Forms.uploads w' = Forms.uploads fresh_world /\
  Forms.session_df w' = Forms.session_df fresh_world /\
  Forms.session_map w' = Forms.session_map fresh_world.
Proof.
  exact (missing_level_aborts sheet_df form_without_level drive_ok fresh_world
           "Level Resiko" eq_refl eq_refl eq_refl).
Defined.

Section TemporaryKeys.

Lemma startswith_app p s : PyStr.startswith p (p +:+ s) = true.
Proof.
  induction p as [|a p IH]; [done|].
  change (PyStr.startswith (String a p) (String a (p +:+ s)) = true).
  cbn [PyStr.startswith]. by rewrite Ascii.eqb_refl.
Qed.

Lemma temp_key_upload c : Forms.is_temp_key (Forms.UPLOADED_FILE_PREFIX +:+ c) = true.
Proof. unfold Forms.is_temp_key. by rewrite startswith_app. Qed.


Lemma upload_key_inj c c' :
  Forms.UPLOADED_FILE_PREFIX +:+ c = Forms.UPLOADED_FILE_PREFIX +:+ c' -> c = c'.
Proof. apply (inj (String.app _)). Qed.

Lemma column_key_not_upload c c' :
  Forms.COLUMN_NAME_PREFIX +:+ c <> Forms.UPLOADED_FILE_PREFIX +:+ c'.
Proof. intros Heq. vm_compute in Heq. discriminate Heq. Qed.

Lemma plain_not_upload_key k c :
  Forms.is_temp_key k = false -> k <> Forms.UPLOADED_FILE_PREFIX +:+ c.
Proof. intros Hk ->. by rewrite temp_key_upload in Hk. Qed.


End TemporaryKeys.

Section RenderedDict.
Context {F : Type} `{PyNum F}.
Variable inp : Forms.FormInput.
Variable level_col : option string.






(** One turn of the form loop, read at the temporary key of [c0]. *)
Lemma render_column_file (acc : gmap string (Forms.ival F)) (c c0 : string) :
  Forms.is_temp_key c = false ->
  Forms.render_column inp level_col acc c !! (Forms.UPLOADED_FILE_PREFIX +:+ c0)
  = match (if bool_decide (c = c0) then pending_file inp level_col c0 else None) with
    | Some f => Some (Forms.IFile f)
    | None => acc !! (Forms.UPLOADED_FILE_PREFIX +:+ c0)
    end.
Proof.
  intros Hc. unfold Forms.render_column, pending_file.
  assert (Hne : c <> Forms.UPLOADED_FILE_PREFIX +:+ c0) by by apply plain_not_upload_key.
  destruct (Forms.classify_column level_col c) eqn:Hrole;
    try (rewrite lookup_insert_ne by done;
         case_bool_decide; [subst; by rewrite Hrole|done]).
  - case_bool_decide; [subst; by rewrite Hrole|done].
  - rewrite lookup_insert_ne by done.
    case_bool_decide as Hcc.
    + subst c0. rewrite Hrole.
      destruct (Forms.uploaded_file inp c); [|done].
      rewrite lookup_insert_ne by apply column_key_not_upload.
      by rewrite lookup_insert_eq.
    + destruct (Forms.uploaded_file inp c); [|done].
      rewrite lookup_insert_ne by apply column_key_not_upload.
      rewrite lookup_insert_ne; [done|]. intros Heq. by apply upload_key_inj in Heq.
Qed.

Lemma foldl_render_file (l : list string) (acc : gmap string (Forms.ival F)) (c0 : string) :
  Forall (fun c => Forms.is_temp_key c = false) l ->
  foldl (Forms.render_column inp level_col) acc l !! (Forms.UPLOADED_FILE_PREFIX +:+ c0)
  = match (if bool_decide (c0 ∈ l) then pending_file inp level_col c0 else None) with
    | Some f => Some (Forms.IFile f)
    | None => acc !! (Forms.UPLOADED_FILE_PREFIX +:+ c0)
    end.
Proof.
  intros Hl. revert acc. induction Hl as [|c l Hc _ IH]; intros acc.
  - by rewrite bool_decide_eq_false_2 by apply not_elem_of_nil.
  - cbn [foldl]. rewrite IH, render_column_file by done.
    rewrite bool_decide_elem_of_cons.
    by destruct (bool_decide (c = c0)), (bool_decide (c0 ∈ l)),
                (pending_file inp level_col c0).
Qed.

End RenderedDict.

Section UploadedDict.
Context {F : Type} `{PyNum F}.
Variable drive : string -> Forms.upload_outcome.

(** The upload of one column leaves every temporary key as it was. *)
Lemma upload_column_temp (st : Forms.upload_state F) (col key : string) :
  Forms.is_temp_key key = true -> Forms.is_temp_key col = false ->
  (Forms.upload_column drive st col).1.1 !! key = st.1.1 !! key.
Proof.
  intros Hkey Hcol. destruct st as [[d a] n]. unfold Forms.upload_column.
  assert (Hne : col <> key) by (intros ->; congruence).
  destruct (d !! (Forms.UPLOADED_FILE_PREFIX +:+ col)) as [[[s|x|]|f]|]; cbn [fst];
    try done; try (by rewrite lookup_insert_ne).
  destruct (drive col); cbn [fst]; try done; by rewrite lookup_insert_ne.
Qed.





End UploadedDict.

Section Assembly.
Context {F : Type} `{PyNum F}.
Variable inp : Forms.FormInput.
Variable drive : string -> Forms.upload_outcome.
Variable level_col : option string.
Variables lat lon : option F.





Lemma rendered_file_key (cols : list string) (c : string) :
  Forall (fun c => Forms.is_temp_key c = false) cols -> c ∈ cols ->
  Forms.render_inputs inp level_col lat lon cols !! (Forms.UPLOADED_FILE_PREFIX +:+ c)
  = Forms.IFile <$> pending_file inp level_col c.
Proof.
  intros Hcols Hc. unfold Forms.render_inputs.
  rewrite foldl_render_file by done.
  rewrite bool_decide_eq_true_2 by done.
  destruct (pending_file inp level_col c); [done|].
  rewrite !lookup_insert_ne;
    [apply lookup_empty| |]; intros Heq; vm_compute in Heq; discriminate Heq.
Qed.







End Assembly.




(** ** Further properties of the styling rules and of the form *)

(** X1. Marker shape: a letter status gives a square exactly when it is
    present and its text, trimmed and lower-cased, contains "surat
    himbauan"; every other value gives a circle: a text without that phrase
    (so "Selesai Surat Ke Muspika"), the empty text and a missing value. *)
Theorem marker_shape_of_letter_status {F : Type} `{PyNum F} :
  (forall v : cell F,
     MapBuilder._get_marker_type_from_indikator_surat v
     = match status_text v with
       | Some text =>
           if PyStr.contains "surat himbauan" text
           then MapBuilder.square else MapBuilder.circle
       | None => MapBuilder.circle
       end) /\
  (forall s : string,
     s <> "" ->
     PyStr.contains "surat himbauan" (PyStr.lower (PyStr.strip s)) = true ->
     MapBuilder._get_marker_type_from_indikator_surat (@CStr F s) = MapBuilder.square) /\
  MapBuilder._get_marker_type_from_indikator_surat (@CStr F "Surat Himbauan")
    = MapBuilder.square /\
  MapBuilder._get_marker_type_from_indikator_surat
    (@CStr F " sudah dikirim SURAT HIMBAUAN ke-2 ") = MapBuilder.square /\
  MapBuilder._get_marker_type_from_indikator_surat (@CStr F "Selesai Surat Ke Muspika")
    = MapBuilder.circle /\
  MapBuilder._get_marker_type_from_indikator_surat (@CStr F "") = MapBuilder.circle /\
  MapBuilder._get_marker_type_from_indikator_surat (@CMissing F) = MapBuilder.circle /\
  (forall s : string,
     s <> "" ->
     PyStr.contains "surat himbauan" (PyStr.lower (PyStr.strip s)) = false ->
     MapBuilder._get_marker_type_from_indikator_surat (@CStr F s) = MapBuilder.circle).
Proof.
  assert (Hrule : forall v : cell F,
     MapBuilder._get_marker_type_from_indikator_surat v
     = match status_text v with
       | Some text =>
           if PyStr.contains "surat himbauan" text
           then MapBuilder.square else MapBuilder.circle
       | None => MapBuilder.circle
       end).
  { intros v. unfold MapBuilder._get_marker_type_from_indikator_surat, status_text.
    destruct (cell_present v); cbn [negb]; [|done].
    destruct (PyStr.contains "surat himbauan" _); [done|].
    by destruct (PyStr.contains "selesai surat ke muspika" _). }
  assert (Htext : forall s : string,
     s <> "" -> status_text (@CStr F s) = Some (PyStr.lower (PyStr.strip s))).
  { intros s Hs. unfold status_text. cbn [cell_present cell_str].
    by rewrite (proj2 (String.eqb_neq s "")). }
  split; [exact Hrule|]. split.
  { intros s Hs Hyes. by rewrite Hrule, (Htext s Hs), Hyes. }
  repeat split; try reflexivity.
  intros s Hs Hno. by rewrite Hrule, (Htext s Hs), Hno.
Qed.

(** X2. Border colour: the text of a wrapping status, trimmed and
    lower-cased, is searched for "pengiriman usulan", "realisasi
    pembungkusan" and "belum ada tindak lanjut", in this order, and the
    first phrase found gives #ff6b35, #28a745 or #dc3545; a text that
    contains none of the three, the empty text and a missing value give
    #000000. *)
Theorem border_color_of_wrapping_status {F : Type} `{PyNum F} :
  (forall v : cell F,
     MapBuilder._get_border_color_from_indikator_bungkus v
     = match status_text v with
       | Some text => default "#000000" (first_phrase BORDER_RULES text)
       | None => "#000000"
       end) /\
  (forall s : string,
     s <> "" ->
     PyStr.contains "pengiriman usulan" (PyStr.lower (PyStr.strip s)) = true ->
     MapBuilder._get_border_color_from_indikator_bungkus (@CStr F s) = "#ff6b35") /\
  (forall s : string,
     s <> "" ->
     PyStr.contains "pengiriman usulan" (PyStr.lower (PyStr.strip s)) = false ->
     PyStr.contains "realisasi pembungkusan" (PyStr.lower (PyStr.strip s)) = true ->
     MapBuilder._get_border_color_from_indikator_bungkus (@CStr F s) = "#28a745") /\
  (forall s : string,
     s <> "" ->
     PyStr.contains "pengiriman usulan" (PyStr.lower (PyStr.strip s)) = false ->
     PyStr.contains "realisasi pembungkusan" (PyStr.lower (PyStr.strip s)) = false ->
     PyStr.contains "belum ada tindak lanjut" (PyStr.lower (PyStr.strip s)) = true ->
     MapBuilder._get_border_color_from_indikator_bungkus (@CStr F s) = "#dc3545") /\
  (forall s : string,
     PyStr.contains "pengiriman usulan" (PyStr.lower (PyStr.strip s)) = false ->
     PyStr.contains "realisasi pembungkusan" (PyStr.lower (PyStr.strip s)) = false ->
     PyStr.contains "belum ada tindak lanjut" (PyStr.lower (PyStr.strip s)) = false ->
     MapBuilder._get_border_color_from_indikator_bungkus (@CStr F s) = "#000000") /\
  MapBuilder._get_border_color_from_indikator_bungkus
    (@CStr F "Belum ada Tindak lanjut Bungkus") = "#dc3545" /\
  MapBuilder._get_border_color_from_indikator_bungkus
    (@CStr F "Pengiriman Usulan Pembungkusan Kabel") = "#ff6b35" /\
  MapBuilder._get_border_color_from_indikator_bungkus
    (@CStr F "pengiriman usulan tahap 2") = "#ff6b35" /\
  MapBuilder._get_border_color_from_indikator_bungkus
    (@CStr F "Realisasi pembungkusan") = "#28a745" /\
  MapBuilder._get_border_color_from_indikator_bungkus (@CStr F "lainnya") = "#000000" /\
  MapBuilder._get_border_color_from_indikator_bungkus (@CStr F "") = "#000000" /\
  MapBuilder._get_border_color_from_indikator_bungkus (@CMissing F) = "#000000".
Proof.
  assert (Hrule : forall v : cell F,
     MapBuilder._get_border_color_from_indikator_bungkus v
     = match status_text v with
       | Some text => default "#000000" (first_phrase BORDER_RULES text)
       | None => "#000000"
       end).
  { intros v. unfold MapBuilder._get_border_color_from_indikator_bungkus, status_text.
    destruct (cell_present v); cbn [negb]; [|done].
    unfold BORDER_RULES. cbn [first_phrase].
    destruct (PyStr.contains "pengiriman usulan" _); [done|].
    destruct (PyStr.contains "realisasi pembungkusan" _); [done|].
    by destruct (PyStr.contains "belum ada tindak lanjut" _). }
  assert (Htext : forall s : string,
     MapBuilder._get_border_color_from_indikator_bungkus (@CStr F s)
     = if String.eqb s "" then "#000000"
       else default "#000000" (first_phrase BORDER_RULES (PyStr.lower (PyStr.strip s)))).
  { intros s. rewrite Hrule. unfold status_text. cbn [cell_present cell_str].
    by destruct (String.eqb s ""). }
  split; [exact Hrule|].
  split.
  { intros s Hs H1. rewrite Htext, (proj2 (String.eqb_neq s "")) by done.
    unfold BORDER_RULES. cbn [first_phrase]. by rewrite H1. }
  split.
  { intros s Hs H1 H2. rewrite Htext, (proj2 (String.eqb_neq s "")) by done.
    unfold BORDER_RULES. cbn [first_phrase]. by rewrite H1, H2. }
  split.
  { intros s Hs H1 H2 H3. rewrite Htext, (proj2 (String.eqb_neq s "")) by done.
    unfold BORDER_RULES. cbn [first_phrase]. by rewrite H1, H2, H3. }
  split.
  { intros s H1 H2 H3. rewrite Htext. destruct (String.eqb s ""); [done|].
    unfold BORDER_RULES. cbn [first_phrase]. by rewrite H1, H2, H3. }
  repeat split; reflexivity.
Qed.

(** Number columns: the exclusion list wins over the keywords, so "Nomer
    Surat PFK" is no number column although it contains "nomer", while
    "No" and "Nomor Urut" are. *)
Theorem number_column_exclusions :
  Forms._is_number_column "Nomer Surat PFK" = false /\
  PyStr.contains "nomer" (PyStr.lower "Nomer Surat PFK") = true /\
  Forms._is_number_column "No Meter" = false /\
  Forms._is_number_column "IDPEL" = false /\
  Forms._is_number_column "No" = true /\
  Forms._is_number_column "Nomor Urut" = true /\
  (forall c : string,
     PyStr.any_in ["nomer surat pemohonan pembungkusan"; "nomer surat pfk"; "idpel"; "no meter"]
       (PyStr.lower c) = true ->
     Forms._is_number_column c = false).
Proof.
  repeat split; try reflexivity.
  intros c Hex. unfold Forms._is_number_column. by rewrite Hex.
Qed.

Section Mirror.
Context {F : Type} `{PyNum F}.

Lemma commit_submission_mirror df inp drive (w : Forms.World F) level_col lat lon iv :
  let w' := Forms.commit_submission df inp drive w level_col lat lon iv in
  rows (Forms.session_df w')
  = rows (if df_empty (Forms.session_df w)
          then {| columns := columns df; rows := [] |}
          else Forms.session_df w)
    ++ [Forms.build_new_row level_col (Forms.level_state inp)
          (risk_to_color_hex (Forms.level_state inp) DEFAULT_HEX)
          (Forms.coordinates inp) lat lon
          (Forms.drop_temp_keys (Forms.process_uploads drive iv (columns df)).1.1)
          (columns df)] /\
  Success "Baris berhasil ditambahkan ke Google Sheets (peta diperbarui secara lokal)."
    ∈ Forms.notices w'.
Proof.
  cbv zeta. unfold Forms.commit_submission.
  destruct (Forms.process_uploads drive iv (columns df)) as [[u a] n].
  cbn [Forms.session_df Forms.notices rows Forms.concat_row fst].
  split; [done|].
  rewrite !elem_of_app. right. right. left. by left.
Qed.

End Mirror.

(** The local copy: a submission that passes validation (a level is
    chosen, or the sheet has no level column) appends one row to the session
    copy of the data, built from the same inputs, and shows the success
    message. *)
Theorem submission_mirrors_locally {F : Type} `{PyNum F}
    (df : DataFrame F) (inp : Forms.FormInput)
    (drive : string -> Forms.upload_outcome) (w : Forms.World F) :
  columns df <> [] ->
  Forms.submitted inp = true ->
  (Forms._find_level_col (columns df) = None \/ Forms.level_state inp <> "") ->
  let w' := Forms.render_input_form df inp drive w in
  length (rows (Forms.session_df w'))
    = S (if df_empty (Forms.session_df w) then 0 else length (rows (Forms.session_df w))) /\
  Success "Baris berhasil ditambahkan ke Google Sheets (peta diperbarui secara lokal)."
    ∈ Forms.notices w' /\
  Forms.sheet w' = Forms.sheet w.
Proof.
  intros Hcols Hsub Hvalid. cbv zeta.
  split; [|split; [|apply render_input_form_sheet]].
  - unfold Forms.render_input_form.
    destruct (columns df) as [|c cs] eqn:Hc; [done|].
    destruct (Forms.parse_coordinates (Forms.coordinates inp)) as [[lat lon] ns].
    rewrite Hsub. cbn [negb].
    assert (Hlen : forall lc iv,
      length (rows (Forms.session_df
        (Forms.commit_submission df inp drive (Forms.notify w ns) lc lat lon iv)))
      = S (if df_empty (Forms.session_df w) then 0
           else length (rows (Forms.session_df w)))).
    { intros lc iv.
      rewrite (proj1 (commit_submission_mirror df inp drive (Forms.notify w ns) lc lat lon iv)).
      rewrite length_app. cbn [Forms.notify Forms.session_df length].
      destruct (df_empty (Forms.session_df w)); cbn [rows length]; lia. }
    destruct (Forms._find_level_col (c :: cs)) as [lc|] eqn:Hl; [|apply Hlen].
    destruct Hvalid as [Hnone|Hlevel]; [done|].
    rewrite (proj2 (String.eqb_neq _ "")) by done. apply Hlen.
  - unfold Forms.render_input_form.
    destruct (columns df) as [|c cs] eqn:Hc; [done|].
    destruct (Forms.parse_coordinates (Forms.coordinates inp)) as [[lat lon] ns].
    rewrite Hsub. cbn [negb].
    destruct (Forms._find_level_col (c :: cs)) as [lc|] eqn:Hl;
      [|apply commit_submission_mirror].
    destruct Hvalid as [Hnone|Hlevel]; [done|].
    rewrite (proj2 (String.eqb_neq _ "")) by done. apply commit_submission_mirror.
Qed.

(** The local copy, on the sample sheet and form: one row, with the level,
    the coordinates as floats in the dedicated columns and as text in the
    combined one. *)
Lemma filled_form_mirrored :
  let w' := Forms.render_input_form sheet_df filled_form drive_ok fresh_world in
  length (rows (Forms.session_df w')) = 1 /\
  map (fun r : Row Decimal.dec =>
         (r !! "Level Resiko", r !! "Koordinat", r !! "Latitude", r !! "Color"))
      (rows (Forms.session_df w'))
    = [(Some (CStr "High"), Some (CStr "-7.93813533, 112.6332461"),
        Some (CNum {| Decimal.mantissa := -793813533; Decimal.places := 8 |}),
        Some (CStr "#ffaa00"))] /\
  Forms.sheet w' = [].
Proof.
  cbv zeta.
  split; [by vm_compute|]. split; [by vm_compute|].
  apply (submission_mirrors_locally sheet_df filled_form drive_ok fresh_world);
    [done|done|by right].
Defined.

(** * Further properties of the code *)

(** ** map_builder.py: what every map satisfies *)

Section MapInvariants.
Context {F : Type} `{PyNum F}.

Lemma fill_color_of_row_valid (row : Row F) (df_cols : list string)
    (color_col : string) (level_col : option string) :
  MapBuilder._valid_hex
    (MapBuilder.fill_color_of_row row df_cols color_col level_col) = true.
Proof.
  unfold MapBuilder.fill_color_of_row. cbv zeta.
  match goal with |- context [if MapBuilder._valid_hex ?x then ?x else _] =>
    destruct (MapBuilder._valid_hex x) eqn:Hv; [exact Hv|reflexivity] end.
Qed.

Lemma border_color_range (v : cell F) :
  MapBuilder._get_border_color_from_indikator_bungkus v ∈ BORDER_COLORS.
Proof.
  unfold MapBuilder._get_border_color_from_indikator_bungkus, BORDER_COLORS.
  destruct (negb (cell_present v)); [by left|].
  repeat (match goal with |- context [if ?b then _ else _] => destruct b end);
    in_literal_list.
Qed.

Lemma row_marker_colors (df_cols : list string) (color_col : string) (row : Row F) mk :
  MapBuilder.row_marker df_cols color_col row = Some mk ->
  MapBuilder._valid_hex (MapBuilder.fill_color mk) = true /\
  MapBuilder.color mk ∈ BORDER_COLORS.
Proof.
  unfold MapBuilder.row_marker.
  destruct (MapBuilder._get_lat_lon_from_row row df_cols) as [[lat|] [lon|]]; try done.
  intros [= <-]. cbn [MapBuilder.fill_color MapBuilder.color]. split.
  - apply fill_color_of_row_valid.
  - destruct (MapBuilder._find_indikator_bungkus_col df_cols);
      [apply border_color_range|by left].
Qed.

Lemma omap_row_marker_locations (df_cols : list string) (color_col : string)
    (l : list (Row F)) :
  map MapBuilder.location (omap (MapBuilder.row_marker df_cols color_col) l)
  = omap (fun row =>
      match MapBuilder._get_lat_lon_from_row row df_cols with
      | (Some lat, Some lon) => Some (lat, lon)
      | _ => None
      end) l.
Proof.
  induction l as [|row l IH]; [done|]. cbn [omap list_omap].
  unfold MapBuilder.row_marker at 1.
  destruct (MapBuilder._get_lat_lon_from_row row df_cols) as [[lat|] [lon|]];
    cbn [map MapBuilder.location]; by rewrite ?IH.
Qed.

End MapInvariants.

(** X5. Every marker of a map has a fill colour that passes the hex
    test and one of the four border colours, whatever the cells of its
    row hold. *)
Theorem make_map_marker_colors {F : Type} `{PyNum F}
    (df : DataFrame F) (color_col : string)
    (fmap : MapBuilder.FoliumMap F) (notes : list notice) :
  MapBuilder.make_map df color_col = (Some fmap, notes) ->
  Forall (fun mk =>
            MapBuilder._valid_hex (MapBuilder.fill_color mk) = true /\
            MapBuilder.color mk ∈ BORDER_COLORS)
         (MapBuilder.markers fmap).
Proof.
  intros Hmap. rewrite (make_map_markers _ _ _ _ Hmap).
  apply Forall_forall. intros mk Hin.
  apply list_elem_of_omap in Hin as (row & _ & Hrow).
  by apply row_marker_colors in Hrow.
Qed.

(** X5, on the sample sheet of level "Medium". *)
Lemma make_map_marker_colors_medium :
  exists fmap,
    MapBuilder.make_map medium_df "Color" = (Some fmap, []) /\
    length (MapBuilder.markers fmap) = 1 /\
    Forall (fun mk =>
              MapBuilder._valid_hex (MapBuilder.fill_color mk) = true /\
              MapBuilder.color mk ∈ BORDER_COLORS)
           (MapBuilder.markers fmap).
Proof.
  eexists. split; [reflexivity|]. split; [reflexivity|].
  apply (make_map_marker_colors medium_df "Color" _ []). reflexivity.
Defined.

(** X6. The markers of a map stand, in the order of the rows, at the
    points collected for its centre. When the map has no marker the view
    is centred on the fallback (0, 0); when it has markers the view is
    centred on the mean of their latitudes and of their longitudes, whatever
    that mean is. Building a map shows no notice. *)
Theorem make_map_marker_positions {F : Type} `{PyNum F}
    (df : DataFrame F) (color_col : string)
    (fmap : MapBuilder.FoliumMap F) (notes : list notice) :
  MapBuilder.make_map df color_col = (Some fmap, notes) ->
  map MapBuilder.location (MapBuilder.markers fmap) = MapBuilder.valid_points df /\
  MapBuilder.center fmap
    = match MapBuilder.markers fmap with
      | [] => MapBuilder.Origin
      | _ => MapBuilder.MeanOf
               (map (fun mk => fst (MapBuilder.location mk)) (MapBuilder.markers fmap))
               (map (fun mk => snd (MapBuilder.location mk)) (MapBuilder.markers fmap))
      end /\
  notes = [].
Proof.
  intros Hmap. pose proof (make_map_markers _ _ _ _ Hmap) as Hmk.
  assert (Hloc : map MapBuilder.location (MapBuilder.markers fmap)
                 = MapBuilder.valid_points df).
  { rewrite Hmk. apply omap_row_marker_locations. }
  split; [exact Hloc|].
  unfold MapBuilder.make_map in Hmap. destruct (df_empty df); [done|].
  injection Hmap as <- <-. split; [|done].
  cbn [MapBuilder.center MapBuilder.markers] in *.
  rewrite <- !(map_map MapBuilder.location), Hloc.
  destruct (MapBuilder.valid_points df) as [|p pts] eqn:Hp.
  - by destruct (omap _ (rows df)).
  - destruct (omap _ (rows df)); [done|]. done.
Qed.

(** X6, on the sample frame without coordinates: no marker, and the
    fallback centre. *)
Lemma make_map_marker_positions_none :
  exists fmap,
    MapBuilder.make_map no_coordinates_df "Color" = (Some fmap, []) /\
    MapBuilder.markers fmap = [] /\
    MapBuilder.center fmap = MapBuilder.Origin.
Proof.
  eexists. split; [reflexivity|].
  destruct (make_map_marker_positions no_coordinates_df "Color" _ [] eq_refl)
    as (_ & Hc & _).
  split; [reflexivity|exact Hc].
Defined.

(** X7. The coordinates of a row are a pair, a latitude alone, or
    nothing: a longitude never comes without a latitude, so a row whose
    latitude cannot be read gets no coordinate at all. *)
Theorem get_lat_lon_shapes {F : Type} `{PyNum F}
    (row : Row F) (df_cols : list string) :
  match MapBuilder._get_lat_lon_from_row row df_cols with
  | (None, Some _) => False
  | (Some lat, None) =>
      MapBuilder.safe_float
        (MapBuilder.first_key_value row (MapBuilder.lat_keys df_cols)) = Some lat /\
      MapBuilder.safe_float
        (MapBuilder.first_key_value row (MapBuilder.lon_keys df_cols)) = None /\
      MapBuilder.row_marker df_cols "Color" row = None
  | _ => True
  end.
Proof.
  pose proof (row_marker_location df_cols "Color" row) as Hm.
  pose proof (get_lat_lon_resolved row df_cols) as Hres.
  unfold MapBuilder._get_lat_lon_from_row in *.
  set (lat := MapBuilder.first_key_value row (MapBuilder.lat_keys df_cols)) in *.
  set (lon := MapBuilder.first_key_value row (MapBuilder.lon_keys df_cols)) in *.
  destruct (if MapBuilder._is_blank lat || MapBuilder._is_blank lon then _ else _)
    as [[plat|] [plon|]]; try done;
    destruct (MapBuilder.safe_float lat), (MapBuilder.safe_float lon); try done;
    (repeat split; rewrite Hres in Hm; by destruct (MapBuilder.row_marker _ _ _)).
Qed.

(** ** map_builder.py: the popup of a marker *)

Section Popup.
Context {F : Type} `{PyNum F}.








End Popup.


(** ** forms.py: indicator columns and their options *)

(** X9. A column is an indicator column exactly when the form has fixed
    options for it: an indicator dropdown never comes without options, and
    no other column has any. *)
Theorem indicator_column_has_options (c : string) :
  Forms._is_indicator_column c = true <-> Forms._get_indicator_options c <> [].
Proof.
  unfold Forms._is_indicator_column, Forms._get_indicator_options, PyStr.any_in.
  cbn [existsb].
  destruct (PyStr.contains "indikator surat" (PyStr.lower c));
    [cbn [orb]; by split|].
  destruct (PyStr.contains "indikator bungkus" (PyStr.lower c));
    [cbn [orb]; by split|].
  destruct (PyStr.contains "indikator pfk" (PyStr.lower c));
    [cbn [orb]; by split|].
  destruct (PyStr.contains "perubahan konstruksi mandiri" (PyStr.lower c));
    cbn [orb]; by split.
Qed.

(** X10. The statuses the form offers are the ones the map tells apart:
    for a letter-indicator column the two options give a square and a
    circle; for a wrapping-indicator column the three options give three
    different border colours, none of them the default black. *)
Theorem offered_statuses_styled {F : Type} `{PyNum F} (c : string) :
  (PyStr.contains "indikator surat" (PyStr.lower c) = true ->
   map (fun o => MapBuilder._get_marker_type_from_indikator_surat (@CStr F o))
       (Forms._get_indicator_options c)
   = [MapBuilder.square; MapBuilder.circle]) /\
  (PyStr.contains "indikator surat" (PyStr.lower c) = false ->
   PyStr.contains "indikator bungkus" (PyStr.lower c) = true ->
   map (fun o => MapBuilder._get_border_color_from_indikator_bungkus (@CStr F o))
       (Forms._get_indicator_options c)
   = ["#ff6b35"; "#28a745"; "#dc3545"]).
Proof.
  unfold Forms._get_indicator_options. split.
  - intros ->. reflexivity.
  - intros -> ->. reflexivity.
Qed.

(** ** forms.py: the widget of a column *)

Section CaseInsensitive.

Lemma lower_ascii_idemp (a : ascii) :
  PyStr.lower_ascii (PyStr.lower_ascii a) = PyStr.lower_ascii a.
Proof. destruct a as [[] [] [] [] [] [] [] []]; reflexivity. Qed.

Lemma lower_idemp (s : string) : PyStr.lower (PyStr.lower s) = PyStr.lower s.
Proof.
  induction s as [|a s IH]; [done|]. cbn [PyStr.lower].
  by rewrite lower_ascii_idemp, IH.
Qed.

End CaseInsensitive.

(** X11. The widget of a column depends on its header only through the
    lower-cased header, the level column apart: two headers that differ
    in letter case only, neither of them the level column, get the same
    widget. *)
Theorem classify_column_ignores_case (level_col : option string) (c c' : string) :
  PyStr.lower c = PyStr.lower c' ->
  level_col <> Some c -> level_col <> Some c' ->
  Forms.classify_column level_col c = Forms.classify_column level_col c'.
Proof.
  intros Hl Hc Hc'.
  unfold Forms.classify_column, Forms.is_skipped, Forms._is_indicator_column,
    Forms._is_date_column, Forms._is_number_column.
  cbv zeta. rewrite Hl.
  by rewrite !bool_decide_eq_false_2 by done.
Qed.

(** X11, on a header written in capitals. *)
Lemma classify_column_ignores_case_date :
  Forms.classify_column (Some "Level Resiko") "TANGGAL TEMUAN" = Forms.RDate /\
  Forms.classify_column (Some "Level Resiko") "TANGGAL TEMUAN"
    = Forms.classify_column (Some "Level Resiko") "Tanggal Temuan".
Proof.
  split; [reflexivity|].
  by apply classify_column_ignores_case.
Defined.

(** ** forms.py: the coordinate input *)

(** X12. The coordinate input accepts exactly the texts made of two
    parts around one comma, each without comma and each, once trimmed, read
    as a number by [float]: these yield the two numbers and no message. The
    empty text yields no coordinate and no message. Every other text, one
    without comma, with two commas or more, or with a part that is no
    number, yields no coordinate together with the format error. *)
Theorem parse_coordinates_outcomes {F : Type} `{PyNum F} (coordinates : string) :
  Forms.parse_coordinates (F:=F) coordinates
  = (if String.eqb coordinates "" then ((None, None), [])
     else
       match one_comma_split coordinates with
       | Some (a, b) =>
           match py_float (PyStr.strip a), py_float (PyStr.strip b) with
           | Some lat, Some lon => ((Some lat, Some lon), [])
           | _, _ => ((None, None), [COORDINATE_FORMAT_ERROR])
           end
       | None => ((None, None), [COORDINATE_FORMAT_ERROR])
       end) /\
  (forall a b : string,
     one_comma_split coordinates = Some (a, b) <->
     coordinates = a +:+ "," +:+ b /\ no_comma a = true /\ no_comma b = true) /\
  (forall lat lon : F,
     Forms.parse_coordinates coordinates = ((Some lat, Some lon), []) <->
     exists a b : string,
       coordinates = a +:+ "," +:+ b /\ no_comma a = true /\ no_comma b = true /\
       py_float (PyStr.strip a) = Some lat /\ py_float (PyStr.strip b) = Some lon) /\
  ((exists lat lon : F,
      Forms.parse_coordinates coordinates = ((Some lat, Some lon), []) /\
      coordinates <> "") \/
   (Forms.parse_coordinates (F:=F) coordinates = ((None, None), []) /\
    coordinates = "") \/
   (Forms.parse_coordinates (F:=F) coordinates
    = ((None, None),
       [Error "Format koordinat salah. Pastikan formatnya adalah Latitude, Longitude (misal: -7.93813533, 112.6332461)."]) /\
    coordinates <> "")).
Proof.
  assert (Hsplit : forall a b : string,
     one_comma_split coordinates = Some (a, b) <->
     coordinates = a +:+ "," +:+ b /\ no_comma a = true /\ no_comma b = true).
  { intros a b. split; [apply one_comma_split_inv|].
    intros (-> & Ha & Hb). by apply one_comma_split_app. }
  assert (Heq : Forms.parse_coordinates (F:=F) coordinates
    = (if String.eqb coordinates "" then ((None, None), [])
       else
         match one_comma_split coordinates with
         | Some (a, b) =>
             match py_float (PyStr.strip a), py_float (PyStr.strip b) with
             | Some lat, Some lon => ((Some lat, Some lon), [])
             | _, _ => ((None, None), [COORDINATE_FORMAT_ERROR])
             end
         | None => ((None, None), [COORDINATE_FORMAT_ERROR])
         end)).
  { unfold Forms.parse_coordinates, COORDINATE_FORMAT_ERROR.
    destruct (String.eqb coordinates ""); [done|].
    pose proof (split_comma_two coordinates) as Htwo.
    destruct (one_comma_split coordinates) as [[a b]|].
    - rewrite Htwo. by destruct (py_float (PyStr.strip a)), (py_float (PyStr.strip b)).
    - destruct (Forms.split_comma coordinates) as [|a [|b [|? ?]]]; try done.
      by destruct (Htwo a b). }
  split; [exact Heq|]. split; [exact Hsplit|]. split.
  - intros lat lon. rewrite Heq. split.
    + destruct (String.eqb coordinates ""); [done|].
      destruct (one_comma_split coordinates) as [[a b]|] eqn:Hone; [|done].
      apply one_comma_split_inv in Hone as (Hc & Ha & Hb).
      destruct (py_float (PyStr.strip a)) as [la|] eqn:Hla; [|done].
      destruct (py_float (PyStr.strip b)) as [lo|] eqn:Hlo; [|done].
      intros [= <- <-]. by exists a, b.
    + intros (a & b & Hc & Ha & Hb & Hla & Hlo).
      rewrite (proj2 (Hsplit a b)), Hla, Hlo by done.
      rewrite Hc. by destruct a.
  - rewrite Heq. unfold COORDINATE_FORMAT_ERROR.
    destruct (String.eqb_spec coordinates "") as [->|Hne]; [right; left; done|].
    destruct (one_comma_split coordinates) as [[a b]|]; [|right; right; done].
    destruct (py_float (PyStr.strip a)) as [lat|]; [|right; right; done].
    destruct (py_float (PyStr.strip b)) as [lon|]; [|right; right; done].
    left. by exists lat, lon.
Qed.

(** X12, on texts: one comma and two numbers; the empty text; no
    comma; two commas; a part that is no number. *)
Example parse_coordinates_samples :
  Forms.parse_coordinates (F:=Decimal.dec) " -7.98 ,112.64"
    = ((Some {| Decimal.mantissa := -798; Decimal.places := 2 |},
        Some {| Decimal.mantissa := 11264; Decimal.places := 2 |}), []) /\
  Forms.parse_coordinates (F:=Decimal.dec) "" = ((None, None), []) /\
  Forms.parse_coordinates (F:=Decimal.dec) "-7.98 112.64"
    = ((None, None), [COORDINATE_FORMAT_ERROR]) /\
  Forms.parse_coordinates (F:=Decimal.dec) "-7.98, 112.64, 5"
    = ((None, None), [COORDINATE_FORMAT_ERROR]) /\
  Forms.parse_coordinates (F:=Decimal.dec) "-7.98, timur"
    = ((None, None), [COORDINATE_FORMAT_ERROR]).
Proof. by vm_compute. Qed.

(** ** app.py and forms.py: the column kept as text *)

(** X13. The column that app.py keeps as text is, for the form, a
    number column with the hint of the last number: the exclusion list
    of [_is_number_column] spells its keyword "pemohonan", which does not
    occur in the header "Nomer Surat Permohonan Pembungkusan". *)
Theorem force_string_column_is_number_column :
  Forall (fun c =>
            Forms._is_number_column c = true /\
            PyStr.contains "nomer surat pemohonan pembungkusan" (PyStr.lower c) = false /\
            forall level_col, level_col <> Some c ->
              Forms.classify_column level_col c = Forms.RNumber)
         App.FORCE_STRING_COLS.
Proof.
  repeat constructor.
  intros level_col Hl. unfold Forms.classify_column, Forms.is_skipped. cbv zeta.
  rewrite bool_decide_eq_false_2 by done. reflexivity.
Qed.

(** ** forms.py: the name of an uploaded file *)

Section FileNames.
Context {F : Type} `{PyNum F}.
Variable str_file : string -> string.






End FileNames.


(** ** forms.py: the options of the dropdowns *)

(** A list of strings that is written out holds no [s]; it has no
    duplicate. *)
Ltac not_in_literal_list :=
  let Hin := fresh "Hin" in
  intros Hin;
  repeat (apply elem_of_cons in Hin as [Hin|Hin]; [discriminate|]);
  by apply elem_of_nil in Hin.

Ltac literal_nodup := repeat (constructor; [not_in_literal_list|]); constructor.

Section DropdownOptions.
Context {F : Type} `{PyNum F} `{EqDecision F}.

Lemma extend_options_snoc (options : list (cell F)) (x : cell F) (l : list (cell F)) :
  Forms.extend_options options (x :: l)
  = Forms.extend_options (if bool_decide (x ∈ options) then options else options ++ [x]) l.
Proof. reflexivity. Qed.

Lemma extend_options_elem (options existing : list (cell F)) (x : cell F) :
  x ∈ Forms.extend_options options existing <-> x ∈ options \/ x ∈ existing.
Proof.
  revert options. induction existing as [|y l IH]; intros options.
  - cbn. rewrite elem_of_nil. tauto.
  - rewrite extend_options_snoc, IH, elem_of_cons.
    case_bool_decide as Hy.
    + split; [tauto|]. intros [?|[->|?]]; tauto.
    + rewrite elem_of_app, list_elem_of_singleton. tauto.
Qed.

Lemma extend_options_nodup (options existing : list (cell F)) :
  NoDup options -> NoDup (Forms.extend_options options existing).
Proof.
  revert options. induction existing as [|y l IH]; intros options Hnd; [done|].
  rewrite extend_options_snoc. apply IH. case_bool_decide as Hy; [done|].
  apply NoDup_app. split; [done|]. split.
  - intros x Hx Hxy. apply list_elem_of_singleton in Hxy. by subst.
  - apply NoDup_singleton.
Qed.

Lemma extend_options_prefix (options existing : list (cell F)) :
  exists rest, Forms.extend_options options existing = options ++ rest.
Proof.
  revert options. induction existing as [|y l IH]; intros options.
  - exists []. cbn. by rewrite app_nil_r.
  - rewrite extend_options_snoc. case_bool_decide as Hy; [apply IH|].
    destruct (IH (options ++ [y])) as [rest ->]. exists (y :: rest).
    by rewrite <- app_assoc.
Qed.

Lemma extend_options_fresh (options l : list (cell F)) :
  NoDup (options ++ l) -> Forms.extend_options options l = options ++ l.
Proof.
  revert options. induction l as [|y l IH]; intros options Hnd.
  - cbn. by rewrite app_nil_r.
  - rewrite extend_options_snoc.
    apply NoDup_app in Hnd as (Ho & Hdisj & Hl).
    rewrite bool_decide_eq_false_2 by (intros Hy; apply (Hdisj y Hy); by left).
    rewrite IH; [by rewrite <- app_assoc|].
    rewrite <- app_assoc. cbn. apply NoDup_app. split; [done|]. split; [|done].
    intros x Hx. by apply Hdisj.
Qed.

Lemma merge_seen_extend (xs : list (cell F)) :
  Forms.merge_seen xs = Forms.extend_options [] xs.
Proof.
  unfold Forms.merge_seen, Forms.extend_options.
  assert (Hgen : forall seen merged : list (cell F),
    (forall x, x ∈ seen <-> x ∈ merged) ->
    snd (foldl (fun sm x => if bool_decide (x ∈ sm.1) then sm
                            else (x :: sm.1, sm.2 ++ [x])) (seen, merged) xs)
    = foldl (fun opts val => if bool_decide (val ∈ opts) then opts else opts ++ [val])
            merged xs).
  { induction xs as [|y l IH]; intros seen merged Hsame; [done|].
    cbn [foldl fst snd].
    rewrite (bool_decide_ext (y ∈ seen) (y ∈ merged)) by apply Hsame.
    case_bool_decide as Hy; [by apply IH|].
    apply IH. intros x. rewrite elem_of_cons, elem_of_app, list_elem_of_singleton, Hsame.
    tauto. }
  by apply Hgen.
Qed.

Lemma merge_seen_fixed (fixed existing : list (cell F)) :
  NoDup fixed ->
  Forms.merge_seen (fixed ++ existing) = Forms.extend_options fixed existing.
Proof.
  intros Hnd. rewrite merge_seen_extend. unfold Forms.extend_options at 1.
  rewrite foldl_app.
  change (foldl _ [] fixed) with (Forms.extend_options [] fixed).
  rewrite (extend_options_fresh [] fixed) by done. reflexivity.
Qed.

Lemma existing_values_elem (df : DataFrame F) (c : string) (x : cell F) :
  x ∈ Forms.existing_values df c <->
  (exists r, r ∈ rows df /\ row_get r c = x) /\ x <> CMissing /\
  PyStr.strip (cell_str x) <> "".
Proof.
  unfold Forms.existing_values.
  rewrite list_elem_of_In, filter_In, <- list_elem_of_In.
  change (Forms.unique ?l) with (Forms.extend_options [] l).
  rewrite extend_options_elem, elem_of_nil.
  unfold Forms.dropna. rewrite list_elem_of_In, filter_In, <- list_elem_of_In.
  unfold Forms.column_values. rewrite list_elem_of_In, in_map_iff.
  rewrite negb_true_iff, String.eqb_neq.
  split.
  - intros [[[]|[(r & Hr & Hin) Hx]] Hs]. split; [|split; [by destruct x|done]].
    exists r. split; [by apply list_elem_of_In|done].
  - intros [(r & Hin & Hr) [Hx Hs]]. split; [|done]. right. split; [|by destruct x].
    exists r. split; [done|by apply list_elem_of_In].
Qed.

Lemma NoDup_map_CStr (l : list string) : NoDup l -> NoDup (map (@CStr F) l).
Proof.
  induction 1 as [|s l Hs Hl IH]; cbn [map]; constructor; [|done].
  rewrite list_elem_of_In, in_map_iff. intros (s' & [= ->] & Hin).
  by apply Hs, list_elem_of_In.
Qed.

Lemma elem_of_map_CStr (l : list string) (x : cell F) :
  x ∈ map (@CStr F) l <-> exists s, x = CStr s /\ s ∈ l.
Proof.
  rewrite list_elem_of_In, in_map_iff. split.
  - intros (s & <- & Hin). exists s. by rewrite list_elem_of_In.
  - intros (s & -> & Hin). exists s. by rewrite <- list_elem_of_In.
Qed.

Lemma sheet_values_elem (df : DataFrame F) (c : string) (x : cell F) :
  x ∈ Forms.sheet_values df c -> x ∈ Forms.existing_values df c.
Proof.
  unfold Forms.sheet_values.
  destruct (negb (df_empty df) && PyStr.mem c (columns df)); [done|].
  by intros ?%elem_of_nil.
Qed.

Lemma indicator_options_fixed (c : string) :
  NoDup (Forms._get_indicator_options c) /\ "" ∉ Forms._get_indicator_options c.
Proof.
  unfold Forms._get_indicator_options.
  repeat (match goal with |- context [if ?b then _ else _] => destruct b end);
    (split; [literal_nodup|not_in_literal_list]).
Qed.

End DropdownOptions.

(** X15. The level dropdown offers the empty choice, then the five
    standard levels in their order, then the other levels found in the
    level column, each option once. Every value found in the column that is
    present and not blank is offered, and nothing else is. *)
Theorem level_options_listing {F : Type} `{PyNum F} `{EqDecision F}
    (df : DataFrame F) (level_col : string) :
  NoDup (Forms.level_options df level_col) /\
  (exists others,
     Forms.level_options df level_col
     = CStr "" :: map CStr LEVEL_OPTIONS ++ others) /\
  (forall x,
     x ∈ Forms.level_options df level_col <->
     x = CStr "" \/ x ∈ map (@CStr F) LEVEL_OPTIONS \/
     ((exists r, r ∈ rows df /\ row_get r level_col = x) /\ x <> CMissing /\
      PyStr.strip (cell_str x) <> "")).
Proof.
  assert (Hfixed : NoDup (map (@CStr F) LEVEL_OPTIONS)).
  { apply NoDup_map_CStr. unfold LEVEL_OPTIONS. literal_nodup. }
  unfold Forms.level_options. rewrite merge_seen_fixed by done.
  split; [|split].
  - constructor; [|by apply extend_options_nodup].
    rewrite extend_options_elem. intros [Hin|Hin].
    + apply elem_of_map_CStr in Hin as (s & [= <-] & Hs).
      repeat (apply elem_of_cons in Hs as [Hs|Hs]; [discriminate|]).
      by apply elem_of_nil in Hs.
    + apply existing_values_elem in Hin as (_ & _ & Hs). by apply Hs.
  - destruct (extend_options_prefix (map (@CStr F) LEVEL_OPTIONS)
                (Forms.existing_values df level_col)) as [others ->].
    by exists others.
  - intros x. rewrite elem_of_cons, extend_options_elem, existing_values_elem. tauto.
Qed.

(** X16. The dropdown of a feeder column offers "Dinoyo" and "Matos",
    that of an indicator column the empty choice and its fixed options;
    both then offer the other values found in the column, each option
    once, and every value of the column that is present and not blank is
    among the options. *)
Theorem column_options_listing {F : Type} `{PyNum F} `{EqDecision F}
    (df : DataFrame F) (c : string) :
  NoDup (Forms.penyulang_options df c) /\
  NoDup (Forms.indicator_options df c) /\
  (exists others,
     Forms.penyulang_options df c = CStr "Dinoyo" :: CStr "Matos" :: others) /\
  (exists others,
     Forms.indicator_options df c
     = CStr "" :: map CStr (Forms._get_indicator_options c) ++ others) /\
  (forall r,
     c ∈ columns df -> r ∈ rows df ->
     row_get r c <> CMissing -> PyStr.strip (cell_str (row_get r c)) <> "" ->
     row_get r c ∈ Forms.penyulang_options df c /\
     row_get r c ∈ Forms.indicator_options df c).
Proof.
  unfold Forms.penyulang_options, Forms.indicator_options.
  destruct (indicator_options_fixed c) as [Hnd Hno].
  split; [|split; [|split; [|split]]].
  - apply extend_options_nodup, (NoDup_map_CStr ["Dinoyo"; "Matos"]). literal_nodup.
  - constructor; [|by apply extend_options_nodup, NoDup_map_CStr].
    rewrite extend_options_elem. intros [Hin|Hin].
    + apply elem_of_map_CStr in Hin as (s & [= <-] & Hs). by apply Hno.
    + apply sheet_values_elem, existing_values_elem in Hin as (_ & _ & Hs).
      by apply Hs.
  - destruct (extend_options_prefix [CStr "Dinoyo"; CStr "Matos"]
                (Forms.sheet_values df c)) as [others ->].
    by exists others.
  - destruct (extend_options_prefix (map (@CStr F) (Forms._get_indicator_options c))
                (Forms.sheet_values df c)) as [others ->].
    by exists others.
  - intros r Hc Hr Hx Hs.
    assert (Hin : row_get r c ∈ Forms.sheet_values df c).
    { unfold Forms.sheet_values.
      assert (Hne : df_empty df = false).
      { unfold df_empty. destruct (rows df); [by apply elem_of_nil in Hr|].
        destruct (columns df); [by apply elem_of_nil in Hc|done]. }
      rewrite Hne, (proj2 (mem_true_iff c (columns df)) Hc). cbn [negb andb].
      apply existing_values_elem. split; [by exists r|done]. }
    split; [|apply elem_of_cons; right]; apply extend_options_elem; by right.
Qed.

(** ** app.py: the fingerprint and the runs of the script *)

Section Runs.
Context {F : Type} `{PyNum F}.
Variable md5_hexdigest : string -> string.
Variable str_shape : nat * nat -> string.
Variable str_labels : list string -> string.
Variable str_cells : list (cell F) -> string.

Local Abbreviation hash := (App._get_data_hash md5_hexdigest str_shape str_labels str_cells).
Local Abbreviation main := (App.main md5_hexdigest str_shape str_labels str_cells).
Local Abbreviation load_step := (App.load_step md5_hexdigest str_shape str_labels str_cells).
Local Abbreviation map_step := (App.map_step md5_hexdigest str_shape str_labels str_cells).
Local Abbreviation map_block := (App.map_block md5_hexdigest str_shape str_labels str_cells).
Local Abbreviation main_with_form :=
  (App.main_with_form md5_hexdigest str_shape str_labels str_cells).

Lemma last_map_Some {A} (l : list A) : List.last (map Some l) None = last l.
Proof.
  induction l as [|x l IH]; [done|]. destruct l as [|y l]; [done|].
  change (List.last (map Some (x :: y :: l)) None)
    with (List.last (map Some (y :: l)) None).
  by rewrite IH.
Qed.

Lemma hash_reads_ends (d1 d2 : DataFrame F) :
  columns d1 = columns d2 ->
  length (rows d1) = length (rows d2) ->
  head (rows d1) = head (rows d2) ->
  last (rows d1) = last (rows d2) ->
  hash d1 = hash d2.
Proof.
  intros Hc Hn Hh Hl. unfold App._get_data_hash, df_empty, App.row_tolist.
  rewrite !last_map_Some, Hc, Hn, Hl.
  destruct (rows d1) as [|r1 l1], (rows d2) as [|r2 l2]; try done.
  cbn in Hh. by injection Hh as ->.
Qed.

Lemma load_step_empty_frame st d :
  df_empty (App.df (load_step st d)) = true -> App.df (load_step st d) = d.
Proof.
  unfold App.load_step.
  destruct (App.data_changed _ _ _ _ st d || App.force_refresh st || df_empty (App.df st))
    eqn:Hu; [done|].
  apply orb_false_iff in Hu as [_ Hu]. congruence.
Qed.

(** The load step leaves a state alone when the fingerprint of the
    reading is the one recorded, no refresh is forced, and the session
    copy is not empty or is the reading itself. *)
Lemma load_step_fixed st d :
  App.last_data_hash st = hash d ->
  App.force_refresh st = false ->
  (df_empty (App.df st) = true -> App.df st = d) ->
  load_step st d = st.
Proof.
  intros Hh Hf He. unfold App.load_step, App.data_changed.
  rewrite Hh, String.eqb_refl, Hf. cbn [negb orb].
  destruct (df_empty (App.df st)); [|done].
  specialize (He eq_refl). destruct st as [h f d' m c]. cbn in *. by subst.
Qed.

Lemma load_step_again st d : load_step (load_step st d) d = load_step st d.
Proof.
  apply load_step_fixed;
    [apply load_step_last_hash|apply load_step_force|apply load_step_empty_frame].
Qed.

Lemma map_step_again st : map_step (map_step st) = map_step st.
Proof.
  destruct (App.rebuild_needed md5_hexdigest str_shape str_labels str_cells st) eqn:Hr.
  - assert (Hs : map_step st
                 = {| App.last_data_hash := App.last_data_hash st;
                      App.force_refresh := App.force_refresh st;
                      App.df := App.df st;
                      App.map_hash := hash (App.df st);
                      App.cached_map := fst (MapBuilder.make_map (App.df st) "Color") |})
      by (unfold App.map_step; by rewrite Hr).
    rewrite Hs. unfold App.map_step, App.rebuild_needed, App.map_hash_changed.
    cbn [App.df App.map_hash App.cached_map App.last_data_hash App.force_refresh].
    rewrite String.eqb_refl. cbn [negb orb].
    by destruct (MapBuilder.make_map (App.df st) "Color").1.
  - assert (Hs : map_step st = st) by (unfold App.map_step; by rewrite Hr).
    by rewrite !Hs.
Qed.

Lemma load_step_map_step st d :
  load_step (map_step (load_step st d)) d = map_step (load_step st d).
Proof.
  destruct (map_step_frame md5_hexdigest str_shape str_labels str_cells (load_step st d))
    as (Hlast & Hforce & Hdf & _).
  apply load_step_fixed.
  - rewrite Hlast. apply load_step_last_hash.
  - rewrite Hforce. apply load_step_force.
  - rewrite Hdf. apply load_step_empty_frame.
Qed.

Lemma map_block_session st :
  map_block (App.df st) st = map_step st.
Proof. reflexivity. Qed.

Lemma map_block_map (df_session d' : DataFrame F) st :
  let st' := {| App.last_data_hash := App.last_data_hash st;
                App.force_refresh := App.force_refresh st;
                App.df := d';
                App.map_hash := App.map_hash st;
                App.cached_map := App.cached_map st |} in
  App.cached_map (map_block df_session st') = App.cached_map (map_block df_session st) /\
  App.map_hash (map_block df_session st') = App.map_hash (map_block df_session st) /\
  App.df (map_block df_session st') = d'.
Proof.
  cbv zeta. unfold App.map_block. cbn [App.map_hash App.cached_map].
  by destruct (negb (String.eqb (hash df_session) (App.map_hash st))
               || match App.cached_map st with None => true | Some _ => false end).
Qed.

End Runs.

Section SubmittedRows.
Context {F : Type} `{PyNum F}.

Lemma commit_submission_map df inp drive (w : Forms.World F) level_col lat lon iv :
  let w' := Forms.commit_submission df inp drive w level_col lat lon iv in
  Forms.session_map w' = fst (MapBuilder.make_map (Forms.session_df w') "Color").
Proof.
  cbv zeta. unfold Forms.commit_submission.
  by destruct (Forms.process_uploads drive iv (columns df)) as [[u a] n].
Qed.

(** A submission that passes validation ends in [commit_submission]. *)
Lemma render_input_form_commits df inp drive (w : Forms.World F) :
  columns df <> [] ->
  Forms.submitted inp = true ->
  (Forms._find_level_col (columns df) = None \/ Forms.level_state inp <> "") ->
  exists ns lat lon iv,
    Forms.render_input_form df inp drive w
    = Forms.commit_submission df inp drive (Forms.notify w ns)
        (Forms._find_level_col (columns df)) lat lon iv.
Proof.
  intros Hcols Hsub Hvalid. unfold Forms.render_input_form.
  destruct (columns df) as [|c cs] eqn:Hc; [done|].
  destruct (Forms.parse_coordinates (Forms.coordinates inp)) as [[lat lon] ns].
  rewrite Hsub. cbn [negb].
  destruct (Forms._find_level_col (c :: cs)) as [lc|] eqn:Hl.
  - destruct Hvalid as [Hnone|Hlevel]; [done|].
    rewrite (proj2 (String.eqb_neq _ "")) by done. by eexists _, _, _, _.
  - by eexists _, _, _, _.
Qed.

End SubmittedRows.

(** X17. The fingerprint of the data reads the shape, the headers, the
    first row and the last row only: two readings of the sheet that
    agree on these have the same fingerprint, so a reading that differs
    from the loaded one in interior rows only is not taken up by the load
    step (unless a refresh is forced or the session copy is empty). *)
Theorem fingerprint_ignores_interior_rows {F : Type} `{PyNum F}
    (md5_hexdigest : string -> string) (str_shape : nat * nat -> string)
    (str_labels : list string -> string) (str_cells : list (cell F) -> string)
    (st : App.SessionState F) (d1 d2 : DataFrame F) :
  columns d1 = columns d2 ->
  length (rows d1) = length (rows d2) ->
  head (rows d1) = head (rows d2) ->
  last (rows d1) = last (rows d2) ->
  App._get_data_hash md5_hexdigest str_shape str_labels str_cells d1
    = App._get_data_hash md5_hexdigest str_shape str_labels str_cells d2 /\
  (App.last_data_hash st
     = App._get_data_hash md5_hexdigest str_shape str_labels str_cells d1 ->
   App.force_refresh st = false ->
   df_empty (App.df st) = false ->
   App.load_step md5_hexdigest str_shape str_labels str_cells st d2 = st).
Proof.
  intros Hc Hn Hh Hl.
  pose proof (hash_reads_ends md5_hexdigest str_shape str_labels str_cells
                d1 d2 Hc Hn Hh Hl) as Heq.
  split; [exact Heq|].
  intros Hlast Hf He. apply load_step_fixed; [by rewrite Hlast|done|congruence].
Qed.

(** X17, on two readings of three rows whose second rows differ: the
    session keeps the first reading. *)
Lemma fingerprint_ignores_edited_row :
  rows three_rows_df <> rows three_rows_edited_df /\
  App.load_step id (fun _ => "") (fun _ => "") (fun _ => "")
    loaded_session three_rows_edited_df = loaded_session /\
  App.df (App.load_step id (fun _ => "") (fun _ => "") (fun _ => "")
            loaded_session three_rows_edited_df) = three_rows_df.
Proof.
  split; [discriminate|].
  destruct (fingerprint_ignores_interior_rows id (fun _ => "") (fun _ => "")
              (fun _ => "") loaded_session three_rows_df three_rows_edited_df
              eq_refl eq_refl eq_refl eq_refl) as [_ Hkeep].
  rewrite (Hkeep eq_refl eq_refl eq_refl). by split.
Defined.

(** X18. A run of the script is idempotent: a second run on the same
    reading of the sheet, with no button pressed, leaves the session as
    the first run left it, fingerprints and cached map included. *)
Theorem main_idempotent {F : Type} `{PyNum F}
    (md5_hexdigest : string -> string) (str_shape : nat * nat -> string)
    (str_labels : list string -> string) (str_cells : list (cell F) -> string)
    (st : App.SessionState F) (d : DataFrame F) :
  App.main md5_hexdigest str_shape str_labels str_cells
    (App.main md5_hexdigest str_shape str_labels str_cells st d) d
  = App.main md5_hexdigest str_shape str_labels str_cells st d.
Proof.
  unfold App.main at 1 2. rewrite load_step_map_step. apply map_step_again.
Qed.

(** X19. In the run in which a row is submitted and passes
    validation, the session copy of the data gains the row, but the map
    kept for display and its fingerprint are those of the same run without
    a submission: the map block works on the frame read before the form
    ran. The map the form builds from the new data is stored under an
    entry of the session that the script does not read. *)
Theorem submitted_row_not_on_displayed_map {F : Type} `{PyNum F}
    (md5_hexdigest : string -> string) (str_shape : nat * nat -> string)
    (str_labels : list string -> string) (str_cells : list (cell F) -> string)
    (st : App.SessionState F) (d : DataFrame F) (inp : Forms.FormInput)
    (drive : string -> Forms.upload_outcome) (w : Forms.World F) :
  let st1 := App.load_step md5_hexdigest str_shape str_labels str_cells st d in
  let run := App.main_with_form md5_hexdigest str_shape str_labels str_cells
               st d inp drive w in
  columns (App.df st1) <> [] ->
  Forms.submitted inp = true ->
  (Forms._find_level_col (columns (App.df st1)) = None \/ Forms.level_state inp <> "") ->
  length (rows (App.df run.1))
    = S (if df_empty (App.df st1) then 0 else length (rows (App.df st1))) /\
  App.cached_map run.1
    = App.cached_map (App.main md5_hexdigest str_shape str_labels str_cells st d) /\
  App.map_hash run.1
    = App.map_hash (App.main md5_hexdigest str_shape str_labels str_cells st d) /\
  Forms.session_map run.2 = fst (MapBuilder.make_map (App.df run.1) "Color").
Proof.
  intros st1 run Hcols Hsub Hvalid. subst run. unfold App.main_with_form. cbv zeta.
  fold st1. cbn [fst snd].
  set (w0 := {| Forms.sheet := Forms.sheet w; Forms.uploads := Forms.uploads w;
                Forms.session_df := App.df st1;
                Forms.session_map := Forms.session_map w;
                Forms.notices := Forms.notices w |}).
  set (w' := Forms.render_input_form (App.df st1) inp drive w0).
  destruct (map_block_map md5_hexdigest str_shape str_labels str_cells
              (App.df st1) (Forms.session_df w') st1) as (Hmap & Hhash & Hdf).
  cbv zeta in Hmap, Hhash, Hdf. rewrite Hmap, Hhash, Hdf.
  destruct (render_input_form_commits (App.df st1) inp drive w0 Hcols Hsub Hvalid)
    as (ns & lat & lon & iv & Hrun).
  split; [|split; [|split]].
  - subst w'. rewrite Hrun.
    rewrite (proj1 (commit_submission_mirror _ inp drive (Forms.notify w0 ns) _ lat lon iv)).
    rewrite length_app. cbn [Forms.notify Forms.session_df w0 length].
    destruct (df_empty (App.df st1)); cbn [rows length]; lia.
  - reflexivity.
  - reflexivity.
  - subst w'. rewrite Hrun. apply commit_submission_map.
Qed.

(** ** forms.py and map_builder.py: coordinates written and read *)


Section TypedCoordinates.

Lemma rstrip_no_space (x : string) :
  PyStr.forallb_str (fun c => negb (PyStr.is_space c)) x = true -> PyStr.rstrip x = x.
Proof.
  induction x as [|c x IH]; [done|]. cbn [PyStr.forallb_str].
  intros [Hc Hx]%andb_true_iff. apply negb_true_iff in Hc.
  rewrite rstrip_cons, IH by done. destruct x; by rewrite ?Hc.
Qed.

Lemma strip_no_space (x : string) :
  PyStr.forallb_str (fun c => negb (PyStr.is_space c)) x = true -> PyStr.strip x = x.
Proof.
  intros Hx. unfold PyStr.strip.
  assert (Hl : PyStr.lstrip x = x).
  { destruct x as [|c x]; [done|]. cbn [PyStr.forallb_str PyStr.lstrip] in *.
    apply andb_true_iff in Hx as [Hc _]. apply negb_true_iff in Hc. by rewrite Hc. }
  rewrite Hl. by apply rstrip_no_space.
Qed.

Lemma float_char_no_comma (c : ascii) :
  is_float_char c = true -> negb (Ascii.eqb c ",") = true.
Proof. by destruct c as [[] [] [] [] [] [] [] []]. Qed.

Lemma float_char_no_space (c : ascii) :
  is_float_char c = true -> negb (PyStr.is_space c) = true.
Proof. by destruct c as [[] [] [] [] [] [] [] []]. Qed.

Lemma fullmatch_float_strip (a : string) :
  fullmatch_float a = true -> PyStr.strip a = a.
Proof.
  intros Ha. apply strip_no_space.
  apply (forallb_str_impl is_float_char); [apply float_char_no_space|].
  by apply fullmatch_float_chars.
Qed.

Lemma fullmatch_float_no_comma (a : string) :
  fullmatch_float a = true ->
  PyStr.forallb_str (fun c => negb (Ascii.eqb c ",")) a = true.
Proof.
  intros Ha. apply (forallb_str_impl is_float_char); [apply float_char_no_comma|].
  by apply fullmatch_float_chars.
Qed.

Context {F : Type} `{PyNum F}.

Lemma parse_coord_pair (a b : string) :
  fullmatch_float a = true -> fullmatch_float b = true ->
  MapBuilder._parse_coord_from_field (@CStr F (a +:+ ", " +:+ b))
  = match py_float a, py_float b with
    | Some lat, Some lon => (Some lat, Some lon)
    | _, _ => (None, None)
    end.
Proof.
  intros Ha Hb. unfold MapBuilder._parse_coord_from_field. cbn [cell_str].
  by rewrite (findall_float_pair a b Ha Hb).
Qed.

Lemma parse_coordinates_pair (a b : string) :
  fullmatch_float a = true -> fullmatch_float b = true ->
  fst (Forms.parse_coordinates (F:=F) (a +:+ ", " +:+ b))
  = match py_float a, py_float b with
    | Some lat, Some lon => (Some lat, Some lon)
    | _, _ => (None, None)
    end.
Proof.
  intros Ha Hb. unfold Forms.parse_coordinates.
  assert (Hne : String.eqb (a +:+ ", " +:+ b) "" = false).
  { destruct a as [|c a]; [done|]. by rewrite append_cons. }
  rewrite Hne. change (", " +:+ b) with (String "," (String " " b)).
  rewrite (split_comma_app a _ (fullmatch_float_no_comma a Ha)).
  rewrite (split_comma_no_comma (String " " b))
    by (cbn [PyStr.forallb_str]; by rewrite (fullmatch_float_no_comma b Hb)).
  rewrite (fullmatch_float_strip a Ha).
  change (PyStr.strip (String " " b)) with (PyStr.strip b).
  rewrite (fullmatch_float_strip b Hb).
  by destruct (py_float a), (py_float b).
Qed.

End TypedCoordinates.

(** X20. Coordinates typed as two plain decimal numerals separated by a
    comma and a space are read alike by the form, which splits at the
    comma and converts the two sides, and by the map, which takes the first
    two numbers it finds in the text: both get the two numerals, converted,
    or nothing when a conversion fails. *)
Theorem typed_coordinates_read_alike {F : Type} `{PyNum F} (a b : string) :
  fullmatch_float a = true -> fullmatch_float b = true ->
  fst (Forms.parse_coordinates (F:=F) (a +:+ ", " +:+ b))
    = MapBuilder._parse_coord_from_field (CStr (a +:+ ", " +:+ b)) /\
  MapBuilder._parse_coord_from_field (@CStr F (a +:+ ", " +:+ b))
    = match py_float a, py_float b with
      | Some lat, Some lon => (Some lat, Some lon)
      | _, _ => (None, None)
      end.
Proof.
  intros Ha Hb. split; [|by apply parse_coord_pair].
  by rewrite parse_coordinates_pair, parse_coord_pair.
Qed.

(** X20, on the coordinates of the sample form. *)
Lemma typed_coordinates_read_alike_sample :
  fst (Forms.parse_coordinates (F:=Decimal.dec) "-7.93813533, 112.6332461")
    = MapBuilder._parse_coord_from_field (CStr "-7.93813533, 112.6332461") /\
  MapBuilder._parse_coord_from_field (@CStr Decimal.dec "-7.93813533, 112.6332461")
    = (Some {| Decimal.mantissa := -793813533; Decimal.places := 8 |},
       Some {| Decimal.mantissa := 1126332461; Decimal.places := 7 |}).
Proof.
  exact (typed_coordinates_read_alike (F:=Decimal.dec) "-7.93813533" "112.6332461"
           eq_refl eq_refl).
Defined.

(** X21. The coordinates the form writes into the combined column of
    the output row are read back by the map as the same pair, for numbers
    whose [str] is a plain decimal numeral that converts back to them. *)
Theorem written_coordinates_read_back {F : Type} `{PyNum F}
    (level_col : option string) (level_value auto_hex : string) (lat lon : F)
    (input_vals : gmap string (cell F)) (col : string) :
  level_col <> Some col ->
  PyStr.contains "koordinat" (PyStr.lower col) = true ->
  fullmatch_float (py_str lat) = true -> fullmatch_float (py_str lon) = true ->
  py_float (py_str lat) = Some lat -> py_float (py_str lon) = Some lon ->
  Forms.row_value level_col level_value auto_hex (Some lat) (Some lon) input_vals col
    = CStr (py_str lat +:+ ", " +:+ py_str lon) /\
  MapBuilder._parse_coord_from_field
    (Forms.row_value level_col level_value auto_hex (Some lat) (Some lon) input_vals col)
    = (Some lat, Some lon).
Proof.
  intros Hlevel Hk Ha Hb Hla Hlo.
  assert (Hrow : Forms.row_value level_col level_value auto_hex (Some lat) (Some lon)
                   input_vals col
                 = CStr (py_str lat +:+ ", " +:+ py_str lon)).
  { unfold Forms.row_value. cbv zeta.
    rewrite bool_decide_eq_false_2 by done. by rewrite Hk. }
  split; [exact Hrow|].
  rewrite Hrow, (parse_coord_pair _ _ Ha Hb). by rewrite Hla, Hlo.
Qed.

(** X21, on the coordinates of the sample form. *)
Lemma written_coordinates_read_back_sample :
  MapBuilder._parse_coord_from_field
    (Forms.row_value (Some "Level Resiko") "High" "#ffaa00"
       (Some {| Decimal.mantissa := -793813533; Decimal.places := 8 |})
       (Some {| Decimal.mantissa := 1126332461; Decimal.places := 7 |})
       ∅ "Koordinat")
  = (Some {| Decimal.mantissa := -793813533; Decimal.places := 8 |},
     Some {| Decimal.mantissa := 1126332461; Decimal.places := 7 |}).
Proof.
  apply (written_coordinates_read_back (F:=Decimal.dec) (Some "Level Resiko") "High"
           "#ffaa00" {| Decimal.mantissa := -793813533; Decimal.places := 8 |}
           {| Decimal.mantissa := 1126332461; Decimal.places := 7 |} ∅ "Koordinat");
    [discriminate|reflexivity|reflexivity|reflexivity|reflexivity|reflexivity].
Defined.

(** X19, on a first run that loads three rows and submits a fourth: the
    session copy has four rows, the map kept for display has three
    markers, and the map stored by the form has four. *)
Lemma submitted_row_not_on_displayed_map_sample :
  let run := App.main_with_form id (fun _ => "") (fun _ => "") (fun _ => "")
               first_run three_rows_df address_form drive_ok fresh_world in
  length (rows (App.df run.1)) = 4 /\
  App.cached_map run.1
    = App.cached_map (App.main id (fun _ => "") (fun _ => "") (fun _ => "")
                        first_run three_rows_df) /\
  (fun m => length (MapBuilder.markers m)) <$> App.cached_map run.1 = Some 3 /\
  (fun m => length (MapBuilder.markers m)) <$> Forms.session_map run.2 = Some 4.
Proof.
  cbv zeta.
  destruct (submitted_row_not_on_displayed_map id (fun _ => "") (fun _ => "")
              (fun _ => "") first_run three_rows_df address_form drive_ok fresh_world)
    as (Hlen & Hmap & _ & _); [discriminate|reflexivity|by left|].
  split; [exact Hlen|]. split; [exact Hmap|].
  split; by vm_compute.
Defined.

(** ** forms.py: dates written and read *)

Section Dates.

Lemma small_N_cases (P : N -> Prop) (bound : nat) :
  (forall k : nat, (k < bound)%nat -> P (N.of_nat k)) ->
  forall n : N, (n < N.of_nat bound)%N -> P n.
Proof.
  intros HP n Hn. rewrite <- (N2Nat.id n). apply HP. lia.
Qed.

Lemma digit_char_facts (k : N) :
  (k < 10)%N ->
  PyStr.is_digit (PyDate.digit_char k) = true /\
  PyDate.digit_val (PyDate.digit_char k) = k /\
  PyStr.is_space (PyDate.digit_char k) = false.
Proof.
  revert k. apply (small_N_cases _ 10). intros k Hk.
  do 10 (destruct k as [|k]; [by vm_compute|]). lia.
Qed.

Lemma day_alts_two_digits (n : N) (r : string) :
  (1 <= n <= 31)%N ->
  exists tl, PyDate.day_alts (PyDate.two_digits n +:+ r) = (n, r) :: tl.
Proof.
  intros [Hlo Hhi]. revert Hlo. pattern n. apply (small_N_cases _ 32); [|lia].
  clear n Hhi. intros k Hk Hlo.
  do 32 (destruct k as [|k]; [first [lia | by eexists]|]). lia.
Qed.

Lemma month_alts_two_digits (n : N) (r : string) :
  (1 <= n <= 12)%N ->
  exists tl, PyDate.month_alts (PyDate.two_digits n +:+ r) = (n, r) :: tl.
Proof.
  intros [Hlo Hhi]. revert Hlo. pattern n. apply (small_N_cases _ 13); [|lia].
  clear n Hhi. intros k Hk Hlo.
  do 13 (destruct k as [|k]; [first [lia | by eexists]|]). lia.
Qed.

Lemma four_digits_value (y : N) :
  (y < 10000)%N ->
  (1000 * (y / 1000) + 100 * ((y / 100) mod 10) + 10 * ((y / 10) mod 10) + y mod 10 = y)%N.
Proof.
  intros Hy.
  pose proof (N.div_mod y 10 ltac:(done)) as H1.
  pose proof (N.div_mod (y / 10) 10 ltac:(done)) as H2.
  pose proof (N.div_mod (y / 100) 10 ltac:(done)) as H3.
  assert (H4 : (y / 10 / 10 = y / 100)%N) by (by rewrite N.Div0.div_div).
  assert (H5 : (y / 100 / 10 = y / 1000)%N) by (by rewrite N.Div0.div_div).
  rewrite H4 in H2. rewrite H5 in H3. lia.
Qed.

Lemma year_alts_four_digits (y : N) (r : string) :
  (y < 10000)%N ->
  PyDate.year_alts (PyDate.four_digits y +:+ r) = [(y, r)].
Proof.
  intros Hy. unfold PyDate.four_digits. rewrite !append_cons, append_nil_l.
  assert (Ha : (y / 1000 < 10)%N) by (apply N.Div0.div_lt_upper_bound; lia).
  assert (Hb : ((y / 100) mod 10 < 10)%N) by (by apply N.mod_lt).
  assert (Hc : ((y / 10) mod 10 < 10)%N) by (by apply N.mod_lt).
  assert (Hd : (y mod 10 < 10)%N) by (by apply N.mod_lt).
  destruct (digit_char_facts _ Ha) as (Ha1 & Ha2 & _).
  destruct (digit_char_facts _ Hb) as (Hb1 & Hb2 & _).
  destruct (digit_char_facts _ Hc) as (Hc1 & Hc2 & _).
  destruct (digit_char_facts _ Hd) as (Hd1 & Hd2 & _).
  unfold PyDate.year_alts. rewrite Ha1, Hb1, Hc1, Hd1, Ha2, Hb2, Hc2, Hd2.
  cbn [andb]. by rewrite four_digits_value.
Qed.

Lemma hd_flat_map {A B} (f : A -> list B) (x : A) (tl : list A) (y : B) (ys : list B) :
  f x = y :: ys -> exists rest, flat_map f (x :: tl) = y :: rest.
Proof. intros Hf. cbn [flat_map]. rewrite Hf. by eexists. Qed.

Lemma two_digits_no_space (n : N) :
  (n < 100)%N ->
  PyStr.forallb_str (fun c => negb (PyStr.is_space c)) (PyDate.two_digits n) = true.
Proof.
  intros Hn. unfold PyDate.two_digits. cbn [PyStr.forallb_str].
  assert (Ha : (n / 10 < 10)%N) by (apply N.Div0.div_lt_upper_bound; lia).
  assert (Hb : (n mod 10 < 10)%N) by (by apply N.mod_lt).
  destruct (digit_char_facts _ Ha) as (_ & _ & ->).
  by destruct (digit_char_facts _ Hb) as (_ & _ & ->).
Qed.

Lemma four_digits_no_space (y : N) :
  (y < 10000)%N ->
  PyStr.forallb_str (fun c => negb (PyStr.is_space c)) (PyDate.four_digits y) = true.
Proof.
  intros Hy. unfold PyDate.four_digits. cbn [PyStr.forallb_str].
  assert (Ha : (y / 1000 < 10)%N) by (apply N.Div0.div_lt_upper_bound; lia).
  assert (Hb : ((y / 100) mod 10 < 10)%N) by (by apply N.mod_lt).
  assert (Hc : ((y / 10) mod 10 < 10)%N) by (by apply N.mod_lt).
  assert (Hd : (y mod 10 < 10)%N) by (by apply N.mod_lt).
  destruct (digit_char_facts _ Ha) as (_ & _ & ->).
  destruct (digit_char_facts _ Hb) as (_ & _ & ->).
  destruct (digit_char_facts _ Hc) as (_ & _ & ->).
  by destruct (digit_char_facts _ Hd) as (_ & _ & ->).
Qed.

Lemma valid_bounds (d : PyDate.date) :
  PyDate.valid d = true ->
  (1 <= PyDate.year d <= 9999)%N /\ (1 <= PyDate.month d <= 12)%N /\
  (1 <= PyDate.day d <= 31)%N.
Proof.
  unfold PyDate.valid. rewrite !andb_true_iff, !N.leb_le.
  intros [[[[[? ?] ?] ?] ?] Hd].
  assert (PyDate.days_in_month (PyDate.year d) (PyDate.month d) <= 31)%N.
  { unfold PyDate.days_in_month.
    repeat (match goal with |- context [if ?b then _ else _] => destruct b end); lia. }
  lia.
Qed.

(** The text written for a date of a year of four digits. *)
Lemma strftime_day_first (pads_year : bool) (d : PyDate.date) :
  (1000 <= PyDate.year d)%N ->
  PyDate.strftime pads_year
    [PyDate.Dd; PyDate.Lit "/"; PyDate.Dm; PyDate.Lit "/"; PyDate.DY] d
  = PyDate.two_digits (PyDate.day d) +:+
    String "/" (PyDate.two_digits (PyDate.month d) +:+
                String "/" (PyDate.four_digits (PyDate.year d) +:+ "")).
Proof.
  intros Hy. unfold PyDate.strftime. cbn [foldr PyDate.strftime_item].
  rewrite (proj2 (N.leb_le 1000 (PyDate.year d)) Hy), orb_true_r.
  by rewrite !append_cons, !append_nil_l.
Qed.

Lemma strptime_day_first (d : PyDate.date) :
  PyDate.valid d = true ->
  PyDate.strptime
    (PyDate.two_digits (PyDate.day d) +:+
     String "/" (PyDate.two_digits (PyDate.month d) +:+
                 String "/" (PyDate.four_digits (PyDate.year d) +:+ "")))
    [PyDate.Dd; PyDate.Lit "/"; PyDate.Dm; PyDate.Lit "/"; PyDate.DY]
  = Some d.
Proof.
  intros Hv. destruct (valid_bounds d Hv) as (Hy & Hm & Hd).
  unfold PyDate.strptime.
  set (tail_m := PyDate.two_digits (PyDate.month d) +:+
                 String "/" (PyDate.four_digits (PyDate.year d) +:+ "")).
  destruct (day_alts_two_digits (PyDate.day d) (String "/" tail_m) Hd) as [tl Hday].
  destruct (month_alts_two_digits (PyDate.month d)
              (String "/" (PyDate.four_digits (PyDate.year d) +:+ "")) Hm) as [tl' Hmonth].
  assert (Hyear : PyDate.year_alts (PyDate.four_digits (PyDate.year d) +:+ "")
                  = [(PyDate.year d, "")]) by (apply year_alts_four_digits; lia).
  cbn [PyDate.match_format]. rewrite Hday. cbn [flat_map fst snd].
  cbn [PyDate.match_format Ascii.eqb Bool.eqb]. fold tail_m. unfold tail_m at 1.
  rewrite Hmonth. cbn [flat_map fst snd].
  cbn [PyDate.match_format Ascii.eqb Bool.eqb]. rewrite Hyear.
  cbn [flat_map fst snd PyDate.match_format app PyDate.year PyDate.month PyDate.day].
  destruct d as [y m dd]. cbn [PyDate.year PyDate.month PyDate.day] in *.
  by rewrite Hv.
Qed.

Lemma strip_head_visible (s : string) (c : ascii) (r : string) :
  PyStr.strip s = String c r -> PyStr.is_space c = false.
Proof.
  unfold PyStr.strip.
  destruct (lstrip_head s) as [->|(c' & r' & -> & Hc')]; [done|].
  destruct (rstrip_head c' r' Hc') as [r'' ->]. by intros [= <- _].
Qed.

Lemma two_nil (p q : ascii -> bool) (a : ascii) (r : string) :
  p a = false -> PyDate.two p q (String a r) = [].
Proof. intros Hp. destruct r; cbn [PyDate.two]; by rewrite ?Hp. Qed.

Lemma one_nil (p : ascii -> bool) (a : ascii) (r : string) :
  p a = false -> PyDate.one p (String a r) = [].
Proof. intros Hp. cbn [PyDate.one]. by rewrite Hp. Qed.

Lemma no_digit_classes (c : ascii) :
  PyStr.is_digit c = false -> PyStr.is_space c = false ->
  Ascii.eqb "3" c = false /\ PyDate.between "1" "2" c = false /\
  Ascii.eqb "0" c = false /\ PyDate.between "1" "9" c = false /\
  Ascii.eqb " " c = false /\ Ascii.eqb "1" c = false.
Proof. by destruct c as [[] [] [] [] [] [] [] []]. Qed.

Lemma alts_no_digit (c : ascii) (r : string) :
  PyStr.is_digit c = false -> PyStr.is_space c = false ->
  PyDate.day_alts (String c r) = [] /\ PyDate.month_alts (String c r) = [] /\
  PyDate.year_alts (String c r) = [].
Proof.
  intros Hd Hs.
  destruct (no_digit_classes c Hd Hs) as (H3 & H12 & H0 & H19 & Hsp & H1).
  unfold PyDate.day_alts, PyDate.month_alts.
  rewrite !two_nil, !one_nil by done. repeat split.
  unfold PyDate.year_alts. destruct r as [|? [|? [|? ?]]]; try done. by rewrite Hd.
Qed.

Lemma first_parsed_no_digit (c : ascii) (r : string) :
  PyStr.is_digit c = false -> PyStr.is_space c = false ->
  Forms.first_parsed (String c r) Forms.date_formats = None.
Proof.
  intros Hd Hs. destruct (alts_no_digit c r Hd Hs) as (Hday & Hmonth & Hyear).
  unfold Forms.date_formats, Forms.first_parsed, PyDate.strptime.
  cbn [PyDate.match_format]. by rewrite Hday, Hmonth, Hyear.
Qed.

End Dates.

(** X22. A date written by the form is read back as the same date: for
    every date of a year from 1000 on, the text [_format_date_for_sheets]
    writes (day/month/year) is parsed by [_parse_date_from_string] by its
    first format, whatever today is. Hence a date input whose column ends
    with such a text starts from the date last written. *)
Theorem written_date_read_back (today : PyDate.date) (pads_year : bool)
    (d : PyDate.date) :
  PyDate.valid d = true ->
  (1000 <= PyDate.year d)%N ->
  Forms._parse_date_from_string today
    (Forms._format_date_for_sheets pads_year (Forms.ADate d)) = d /\
  (forall (F : Type) (HF : PyNum F) (df : DataFrame F) (c : string),
     df_empty df = false -> PyStr.mem c (columns df) = true ->
     last (Forms.dropna (Forms.column_values df c))
       = Some (CStr (Forms._format_date_for_sheets pads_year (Forms.ADate d))) ->
     Forms.default_date today df c = d).
Proof.
  intros Hv Hy.
  destruct (valid_bounds d Hv) as (Hyb & Hm & Hd).
  assert (Htext : Forms._format_date_for_sheets pads_year (Forms.ADate d)
                  = PyDate.two_digits (PyDate.day d) +:+
                    String "/" (PyDate.two_digits (PyDate.month d) +:+
                                String "/" (PyDate.four_digits (PyDate.year d) +:+ "")))
    by (by apply strftime_day_first).
  assert (Hne : String.eqb (Forms._format_date_for_sheets pads_year (Forms.ADate d)) ""
                = false) by (by rewrite Htext).
  assert (Hstrip : PyStr.strip (Forms._format_date_for_sheets pads_year (Forms.ADate d))
                   = Forms._format_date_for_sheets pads_year (Forms.ADate d)).
  { apply strip_no_space. rewrite Htext.
    rewrite forallb_str_app, two_digits_no_space by lia. cbn [andb PyStr.forallb_str].
    rewrite forallb_str_app, two_digits_no_space by lia. cbn [andb PyStr.forallb_str].
    rewrite forallb_str_app, four_digits_no_space by lia. done. }
  assert (Hparse : Forms._parse_date_from_string today
                     (Forms._format_date_for_sheets pads_year (Forms.ADate d)) = d).
  { unfold Forms._parse_date_from_string. rewrite Hstrip, Hne. cbn [orb].
    unfold Forms.date_formats. cbn [Forms.first_parsed].
    rewrite Htext, (strptime_day_first d Hv). done. }
  split; [exact Hparse|].
  intros F HF df c Hdf Hc Hlast. unfold Forms.default_date.
  rewrite Hdf, Hc, last_map_Some, Hlast. cbn [negb andb cell_str].
  by rewrite Hne.
Qed.

(** X22, on a date and on a sheet whose date column ends with it. *)
Lemma written_date_read_back_sample :
  Forms._format_date_for_sheets false
    (Forms.ADate {| PyDate.year := 2025; PyDate.month := 9; PyDate.day := 18 |})
    = "18/09/2025" /\
  Forms._parse_date_from_string
    {| PyDate.year := 2026; PyDate.month := 1; PyDate.day := 1 |}
    (Forms._format_date_for_sheets false
       (Forms.ADate {| PyDate.year := 2025; PyDate.month := 9; PyDate.day := 18 |}))
    = {| PyDate.year := 2025; PyDate.month := 9; PyDate.day := 18 |}.
Proof.
  split; [reflexivity|].
  apply (written_date_read_back
           {| PyDate.year := 2026; PyDate.month := 1; PyDate.day := 1 |} false
           {| PyDate.year := 2025; PyDate.month := 9; PyDate.day := 18 |});
    [reflexivity|by vm_compute].
Defined.

(** X23. A text that, once trimmed, is empty or does not begin with a
    digit is no date for any of the five formats: the helper answers
    today. *)
Theorem unreadable_date_is_today (today : PyDate.date) (date_str : string) :
  starts_with_digit (PyStr.strip date_str) = false ->
  Forms._parse_date_from_string today date_str = today.
Proof.
  intros Hs. unfold Forms._parse_date_from_string.
  destruct (String.eqb date_str ""); [done|]. cbn [orb].
  destruct (PyStr.strip date_str) as [|c r] eqn:Hstrip; [done|].
  cbn [String.eqb]. cbn in Hs.
  by rewrite (first_parsed_no_digit c r Hs (strip_head_visible _ _ _ Hstrip)).
Qed.

(** X23, on a word. *)
Lemma unreadable_date_is_today_sample :
  Forms._parse_date_from_string
    {| PyDate.year := 2026; PyDate.month := 1; PyDate.day := 1 |} " kemarin "
  = {| PyDate.year := 2026; PyDate.month := 1; PyDate.day := 1 |}.
Proof. by apply unreadable_date_is_today. Defined.

(** ** forms.py, app.py and map_builder.py: the row added to the session *)

Section AddedRow.
Context {F : Type} `{PyNum F}.

Lemma foldl_insert_lookup {V} (value : string -> V) (cols : list string)
    (acc : gmap string V) (k : string) :
  foldl (fun m c => <[c := value c]> m) acc cols !! k
  = if bool_decide (k ∈ cols) then Some (value k) else acc !! k.
Proof.
  revert acc. induction cols as [|c cols IH]; intros acc; [done|].
  cbn [foldl]. rewrite IH, bool_decide_elem_of_cons.
  destruct (bool_decide (k ∈ cols)) eqn:Hin; [by rewrite orb_true_r|].
  rewrite orb_false_r. destruct (decide (c = k)) as [->|Hc].
  - by rewrite lookup_insert_eq, bool_decide_eq_true_2.
  - by rewrite lookup_insert_ne, bool_decide_eq_false_2.
Qed.

Lemma build_new_row_lookup level_col level_value auto_hex coordinates
    (lat lon : option F) (iv : gmap string (cell F)) (cols : list string) (k : string) :
  Forms.build_new_row level_col level_value auto_hex coordinates lat lon iv cols !! k
  = if bool_decide (k ∈ cols)
    then Some (Forms.mirror_value level_col level_value auto_hex coordinates lat lon iv k)
    else None.
Proof. unfold Forms.build_new_row. by rewrite foldl_insert_lookup, lookup_empty. Qed.

Lemma list_difference_covered (l k : list string) :
  (forall x, x ∈ l -> x ∈ k) -> list_difference l k = [].
Proof.
  intros Hsub. destruct (list_difference l k) as [|x xs] eqn:Hd; [done|].
  assert (Hx : x ∈ list_difference l k) by (rewrite Hd; by left).
  apply list_elem_of_difference in Hx as [Hl Hk]. destruct Hk. by apply Hsub.
Qed.

Lemma commit_submission_frame df inp drive (w : Forms.World F) level_col lat lon iv :
  let w' := Forms.commit_submission df inp drive w level_col lat lon iv in
  let local_df := if df_empty (Forms.session_df w)
                  then {| columns := columns df; rows := [] |}
                  else Forms.session_df w in
  Forms.session_df w'
  = Forms.concat_row local_df
      (Forms.build_new_row level_col (Forms.level_state inp)
         (risk_to_color_hex (Forms.level_state inp) DEFAULT_HEX)
         (Forms.coordinates inp) lat lon
         (Forms.drop_temp_keys (Forms.process_uploads drive iv (columns df)).1.1)
         (columns df))
      (columns df).
Proof.
  cbv zeta. unfold Forms.commit_submission.
  by destruct (Forms.process_uploads drive iv (columns df)) as [[u a] n].
Qed.

End AddedRow.

(** X24. A submission that passes validation keeps the session copy
    rectangular: when the session copy is empty or has the headers of the
    sheet, its headers after the submission are the headers of the sheet,
    and the row added has a value for every header and for nothing
    else. *)
Theorem added_row_has_sheet_columns {F : Type} `{PyNum F}
    (df : DataFrame F) (inp : Forms.FormInput)
    (drive : string -> Forms.upload_outcome) (w : Forms.World F) :
  columns df <> [] ->
  Forms.submitted inp = true ->
  (Forms._find_level_col (columns df) = None \/ Forms.level_state inp <> "") ->
  (df_empty (Forms.session_df w) = true \/ columns (Forms.session_df w) = columns df) ->
  let w' := Forms.render_input_form df inp drive w in
  columns (Forms.session_df w') = columns df /\
  exists new_row,
    last (rows (Forms.session_df w')) = Some new_row /\
    forall c, is_Some (new_row !! c) <-> c ∈ columns df.
Proof.
  intros Hcols Hsub Hvalid Hsession. cbv zeta.
  destruct (render_input_form_commits df inp drive w Hcols Hsub Hvalid)
    as (ns & lat & lon & iv & ->).
  pose proof (commit_submission_frame df inp drive (Forms.notify w ns)
                (Forms._find_level_col (columns df)) lat lon iv) as Hframe.
  cbv zeta in Hframe. rewrite Hframe. unfold Forms.concat_row. cbn [columns rows].
  split.
  - assert (Hl : columns (if df_empty (Forms.session_df (Forms.notify w ns))
                          then {| columns := columns df; rows := [] |}
                          else Forms.session_df (Forms.notify w ns)) = columns df).
    { cbn [Forms.notify Forms.session_df].
      destruct Hsession as [->|Hsame]; [done|].
      by destruct (df_empty (Forms.session_df w)). }
    rewrite Hl, list_difference_covered, app_nil_r; [done|].
    intros x Hx. by apply elem_of_remove_dups.
  - eexists. split; [apply last_snoc|].
    intros c. rewrite build_new_row_lookup.
    case_bool_decide as Hc; split; done.
Qed.

(** X24, on the sample sheet and form. *)
Lemma added_row_has_sheet_columns_sample :
  let w' := Forms.render_input_form sheet_df filled_form drive_ok fresh_world in
  columns (Forms.session_df w') = columns sheet_df /\
  exists new_row,
    last (rows (Forms.session_df w')) = Some new_row /\
    forall c, is_Some (new_row !! c) <-> c ∈ columns sheet_df.
Proof.
  apply (added_row_has_sheet_columns sheet_df filled_form drive_ok fresh_world);
    [discriminate|reflexivity|right; discriminate|by left].
Defined.

(** X25. A point submitted through the form shows on the map of the
    session copy where it was typed: on a sheet that keeps coordinates in
    a combined "koordinat" column only, coordinates typed as two plain
    decimal numerals are parsed by the form, stored as typed in the row
    added to the session copy, and give that row a marker at the parsed
    pair. *)
Theorem submitted_point_on_map {F : Type} `{PyNum F}
    (cols : list string) (level_col : option string) (level_value auto_hex : string)
    (a b : string) (lat lon : F) (input_vals : gmap string (cell F)) (kc : string) :
  MapBuilder.lat_keys cols = [] -> MapBuilder.lon_keys cols = [] ->
  MapBuilder.find_coord_col cols = Some kc ->
  PyStr.contains "koordinat" (PyStr.lower kc) = true ->
  level_col <> Some kc ->
  fullmatch_float a = true -> fullmatch_float b = true ->
  py_float a = Some lat -> py_float b = Some lon ->
  let new_row :=
    Forms.build_new_row level_col level_value auto_hex (a +:+ ", " +:+ b)
      (Some lat) (Some lon) input_vals cols in
  fst (Forms.parse_coordinates (F:=F) (a +:+ ", " +:+ b)) = (Some lat, Some lon) /\
  new_row !! kc = Some (CStr (a +:+ ", " +:+ b)) /\
  MapBuilder.location <$> MapBuilder.row_marker cols "Color" new_row = Some (lat, lon).
Proof.
  intros Hlat Hlon Hfind Hk Hlevel Ha Hb Hla Hlo. cbv zeta.
  assert (Hin : kc ∈ cols).
  { apply list_elem_of_In. unfold MapBuilder.find_coord_col in Hfind.
    by apply find_some in Hfind as [? _]. }
  assert (Hcell :
    Forms.build_new_row level_col level_value auto_hex (a +:+ ", " +:+ b)
      (Some lat) (Some lon) input_vals cols !! kc = Some (CStr (a +:+ ", " +:+ b))).
  { rewrite build_new_row_lookup, bool_decide_eq_true_2 by done.
    unfold Forms.mirror_value. cbv zeta.
    rewrite bool_decide_eq_false_2 by done. by rewrite Hk. }
  split; [by rewrite parse_coordinates_pair, Hla, Hlo|]. split; [exact Hcell|].
  unfold MapBuilder.row_marker, MapBuilder._get_lat_lon_from_row.
  rewrite Hlat, Hlon, Hfind. cbn [MapBuilder.first_key_value MapBuilder._is_blank orb].
  unfold row_get_or. rewrite Hcell. cbn [default from_option id].
  rewrite (parse_coord_pair a b Ha Hb), Hla, Hlo. reflexivity.
Qed.

(** X25, on a sheet with a combined column and the coordinates of the
    sample form. *)
Lemma submitted_point_on_map_sample :
  MapBuilder.location <$>
    MapBuilder.row_marker ["Alamat"; "Koordinat"] "Color"
      (Forms.build_new_row None "" DEFAULT_HEX "-7.93813533, 112.6332461"
         (Some {| Decimal.mantissa := -793813533; Decimal.places := 8 |})
         (Some {| Decimal.mantissa := 1126332461; Decimal.places := 7 |})
         ∅ ["Alamat"; "Koordinat"])
  = Some ({| Decimal.mantissa := -793813533; Decimal.places := 8 |},
          {| Decimal.mantissa := 1126332461; Decimal.places := 7 |}).
Proof.
  apply (submitted_point_on_map (F:=Decimal.dec) ["Alamat"; "Koordinat"] None ""
           DEFAULT_HEX "-7.93813533" "112.6332461" _ _ ∅ "Koordinat");
    (reflexivity || discriminate).
Defined.

(** X26. The row a submission adds lives in the session only: on the
    next run, while the reading of the sheet is the one already loaded,
    the load step keeps the session copy with the added row; a forced
    refresh replaces the session copy by the reading, which does not hold
    the row. *)
Theorem added_row_lasts_until_refresh {F : Type} `{PyNum F}
    (md5_hexdigest : string -> string) (str_shape : nat * nat -> string)
    (str_labels : list string -> string) (str_cells : list (cell F) -> string)
    (st : App.SessionState F) (d : DataFrame F) (inp : Forms.FormInput)
    (drive : string -> Forms.upload_outcome) (w : Forms.World F) :
  let st1 := App.load_step md5_hexdigest str_shape str_labels str_cells st d in
  let st' := (App.main_with_form md5_hexdigest str_shape str_labels str_cells
                st d inp drive w).1 in
  columns (App.df st1) <> [] ->
  Forms.submitted inp = true ->
  (Forms._find_level_col (columns (App.df st1)) = None \/ Forms.level_state inp <> "") ->
  App.load_step md5_hexdigest str_shape str_labels str_cells st' d = st' /\
  length (rows (App.df st'))
    = S (if df_empty (App.df st1) then 0 else length (rows (App.df st1))) /\
  App.df (App.load_step md5_hexdigest str_shape str_labels str_cells
            {| App.last_data_hash := App.last_data_hash st';
               App.force_refresh := true;
               App.df := App.df st';
               App.map_hash := App.map_hash st';
               App.cached_map := App.cached_map st' |} d) = d.
Proof.
  intros st1 st' Hcols Hsub Hvalid. subst st'. unfold App.main_with_form. cbv zeta.
  fold st1. cbn [fst].
  set (w0 := {| Forms.sheet := Forms.sheet w; Forms.uploads := Forms.uploads w;
                Forms.session_df := App.df st1;
                Forms.session_map := Forms.session_map w;
                Forms.notices := Forms.notices w |}).
  set (w' := Forms.render_input_form (App.df st1) inp drive w0).
  set (st2 := {| App.last_data_hash := App.last_data_hash st1;
                 App.force_refresh := App.force_refresh st1;
                 App.df := Forms.session_df w';
                 App.map_hash := App.map_hash st1;
                 App.cached_map := App.cached_map st1 |}).
  assert (Hfields :
    App.last_data_hash (App.map_block md5_hexdigest str_shape str_labels str_cells
                          (App.df st1) st2) = App.last_data_hash st1 /\
    App.force_refresh (App.map_block md5_hexdigest str_shape str_labels str_cells
                         (App.df st1) st2) = App.force_refresh st1 /\
    App.df (App.map_block md5_hexdigest str_shape str_labels str_cells
              (App.df st1) st2) = Forms.session_df w').
  { unfold App.map_block. by destruct (_ || _). }
  destruct Hfields as (Hlast & Hforce & Hdf).
  destruct (render_input_form_commits (App.df st1) inp drive w0 Hcols Hsub Hvalid)
    as (ns & lat & lon & iv & Hrun).
  assert (Hframe : Forms.session_df w'
    = Forms.concat_row
        (if df_empty (App.df st1) then {| columns := columns (App.df st1); rows := [] |}
         else App.df st1)
        (Forms.build_new_row (Forms._find_level_col (columns (App.df st1)))
           (Forms.level_state inp)
           (risk_to_color_hex (Forms.level_state inp) DEFAULT_HEX)
           (Forms.coordinates inp) lat lon
           (Forms.drop_temp_keys
              (Forms.process_uploads drive iv (columns (App.df st1))).1.1)
           (columns (App.df st1)))
        (columns (App.df st1))).
  { subst w'. rewrite Hrun. apply commit_submission_frame. }
  assert (Hlen : length (rows (Forms.session_df w'))
                 = S (if df_empty (App.df st1) then 0 else length (rows (App.df st1)))).
  { rewrite Hframe. unfold Forms.concat_row. cbn [rows]. rewrite length_app.
    destruct (df_empty (App.df st1)); cbn [rows length]; lia. }
  assert (Hne : df_empty (Forms.session_df w') = false).
  { unfold df_empty. rewrite Hlen. cbn [Nat.eqb orb].
    rewrite Hframe. unfold Forms.concat_row. cbn [columns]. rewrite length_app.
    assert (columns (if df_empty (App.df st1)
                     then {| columns := columns (App.df st1); rows := [] |}
                     else App.df st1) = columns (App.df st1))
      as -> by (by destruct (df_empty (App.df st1))).
    destruct (columns (App.df st1)); [done|]. done. }
  split; [|split].
  - apply load_step_fixed.
    + rewrite Hlast. apply load_step_last_hash.
    + rewrite Hforce. apply load_step_force.
    + rewrite Hdf, Hne. done.
  - by rewrite Hdf.
  - unfold App.load_step. cbn [App.force_refresh]. by rewrite orb_true_r.
Qed.

(** X26, on the first run that loads three rows and submits a fourth. *)
Lemma added_row_lasts_until_refresh_sample :
  let st' := (App.main_with_form id (fun _ => "") (fun _ => "") (fun _ => "")
                first_run three_rows_df address_form drive_ok fresh_world).1 in
  App.load_step id (fun _ => "") (fun _ => "") (fun _ => "") st' three_rows_df = st' /\
  length (rows (App.df st')) = 4.
Proof.
  cbv zeta.
  destruct (added_row_lasts_until_refresh id (fun _ => "") (fun _ => "")
              (fun _ => "") first_run three_rows_df address_form drive_ok fresh_world)
    as (Hkeep & Hlen & _); [discriminate|reflexivity|by left|].
  split; [exact Hkeep|exact Hlen].
Defined.

(** ** forms.py: the files sent to the upload path *)

Section UploadAttempts.
Context {F : Type} `{PyNum F}.
Variable drive : string -> Forms.upload_outcome.

(** One turn of the upload loop on a column whose temporary key holds
    a file or nothing: a file is one attempt and one message. *)
Lemma upload_column_attempt (st : Forms.upload_state F) (col : string)
    (pending : option string) :
  st.1.1 !! (Forms.UPLOADED_FILE_PREFIX +:+ col) = Forms.IFile <$> pending ->
  (Forms.upload_column drive st col).1.2
    = st.1.2 ++ (if bool_decide (is_Some pending) then [col] else []) /\
  length (Forms.upload_column drive st col).2
    = length st.2 + (if bool_decide (is_Some pending) then 1 else 0).
Proof.
  destruct st as [[d a] n]. cbn [fst snd]. intros Hfile.
  unfold Forms.upload_column. rewrite Hfile.
  destruct pending as [f|]; cbn [fmap option_fmap option_map].
  - rewrite (bool_decide_eq_true_2 (is_Some (Some f))) by eauto.
    destruct (drive col); cbn [fst snd]; rewrite length_app; cbn [length]; split; done.
  - rewrite (bool_decide_eq_false_2 (is_Some None)) by (by intros [? ?]).
    cbn [fst snd]. rewrite app_nil_r. split; [done|lia].
Qed.

Lemma foldl_upload_attempts (pending : string -> option string) (l : list string)
    (st : Forms.upload_state F) :
  Forall (fun c => Forms.is_temp_key c = false) l ->
  (forall c, c ∈ l ->
     st.1.1 !! (Forms.UPLOADED_FILE_PREFIX +:+ c) = Forms.IFile <$> pending c) ->
  (foldl (Forms.upload_column drive) st l).1.2
    = st.1.2 ++ List.filter (fun c => bool_decide (is_Some (pending c))) l /\
  length (foldl (Forms.upload_column drive) st l).2
    = length st.2 + length (List.filter (fun c => bool_decide (is_Some (pending c))) l).
Proof.
  intros Hl. revert st. induction Hl as [|c l Hc Hl IH]; intros st Hfiles.
  - cbn [foldl List.filter length]. rewrite app_nil_r. split; [done|lia].
  - cbn [foldl List.filter].
    destruct (upload_column_attempt st c (pending c)) as [Ha Hn];
      [apply Hfiles; by left|].
    destruct (IH (Forms.upload_column drive st c)) as [Ha' Hn'].
    { intros c' Hc'. rewrite upload_column_temp; [|apply temp_key_upload|done].
      apply Hfiles. by right. }
    rewrite Ha', Hn', Ha, Hn.
    destruct (bool_decide (is_Some (pending c))); cbn [length].
    + rewrite <- app_assoc. split; [done|lia].
    + rewrite app_nil_r. split; [done|lia].
Qed.

Lemma commit_submission_uploads df inp (w : Forms.World F) level_col lat lon iv :
  let w' := Forms.commit_submission df inp drive w level_col lat lon iv in
  Forms.uploads w'
    = Forms.uploads w ++ (Forms.process_uploads drive iv (columns df)).1.2.
Proof.
  cbv zeta. unfold Forms.commit_submission.
  by destruct (Forms.process_uploads drive iv (columns df)) as [[u a] n].
Qed.

(** A submission that passes validation ends in [commit_submission]
    on the dict the form rendered. *)
Lemma render_input_form_commits_inputs df inp (w : Forms.World F) :
  columns df <> [] ->
  Forms.submitted inp = true ->
  (Forms._find_level_col (columns df) = None \/ Forms.level_state inp <> "") ->
  exists ns lat lon,
    Forms.render_input_form df inp drive w
    = Forms.commit_submission df inp drive (Forms.notify w ns)
        (Forms._find_level_col (columns df)) lat lon
        (Forms.render_inputs inp (Forms._find_level_col (columns df)) lat lon
           (columns df)).
Proof.
  intros Hcols Hsub Hvalid. unfold Forms.render_input_form.
  destruct (columns df) as [|c cs] eqn:Hc; [done|].
  destruct (Forms.parse_coordinates (Forms.coordinates inp)) as [[lat lon] ns].
  rewrite Hsub. cbn [negb].
  destruct (Forms._find_level_col (c :: cs)) as [lc|] eqn:Hl.
  - destruct Hvalid as [Hnone|Hlevel]; [done|].
    rewrite (proj2 (String.eqb_neq _ "")) by done. by eexists _, _, _.
  - by eexists _, _, _.
Qed.

End UploadAttempts.

(** X27. A submission that passes validation hands to the upload path
    exactly the files given for documentation columns that got an
    uploader, one attempt per file, in the order of the sheet, whatever the
    outcome of each upload; columns without a file cause no attempt. (The
    headers are taken not to begin like a temporary key of the form.) *)
Theorem uploads_follow_documentation_files {F : Type} `{PyNum F}
    (df : DataFrame F) (inp : Forms.FormInput)
    (drive : string -> Forms.upload_outcome) (w : Forms.World F) :
  Forall (fun c => Forms.is_temp_key c = false) (columns df) ->
  columns df <> [] ->
  Forms.submitted inp = true ->
  (Forms._find_level_col (columns df) = None \/ Forms.level_state inp <> "") ->
  Forms.uploads (Forms.render_input_form df inp drive w)
  = Forms.uploads w ++
    List.filter
      (fun c => bool_decide
                  (is_Some (pending_file inp (Forms._find_level_col (columns df)) c)))
      (columns df).
Proof.
  intros Htemp Hcols Hsub Hvalid.
  destruct (render_input_form_commits_inputs drive df inp w Hcols Hsub Hvalid)
    as (ns & lat & lon & ->).
  rewrite commit_submission_uploads. cbn [Forms.notify Forms.uploads]. f_equal.
  unfold Forms.process_uploads.
  destruct (foldl_upload_attempts drive
              (pending_file inp (Forms._find_level_col (columns df))) (columns df)
              (Forms.render_inputs inp (Forms._find_level_col (columns df)) lat lon
                 (columns df), [], []) Htemp) as [Ha _]; [|exact Ha].
  intros c Hc. cbn [fst]. by apply rendered_file_key.
Qed.

(** X27, on the sample sheet and form: one file, one attempt. *)
Lemma uploads_follow_documentation_files_sample :
  Forms.uploads (Forms.render_input_form sheet_df filled_form drive_ok fresh_world)
  = ["Dokumentasi Temuan"].
Proof.
  rewrite (uploads_follow_documentation_files sheet_df filled_form drive_ok fresh_world);
    [reflexivity|by repeat constructor|discriminate|reflexivity|right; discriminate].
Defined.

(** ** forms.py and map_builder.py: the colour of a submitted point *)

Section SubmittedColor.
Context {F : Type} `{PyNum F}.

Lemma level_color_trimmed (level_value : string) :
  let auto_hex := risk_to_color_hex level_value DEFAULT_HEX in
  PyStr.strip auto_hex = auto_hex /\ auto_hex <> "" /\
  MapBuilder._valid_hex (@CStr F auto_hex) = true.
Proof.
  cbv zeta.
  pose proof (risk_cell_range (F:=F) (CStr level_value)) as Hin.
  cbn [risk_to_color_hex_cell] in Hin.
  repeat (apply elem_of_cons in Hin as [->|Hin]; [by vm_compute|]).
  by apply elem_of_nil in Hin.
Qed.

End SubmittedColor.

(** X28. The marker of a submitted row is filled with the colour of the
    level chosen in the form: on a sheet with a level column whose colour
    column, if it has one, is named "Color" (in any letter case), the row
    added to the session copy gets the fill colour
    [risk_to_color_hex(level)]. *)
Theorem submitted_point_fill_color {F : Type} `{PyNum F}
    (cols : list string) (lc level_value coordinates : string) (lat lon : option F)
    (input_vals : gmap string (cell F)) :
  Forms._find_level_col cols = Some lc ->
  (color_column cols = None \/
   exists c0, color_column cols = Some c0 /\ PyStr.lower c0 = "color") ->
  let auto_hex := risk_to_color_hex level_value DEFAULT_HEX in
  let new_row :=
    Forms.build_new_row (Some lc) level_value auto_hex coordinates lat lon
      input_vals cols in
  MapBuilder.fill_color_of_row new_row cols "Color" (MapBuilder._find_level_col cols)
  = CStr auto_hex.
Proof.
  intros Hlevel Hcolor. cbv zeta.
  destruct (level_color_trimmed (F:=F) level_value) as (Hstrip & Hne & Hvalid).
  cbv zeta in Hstrip, Hne, Hvalid.
  set (auto_hex := risk_to_color_hex level_value DEFAULT_HEX) in *.
  set (new_row := Forms.build_new_row (Some lc) level_value auto_hex coordinates
                    lat lon input_vals cols).
  change (MapBuilder._find_level_col cols) with (Forms._find_level_col cols).
  rewrite Hlevel.
  assert (Hlc_in : lc ∈ cols).
  { apply list_elem_of_In. unfold Forms._find_level_col in Hlevel.
    by apply find_some in Hlevel as [? _]. }
  assert (Hlc : new_row !! lc = Some (CStr level_value)).
  { unfold new_row. rewrite build_new_row_lookup, bool_decide_eq_true_2 by done.
    unfold Forms.mirror_value. cbv zeta. by rewrite bool_decide_eq_true_2. }
  unfold MapBuilder.fill_color_of_row, MapBuilder._get_color_from_row.
  change (List.find _ cols) with (color_column cols).
  destruct Hcolor as [Hnone|(c0 & Hsome & Hlower)].
  - rewrite Hnone.
    assert (Hno : PyStr.mem "Color" cols = false).
    { apply mem_false_iff. intros Hin. unfold color_column in Hnone.
      apply list_elem_of_In in Hin.
      by apply (find_none _ _ Hnone "Color") in Hin. }
    cbv zeta. change (MapBuilder._valid_hex (@CMissing F)) with false.
    rewrite Hno. change (MapBuilder._valid_hex (@CMissing F)) with false.
    cbn [negb]. unfold row_get_or. rewrite Hlc. cbn [default from_option id].
    cbn [risk_to_color_hex_cell]. fold auto_hex. by rewrite Hvalid.
  - rewrite Hsome.
    assert (Hc0_in : c0 ∈ cols).
    { apply list_elem_of_In. unfold color_column in Hsome.
      by apply find_some in Hsome as [? _]. }
    assert (Hc0 : new_row !! c0 = Some (CStr auto_hex)).
    { unfold new_row. rewrite build_new_row_lookup, bool_decide_eq_true_2 by done.
      unfold Forms.mirror_value. cbv zeta.
      rewrite bool_decide_eq_false_2.
      - by rewrite Hlower.
      - intros [= ->]. apply find_level_col_has_level in Hlevel.
        rewrite Hlower in Hlevel. by vm_compute in Hlevel. }
    unfold row_get. rewrite Hc0. cbn [default from_option id cell_str].
    rewrite Hstrip, (proj2 (String.eqb_neq auto_hex "")) by done.
    cbv zeta. by repeat (rewrite Hvalid; cbn [negb]).
Qed.

(** X28, on the sample sheet and the level "High". *)
Lemma submitted_point_fill_color_sample :
  MapBuilder.fill_color_of_row
    (Forms.build_new_row (Some "Level Resiko") "High"
       (risk_to_color_hex "High" DEFAULT_HEX) "-7.93813533, 112.6332461"
       (@None Decimal.dec) None ∅ (columns sheet_df))
    (columns sheet_df) "Color" (MapBuilder._find_level_col (columns sheet_df))
  = CStr "#ffaa00".
Proof.
  apply (submitted_point_fill_color (F:=Decimal.dec) (columns sheet_df) "Level Resiko"
           "High" "-7.93813533, 112.6332461" None None ∅);
    [reflexivity|right; by exists "Color"].
Defined.

(** ** forms.py and map_builder.py: a coordinate header the row builder does not know *)

Section CoordinateHeader.
Context {F : Type} `{PyNum F}.


End CoordinateHeader.


